(* ===== verification/_CoqProject ===== *)
-Q . S2P
Base.v
Binary64.v
JsNum.v
NumQ.v
Js.v
Host.v
Protocol.v
Catalog.v
Extension.v
Drone.v
Tello.v
Mambo.v
Phantom4.v
Values.v
Session.v
Page.v
