(* ===== verification/Base.v ===== *)
(** * Verification of the scratch-vm drone extensions

    The repository adds three Scratch 3.0 extensions to scratch-vm:
    [src/src/extensions/scratch3_dji_tello/index.js] (class
    [DjiTelloBlocks]), [scratch3_parrot_mambo/index.js] ([ParrotMamboBlocks])
    and [scratch3_dji_phantom4/index.js] ([DjiPhantom4Blocks]).  Each class
    has a constructor, a [getInfo()] catalog of blocks and menus, and one
    method per block.  The Scratch runtime constructs the class, reads the
    catalog, and runs a block by calling the method named by its opcode
    with the block's arguments.  The methods talk to the page around them:
    they write the page's globals ([stageId], [droneFlag], [id], the instance
    globals [djiTelloInstance] and [gameInstance]), call its function
    [changeStage], load Unity WebGL builds with [UnityLoader.instantiate],
    send the simulator command strings with [SendMessage], and (Phantom 4)
    restyle two DOM elements.

    ** Files

    - [Base.v] (this file): the [js_scope] scope, the hint databases [js]
      and [js_rw], the tactics [str_cases] (case analysis on string
      comparisons with literals) and [concrete], and the string lemmas.
    - [Binary64.v]: IEEE 754 binary64 rounding (roundTiesToEven, subnormals,
      overflow to [Infinity]) of a positive rational [a / q], computed on
      integers ([bin_round]); that it depends on the value only, that a
      double rounds to itself, that integers up to [2^53] are exact, and
      the error bound [2^-53 * v + 2^-1075].
    - [JsNum.v]: a JavaScript Number as the exact decimal [m * 10^-e] of a
      double (every double is one), in canonical form, with [NaN] and the
      infinities; [num_wf x] says [x] is a double.  Rounding to the nearest
      double ([round_dec], via [Binary64.v]), ToNumber on strings
      (StringToNumber: trimming, sign, [Infinity], decimals, exponents,
      [0x]/[0o]/[0b], the literal's value rounded), Number::toString (the
      shortest digits that round back, positional or exponent form), [*]
      (the exact product rounded), [>] and [==]; the theorem that ToNumber
      inverts ToString on every Number.
    - [NumQ.v]: the rational value [dec_q m e = m / 10^e] of a finite
      number: [*] rounds the rational product within relative error
      [2^-53]; [>] and negation are the rational operations.
    - [Js.v]: values, the coercions and comparisons the handlers use, the
      [args] object ([jsargs], a [gmap]), and the monad [stM] of the
      handlers: state passing with a result or a thrown exception, the state
      changed before a throw being kept.
    - [Host.v]: the page as a record [state] (globals, Unity instances with
      their message logs, DOM elements, the log of calls to [changeStage])
      and its primitives in strict-mode semantics (an undeclared global
      throws [ReferenceError]); [silent], the footprint of code that neither
      messages a Unity instance nor calls the page.
    - [Protocol.v]: the abstract drone [command]s, [encode_command] (the
      ["0,<code>,..."] strings of the [SendMessage] calls), the simulator's
      [decode_message] and [decode_encode]; the sign and clamp arithmetic.
    - [Catalog.v]: the data of [getInfo()] ([BlockType], [ArgumentType],
      blocks, arguments, menus) and the decidable well-formedness of a
      catalog.
    - [Extension.v]: an extension as the runtime sees it, [run_block], the
      step relation [runs] of block executions (any interleaving, throwing
      blocks included) with its induction principle, and the class
      [UnityDrone]: what a Unity-backed extension promises on a ready page,
      including the frame condition [frames_stage] (the DOM and every
      global but [stageId] are kept).
    - [Drone.v]: the patterns the classes share (send and return, the
      sign/clamp speed expression, the flip switch, setting the stage), the
      complete dispatch specification [unity_block_spec], bounds of speeds,
      and the concrete pages the examples run on.
    - [Tello.v], [Mambo.v], [Phantom4.v]: Modules [DjiTelloBlocks],
      [ParrotMamboBlocks], [DjiPhantom4Blocks], one definition per block of
      the catalog ([blk_<opcode>], [menus_def], [getInfo]), per method
      (same name as in the source; [sendMessage] is the inline
      [<instance>.SendMessage("Drones", "Scratch3", msg)]), the constructor,
      and the method table [method]; then the theorems.  Tello and Mambo
      discharge [UnityDrone]; Phantom 4 sends nothing and has its own page
      layout invariant.
    - [Values.v]: the reference [ref_speed] of a speed argument in [Q]
      (capped at the limit, negated for the menu's negative direction) and
      the theorems that the handlers' JavaScript arithmetic computes it
      exactly, and that [light] sends [255 * n] rounded to a double.
    - [Session.v]: against [UnityDrone] only, scripts of blocks, runs of
      blocks, and blocks of two extensions interleaved ([run_mixed]): logs
      grow by exactly the commands' messages, each on its own instance.
    - [Page.v]: the Tello and the Mambo on one page, a Tello session from
      a freshly loaded page ([tello_session]: the constructor, then a
      script), and the three catalogs.

    The files are listed in dependency order in [_CoqProject].

    ** What is proved (claims C1-C29)

    - Dispatch (C1, C2): for Tello and Mambo, the runtime's call of any
      opcode on a ready page does what [unity_block_spec] says, on every
      branch: unknown opcode, command sent, stage switched, reporter answer.
    - Scripts and runs (C3, C4): a Tello script's messages decode back to
      its commands; along any run of Mambo blocks every logged message
      decodes to a well-formed command.
    - Phantom 4 (C5, C6, C12): no run of its blocks messages the simulator;
      its [droneFlag]/display layout invariant holds along every run; a
      missing container makes [changeStage] throw after a partial update.
    - Bounds (C7): speeds are clamped from above only.
    - Equivalence and composition (C8, C9): Tello and Mambo agree on
      their shared blocks but [changeStage] and [picture]; loading both
      leaves the later one's stage.
    - Constructors and errors (C10, C11, C13); menus (C14, C15): distinct
      menu items send distinct codes; catalogs (C16) are well formed and
      covered by the method tables.
    - Values (C17, C18, C21): every Tello speed block and each axis of the
      Mambo's [pitch_roll_yaw_gaz] send a number whose rational value is
      exactly [ref_speed] of the argument; [light] sends [255 * n] rounded
      to a double, with no bound: within [2^-53] relative error, and exact
      for an integer result up to [2^53].
    - Liveness (C19): constructing the Tello and running any script of
      catalog blocks completes normally and delivers every message, in
      order, to the fresh instance.
    - Round trip (C20): the simulator decodes each Mambo message to the
      block's command.
    - Error (C22, C29): without [UnityLoader] the Mambo and the Tello
      constructors throw after they have switched the stage, leaving no
      instance ([stage_then_load_no_loader] is the shared argument).
    - Interleaving (C23): Tello and Mambo blocks in any order on separate
      instances: each instance gets exactly its own extension's messages.
    - Unloaded instance (C24): the handlers never check for an instance;
      while [djiTelloInstance] is undefined every command block throws.
    - Range (C25): a Tello speed block sends a value in [[-L, L]] exactly
      when the speed is at least [-L]: a speed below [-L] is sent unchanged.
    - Phantom 4 layout (C26): the exact DOM and [droneFlag] values
      [changeStage] sets for each label, and that nothing else changes.
    - Missing speed (C27): an empty or non-numeric speed slot makes every
      Tello speed block send [NaN], which the simulator decodes as such.
    - Noninterference (C28): Phantom 4 blocks interleaved with Tello blocks
      leave the Tello's page ready and its log exactly the Tello's
      messages; this rests on the frame condition of [UnityDrone], which
      also keeps the DOM.

    ** Bounds and fuel

    Number printing and label scanning use fuel: [ndigits] gets
    [N.size n] steps, enough since [n < 2^(size n) <= 10^(size n)]
    ([ndigits_bound]); [strip_zeros] gets the number of digits, enough
    since each step removes one ([strip_zeros_normal_mantissa]);
    [placeholders] gets the length of the label, enough since each step
    consumes a character ([placeholders_fuel_enough]).
    [shortest] tries [k = 1, 2, ...] significant digits and gets the
    number of digits [D] of the value as fuel, enough since at [k = D] the
    value itself is a candidate ([shortest_fuel_spec]: whatever it returns
    rounds back to the number).

    Numbers are IEEE doubles: every arithmetic result and every parsed
    literal is rounded to nearest, ties to even, with subnormals and
    overflow to [Infinity] ([0.01 * 255] is [2.5500000000000003],
    [0.1 * 0.2] prints [0.020000000000000004], [2e-324] is [0]).  The
    rounding works on exact integers, so no bound on the exponents is
    needed.  Number printing follows Number::toString: the fewest
    significant digits that round back to the double, the closest such
    digits and the even one on a tie, positional from [1e-6] up to below
    [1e21], exponent form ([1.2345678901234568e+29], [1e-7]) outside.  That
    the printed value rounds back is proved; that no shorter digits do is
    argued in the comment of [shortest_fuel], not proved.

    The source has no loop and no recursion: every handler is straight-line
    code, so there is no termination property to prove beyond the
    totality of the Rocq definitions; the liveness statement (C20) is that
    a script of any length returns normally.

    ** Not modelled

    The Scratch runtime, editor and GUI beyond [run_block] and the
    catalog's shape; the Unity simulator beyond decoding its message
    strings; [blockIconURI] (an image); [this.runtime] (stored, never used);
    the unused imports ([log], [cast], [formatMessage], [BLE],
    [Base64Util]); whitespace other than ASCII in ToNumber; the negative
    zero [-0] (identified with [0]; it prints as ["0"] in JavaScript too);
    the page's [changeStage] function, recorded as an event.  StringToNumber
    is modelled as correctly rounded, as engines implement it (ECMA-262
    allows an approximation past the 20th significant digit).  Every statement of the three classes is
    modelled: the constructor, [getInfo()] and every method, so the lines
    of the three files the map leaves out are the license header, the
    [require]s and comments.  The Unity instance is observed only through
    the log of messages it received; what it does with them (the
    simulated flight) is outside the repository. *)

From stdpp Require Import base strings list.
From Stdlib Require Import Ascii String ZArith Lia.

(** ** Scope, hint database and tactics shared by the development *)

Declare Scope js_scope.
Delimit Scope js_scope with js.

Create HintDb js discriminated.
Create Rewrite HintDb js_rw.

(** ** Strings as the handlers build them

    Messages are built by concatenation; the lemmas below are the facts about
    [++] and character predicates the protocol proofs share. *)

Fixpoint str_forall (p : ascii -> bool) (s : string) : bool :=
  match s with
  | EmptyString => true
  | String c r => p c && str_forall p r
  end.

Lemma string_app_nil_l (s : string) : "" +:+ s = s.
Proof. done. Qed.

Lemma string_app_cons c (s1 s2 : string) : String c s1 +:+ s2 = String c (s1 +:+ s2).
Proof. done. Qed.

Lemma string_app_inj_l (p s1 s2 : string) : p +:+ s1 = p +:+ s2 -> s1 = s2.
Proof.
  induction p as [|c p IH]; [done|]. rewrite !string_app_cons. intros H. injection H. apply IH.
Qed.

Lemma string_app_assoc (s1 s2 s3 : string) : (s1 +:+ s2) +:+ s3 = s1 +:+ (s2 +:+ s3).
Proof.
  induction s1 as [|c s1 IH]; [done|]. rewrite !string_app_cons. by f_equal.
Qed.

Lemma string_app_nil_r (s : string) : s +:+ "" = s.
Proof. induction s as [|c s IH]; [done|]. rewrite string_app_cons. by f_equal. Qed.

Lemma string_length_app (s1 s2 : string) :
  String.length (s1 +:+ s2) = (String.length s1 + String.length s2)%nat.
Proof. induction s1 as [|c s1 IH]; [done|]. rewrite string_app_cons. simpl. by f_equal. Qed.

Lemma str_forall_app p s1 s2 :
  str_forall p (s1 +:+ s2) = str_forall p s1 && str_forall p s2.
Proof.
  induction s1 as [|c s1 IH]; [done|]. rewrite string_app_cons. simpl.
  by rewrite IH, andb_assoc.
Qed.

Lemma str_forall_impl (p q : ascii -> bool) s :
  (forall c, p c = true -> q c = true) -> str_forall p s = true -> str_forall q s = true.
Proof.
  intros Hpq. induction s as [|c s IH]; [done|]. simpl.
  intros [Hc Hs]%andb_prop. by rewrite Hpq, IH.
Qed.

#[export] Hint Rewrite string_app_nil_l string_app_cons str_forall_app string_app_assoc string_app_nil_r
  string_length_app String.eqb_refl : js_rw.

(** Case analysis on the [String.eqb x "lit"] tests of a dispatch table: in
    the branch where the test holds, [x] is replaced by the literal and the
    remaining tests compute. *)
Ltac str_cases :=
  repeat match goal with
  | |- context [String.eqb ?x ?lit] =>
      is_var x; destruct (String.eqb_spec x lit) as [->|?]; simpl in *
  | H : context [String.eqb ?x ?lit] |- _ =>
      is_var x; destruct (String.eqb_spec x lit) as [->|?]; simpl in *
  end.

(** Discharges a side condition on concrete data by evaluation. *)
Ltac concrete :=
  first [ reflexivity
        | eexists; reflexivity
        | apply (bool_decide_unpack _); vm_compute; exact I
        | lia ].
