(* ===== verification/Binary64.v ===== *)
(** * Binary64: the double nearest to a positive rational

    A JavaScript Number is an IEEE 754 double: a finite one is [M * 2^E]
    with [0 <= M < 2^53] and [-1074 <= E], and [M >= 2^52] unless
    [E = -1074] (subnormals); the values at or beyond [2^1024] are the
    infinities.  ToNumber and [*] round their exact result with
    roundTiesToEven.  This file computes that rounding for a positive
    rational [a / q] on integers: [bin_round a q] is [Some (M, E)], the
    nearest double being [M * 2^E], or [None] when the result overflows to
    [Infinity].  It proves that the result depends on the value of [a / q]
    only ([bin_round_eqv]), that it is zero or a double in its unique
    representation ([bin_round_bounds]), that a double rounds to itself
    ([bin_round_double]), that integers up to [2^53] are doubles
    ([bin_round_int]), and the error bound [|x - v| <= 2^-53 * v +
    2^-1075] ([bin_round_err]). *)

From stdpp Require Import base tactics.
From Stdlib Require Import ZArith Bool Lia.

Local Open Scope Z_scope.
Local Open Scope bool_scope.

(** [n / d] rounded to the nearest integer, ties to even ([d > 0]). *)
Definition rne (n d : Z) : Z :=
  let q := n / d in
  let r := n mod d in
  match Z.compare (2 * r) d with
  | Lt => q
  | Gt => q + 1
  | Eq => if Z.even q then q else q + 1
  end.

(** [a / q * 2^-E] as a fraction whose powers have non-negative exponents. *)
Definition scaled (a q E : Z) : Z * Z :=
  if 0 <=? E then (a, q * 2 ^ E) else (a * 2 ^ (- E), q).

(** [a / q >= 2^k]. *)
Definition ge_pow2 (a q k : Z) : bool := let '(n, d) := scaled a q k in d <=? n.

(** [floor (log2 (a / q))] for [a, q > 0]: the difference of the integer
    logarithms is right or one too large. *)
Definition flog2 (a q : Z) : Z :=
  let k := Z.log2 a - Z.log2 q in if ge_pow2 a q k then k else k - 1.

(** The least exponent and the precision of binary64. *)
Definition emin : Z := -1074.
Definition prec : Z := 53.

(** The exponent of the nearest double: [2^52 <= a / q * 2^-E < 2^53] for a
    normal result, [E = emin] for a subnormal one. *)
Definition bin_exp (a q : Z) : Z := Z.max emin (flog2 a q - (prec - 1)).

(** Rounding up to [2^53] carries into the exponent; a result at or beyond
    [2^1024] is [Infinity]. *)
Definition bin_round (a q : Z) : option (Z * Z) :=
  let E := bin_exp a q in
  let M := let '(n, d) := scaled a q E in rne n d in
  let '(M', E') := if M =? 2 ^ prec then (2 ^ (prec - 1), E + 1) else (M, E) in
  if (0 <=? E') && (2 ^ 1024 <=? M' * 2 ^ E') then None else Some (M', E').

(** [M * 2^E] as a fraction. *)
Definition bin_frac (M E : Z) : Z * Z :=
  if 0 <=? E then (M * 2 ^ E, 1) else (M, 2 ^ (- E)).

(** ** Rounding to an integer *)

Section rne.
Context (n d : Z) (Hd : 0 < d).

Lemma rne_bounds : n / d <= rne n d <= n / d + 1.
Proof. unfold rne. destruct (Z.compare_spec (2 * (n mod d)) d); try case_match; lia. Qed.

Lemma rne_le (B : Z) : n < B * d -> rne n d <= B.
Proof.
  intros H. pose proof rne_bounds as [_ Hb].
  assert (n / d < B) by (apply Z.div_lt_upper_bound; lia). lia.
Qed.

Lemma rne_ge (B : Z) : B * d <= n -> B <= rne n d.
Proof.
  intros H. pose proof rne_bounds as [Hb _].
  assert (B <= n / d) by (apply Z.div_le_lower_bound; lia). lia.
Qed.

Lemma rne_scale (t : Z) : 0 < t -> rne (n * t) (d * t) = rne n d.
Proof.
  intros Ht. unfold rne.
  rewrite Z.div_mul_cancel_r, Z.mul_mod_distr_r by lia.
  replace (2 * (n mod d * t)) with (2 * (n mod d) * t) by ring.
  rewrite <- Zmult_compare_compat_r by lia. done.
Qed.
End rne.

Lemma rne_exact (M d : Z) : 0 < d -> rne (M * d) d = M.
Proof.
  intros Hd. unfold rne. rewrite Z.div_mul, Z.mod_mul by lia.
  replace (2 * 0 ?= d) with Lt by (symmetry; apply Z.compare_lt_iff; lia). done.
Qed.

(** ** Scaling by powers of two *)

Section scaled.
Context (a q : Z) (Ha : 0 < a) (Hq : 0 < q).

Lemma scaled_pos (E : Z) : let '(n, d) := scaled a q E in 0 < n /\ 0 < d.
Proof. unfold scaled. destruct (Z.leb_spec 0 E); split; try lia; apply Z.mul_pos_pos; lia. Qed.

(** Raising the exponent by [j] divides the fraction by [2^j]. *)
Lemma scaled_cross (E j : Z) : 0 <= j ->
  let '(n, d) := scaled a q E in let '(n', d') := scaled a q (E + j) in
  n' * d * 2 ^ j = n * d'.
Proof.
  intros Hj. unfold scaled.
  destruct (Z.leb_spec 0 E), (Z.leb_spec 0 (E + j)); try lia.
  - rewrite Z.pow_add_r by lia. ring.
  - replace (2 ^ j) with (2 ^ (- E) * 2 ^ (E + j)) by (rewrite <- Z.pow_add_r by lia; f_equal; lia). ring.
  - replace (2 ^ (- E)) with (2 ^ (- (E + j)) * 2 ^ j) by (rewrite <- Z.pow_add_r by lia; f_equal; lia). ring.
Qed.

Lemma ge_pow2_shift (E j : Z) : 0 <= j ->
  let '(n, d) := scaled a q E in ge_pow2 a q (E + j) = (d * 2 ^ j <=? n).
Proof.
  intros Hj. pose proof (scaled_cross E j Hj) as Hc. pose proof (scaled_pos E) as Hp.
  pose proof (scaled_pos (E + j)) as Hp'. unfold ge_pow2.
  destruct (scaled a q E) as [n d], (scaled a q (E + j)) as [n' d'].
  assert (H2 : 0 < 2 ^ j) by (apply Z.pow_pos_nonneg; lia).
  apply Bool.eq_iff_eq_true. rewrite !Z.leb_le. split; intros H; nia.
Qed.

(** [a / q >= 2^k] as an inequality of integers, for any [c >= 0] that
    makes [k + c] non-negative. *)
Lemma ge_pow2_iff (k c : Z) : 0 <= c -> 0 <= k + c ->
  ge_pow2 a q k = true <-> q * 2 ^ (k + c) <= a * 2 ^ c.
Proof.
  intros Hc Hkc. pose proof (ge_pow2_shift (- c) (k + c) Hkc) as Hs.
  replace (- c + (k + c)) with k in Hs by lia.
  unfold scaled at 1 in Hs. destruct (0 <=? - c) eqn:E; rewrite Hs, Z.leb_le.
  - apply Z.leb_le in E. assert (c = 0) by lia. subst c. rewrite Z.add_0_r. simpl. lia.
  - rewrite Z.opp_involutive. lia.
Qed.

Lemma ge_pow2_mono (k k' : Z) : k' <= k -> ge_pow2 a q k = true -> ge_pow2 a q k' = true.
Proof.
  intros Hk H. set (c := Z.abs k + Z.abs k').
  rewrite (ge_pow2_iff k c) in H by lia. apply (ge_pow2_iff k' c); [lia..|].
  replace (k + c) with ((k' + c) + (k - k')) in H by lia.
  rewrite Z.pow_add_r in H by lia.
  assert (0 < 2 ^ (k' + c)) by (apply Z.pow_pos_nonneg; lia).
  assert (0 < 2 ^ (k - k')) by (apply Z.pow_pos_nonneg; lia). nia.
Qed.

Lemma flog2_spec : ge_pow2 a q (flog2 a q) = true /\ ge_pow2 a q (flog2 a q + 1) = false.
Proof.
  pose proof (Z.log2_spec a Ha) as [Ha1 Ha2]. pose proof (Z.log2_spec q Hq) as [Hq1 Hq2].
  pose proof (Z.log2_nonneg a). pose proof (Z.log2_nonneg q).
  set (la := Z.log2 a) in *. set (lq := Z.log2 q) in *.
  set (A := 2 ^ la) in *. set (Q := 2 ^ lq) in *.
  rewrite Z.pow_succ_r in Ha2, Hq2 by lia.
  set (c := lq + 2).
  assert (Hc : 2 ^ c = 4 * Q) by (unfold c; rewrite Z.pow_add_r by lia; unfold Q; lia).
  assert (Hlo : ge_pow2 a q (la - lq - 1) = true).
  { apply (ge_pow2_iff _ c); [lia|lia|]. replace (la - lq - 1 + c) with (la + 1) by (unfold c; lia).
    rewrite Z.pow_add_r, Hc by lia. fold A. rewrite Z.pow_1_r. nia. }
  assert (Hhi : ge_pow2 a q (la - lq + 1) = false).
  { destruct (ge_pow2 a q (la - lq + 1)) eqn:E; [|done].
    apply (ge_pow2_iff _ c) in E; [|lia|lia]. replace (la - lq + 1 + c) with (la + 3) in E by (unfold c; lia).
    rewrite Z.pow_add_r, Hc in E by lia. fold A in E. change (2 ^ 3) with 8 in E. nia. }
  unfold flog2. fold la lq. destruct (ge_pow2 a q (la - lq)) eqn:E.
  - done.
  - replace (la - lq - 1 + 1) with (la - lq) by lia. done.
Qed.

Lemma flog2_unique (L : Z) : ge_pow2 a q L = true -> ge_pow2 a q (L + 1) = false -> flog2 a q = L.
Proof.
  intros H1 H2. destruct flog2_spec as [F1 F2].
  destruct (Z.lt_total (flog2 a q) L) as [Hlt|[Heq|Hgt]]; [|done|].
  - rewrite (ge_pow2_mono L (flog2 a q + 1)) in F2 by (lia || done). discriminate.
  - rewrite (ge_pow2_mono (flog2 a q) (L + 1)) in H2 by (lia || done). discriminate.
Qed.
End scaled.

(** ** The result depends on the value [a / q] only *)

Lemma scaled_scale (a q t E : Z) : scaled (a * t) (q * t) E = (fst (scaled a q E) * t, snd (scaled a q E) * t).
Proof. unfold scaled. destruct (0 <=? E); simpl; f_equal; ring. Qed.

Lemma ge_pow2_scale (a q t k : Z) : 0 < t -> ge_pow2 (a * t) (q * t) k = ge_pow2 a q k.
Proof.
  intros Ht. unfold ge_pow2. rewrite scaled_scale. destruct (scaled a q k) as [n d]. simpl.
  apply Bool.eq_iff_eq_true. rewrite !Z.leb_le. nia.
Qed.

Lemma bin_round_scale (a q t : Z) : 0 < a -> 0 < q -> 0 < t -> bin_round (a * t) (q * t) = bin_round a q.
Proof.
  intros Ha Hq Ht. unfold bin_round, bin_exp.
  assert (Hf : flog2 (a * t) (q * t) = flog2 a q).
  { destruct (flog2_spec a q Ha Hq) as [F1 F2]. apply flog2_unique; [nia|nia|..];
      by rewrite ge_pow2_scale. }
  rewrite Hf, scaled_scale. pose proof (scaled_pos a q Ha Hq (Z.max emin (flog2 a q - (prec - 1)))) as Hp.
  destruct (scaled a q _) as [n d]. simpl. rewrite rne_scale by lia. done.
Qed.

(** ** A double rounds to itself *)

(** [M * 2^E] is a finite double, in its unique representation. *)
Definition is_double (M E : Z) : Prop :=
  1 <= M < 2 ^ prec /\ emin <= E /\ (2 ^ (prec - 1) <= M \/ E = emin) /\
  (E < 0 \/ M * 2 ^ E < 2 ^ 1024).

Lemma bin_round_exact (a q M E : Z) : 0 < a -> 0 < q -> is_double M E ->
  fst (scaled a q E) = M * snd (scaled a q E) -> bin_round a q = Some (M, E).
Proof.
  intros Ha Hq (HM & HE & Hn & Ho) Hv. unfold prec, emin in *.
  pose proof (Z.log2_spec M ltac:(lia)) as [HM1 HM2].
  assert (Hl : 0 <= Z.log2 M < 53).
  { split; [apply Z.log2_nonneg|]. apply Z.log2_lt_pow2; lia. }
  assert (Hf : flog2 a q = E + Z.log2 M).
  { pose proof (scaled_pos a q Ha Hq E) as Hp.
    apply flog2_unique; [done|done|..].
    - pose proof (ge_pow2_shift a q Ha Hq E (Z.log2 M) ltac:(lia)) as Hs.
      destruct (scaled a q E) as [n d]. simpl in Hv. rewrite Hs, Z.leb_le. nia.
    - pose proof (ge_pow2_shift a q Ha Hq E (Z.log2 M + 1) ltac:(lia)) as Hs.
      rewrite Z.add_assoc in Hs.
      destruct (scaled a q E) as [n d]. simpl in Hv. rewrite Hs. apply Z.leb_gt. nia. }
  assert (HE' : bin_exp a q = E).
  { unfold bin_exp, prec, emin. rewrite Hf. destruct Hn as [Hn|Hn].
    - assert (Z.log2 M = 52); [|lia].
      enough (52 <= Z.log2 M) by lia. apply Z.log2_le_pow2; lia.
    - lia. }
  unfold bin_round. rewrite HE'. pose proof (scaled_pos a q Ha Hq E) as Hp.
  destruct (scaled a q E) as [n d]. simpl in Hv. subst n. rewrite rne_exact by lia.
  unfold prec. replace (M =? 2 ^ 53) with false by (symmetry; apply Z.eqb_neq; lia). cbv iota beta.
  destruct (Z.leb_spec 0 E); [|done].
  destruct Ho as [Ho|Ho]; [lia|]. by rewrite (proj2 (Z.leb_gt _ _) Ho).
Qed.

(** ** What a result looks like *)

(** Before the carry, the mantissa is at most [2^53], and at least [2^52]
    unless the exponent is the least one. *)
Lemma bin_mant_bounds (a q : Z) : 0 < a -> 0 < q ->
  let E := bin_exp a q in let M := let '(n, d) := scaled a q E in rne n d in
  0 <= M <= 2 ^ prec /\ emin <= E /\ (2 ^ (prec - 1) <= M \/ E = emin).
Proof.
  intros Ha Hq. cbv zeta. destruct (flog2_spec a q Ha Hq) as [F1 F2].
  set (E0 := bin_exp a q). pose proof (scaled_pos a q Ha Hq E0) as Hp.
  pose proof (ge_pow2_shift a q Ha Hq E0 53 ltac:(lia)) as H53.
  pose proof (ge_pow2_shift a q Ha Hq E0 52 ltac:(lia)) as H52.
  destruct (scaled a q E0) as [n d].
  assert (HE0 : flog2 a q - 52 <= E0 /\ -1074 <= E0) by (unfold E0, bin_exp, emin, prec; lia).
  unfold prec, emin. change (53 - 1) with 52. split_and!.
  - pose proof (rne_ge n d ltac:(lia) 0 ltac:(lia)). lia.
  - apply rne_le; [lia|]. destruct (ge_pow2 a q (E0 + 53)) eqn:G.
    + apply (ge_pow2_mono a q Ha Hq _ (flog2 a q + 1)) in G; [congruence|lia].
    + symmetry in H53. apply Z.leb_gt in H53. lia.
  - lia.
  - destruct (Z.eq_dec E0 (-1074)) as [->|Hne]; [right; done|left].
    assert (HE : E0 = flog2 a q - 52) by (unfold E0, bin_exp, emin, prec in *; lia).
    apply rne_ge; [lia|]. replace (E0 + 52) with (flog2 a q) in H52 by lia.
    rewrite F1 in H52. symmetry in H52. apply Z.leb_le in H52. lia.
Qed.

Lemma no_overflow (M E : Z) :
  ((0 <=? E) && (2 ^ 1024 <=? M * 2 ^ E)) = false -> E < 0 \/ M * 2 ^ E < 2 ^ 1024.
Proof. intros H. apply andb_false_iff in H as [H|H]; apply Z.leb_gt in H; lia. Qed.

(** A finite result is zero (underflow) or a double in its unique
    representation. *)
Lemma bin_round_bounds (a q M E : Z) : 0 < a -> 0 < q -> bin_round a q = Some (M, E) ->
  M = 0 \/ is_double M E.
Proof.
  intros Ha Hq H. pose proof (bin_mant_bounds a q Ha Hq) as HB. unfold bin_round in H. cbv zeta in HB.
  destruct (scaled a q (bin_exp a q)) as [n d]. set (M0 := rne n d) in *. set (E0 := bin_exp a q) in *.
  unfold is_double, prec, emin in *. change (53 - 1) with 52 in *.
  destruct (Z.eqb_spec M0 (2 ^ 53)) as [HM|HM]; cbv iota beta in H;
    destruct ((0 <=? _) && _) eqn:Ho; try discriminate; injection H as <- <-; apply no_overflow in Ho.
  - right. split_and!; lia.
  - destruct (Z.eq_dec M0 0); [left; done|right]. split_and!; lia.
Qed.

(** ** Equal fractions round alike; a double rounds to itself *)

Lemma bin_round_eqv (a q a' q' : Z) : 0 < a -> 0 < q -> 0 < a' -> 0 < q' -> a * q' = a' * q ->
  bin_round a q = bin_round a' q'.
Proof.
  intros Ha Hq Ha' Hq' Hv. rewrite <- (bin_round_scale a q q'), <- (bin_round_scale a' q' q) by lia.
  rewrite Hv. f_equal. apply Z.mul_comm.
Qed.

Lemma bin_frac_pos (M E : Z) : 0 < M -> 0 < fst (bin_frac M E) /\ 0 < snd (bin_frac M E).
Proof.
  intros HM. unfold bin_frac. destruct (Z.leb_spec 0 E); simpl; split; try lia;
    try apply Z.mul_pos_pos; try lia; apply Z.pow_pos_nonneg; lia.
Qed.

Lemma bin_round_double (M E : Z) : is_double M E ->
  bin_round (fst (bin_frac M E)) (snd (bin_frac M E)) = Some (M, E).
Proof.
  intros Hd. destruct (bin_frac_pos M E) as [H1 H2]; [unfold is_double in Hd; lia|].
  apply bin_round_exact; [done..|]. unfold bin_frac, scaled in *.
  destruct (Z.leb_spec 0 E); cbn [fst snd]; ring.
Qed.

(** An integer of magnitude at most [2^53] is a double. *)
Lemma bin_round_int (z : Z) : 0 < z <= 2 ^ prec ->
  exists M E, bin_round z 1 = Some (M, E) /\ fst (bin_frac M E) = z * snd (bin_frac M E).
Proof.
  intros Hz. unfold prec in Hz. pose proof (Z.log2_spec z ltac:(lia)) as [Hl1 Hl2].
  rewrite Z.pow_succ_r in Hl2 by apply Z.log2_nonneg.
  assert (Hl : 0 <= Z.log2 z <= 53).
  { split; [apply Z.log2_nonneg|].
    assert (H : Z.log2 z <= Z.log2 (2 ^ 53)) by (apply Z.log2_le_mono; lia).
    by rewrite Z.log2_pow2 in H by lia. }
  destruct (Z.eq_dec (Z.log2 z) 53) as [H53|H53].
  - exists (2 ^ 52), 1. assert (z = 2 ^ 53) by (rewrite H53 in Hl1; lia). subst z.
    split; [|reflexivity]. apply bin_round_exact; [lia|lia| |reflexivity].
    unfold is_double, prec, emin. lia.
  - set (k := 52 - Z.log2 z).
    assert (Hk : 2 ^ 52 = 2 ^ Z.log2 z * 2 ^ k) by (rewrite <- Z.pow_add_r by lia; f_equal; lia).
    assert (Hk1 : 0 <= k <= 52) by lia. clearbody k.
    exists (z * 2 ^ k), (- k). split.
    + apply bin_round_exact; [lia|lia| |].
      * unfold is_double, prec, emin. change (53 - 1) with 52.
        assert (0 < 2 ^ k) by (apply Z.pow_pos_nonneg; lia). split_and!; try nia.
        destruct (Z.eq_dec k 0) as [->|]; [right; simpl; lia|left; lia].
      * unfold scaled. rewrite Z.opp_involutive.
        destruct (Z.leb_spec 0 (- k)); cbn [fst snd]; [replace k with 0 by lia; change (- 0) with 0|]; ring.
    + unfold bin_frac. rewrite Z.opp_involutive.
      destruct (Z.leb_spec 0 (- k)); cbn [fst snd]; [replace k with 0 by lia; change (- 0) with 0|]; ring.
Qed.

(** ** The rounding error *)

Lemma rne_err (n d : Z) : 0 < d -> 2 * Z.abs (rne n d * d - n) <= d.
Proof.
  intros Hd. pose proof (Z.div_mod n d ltac:(lia)) as Hn. pose proof (Z.mod_pos_bound n d Hd) as Hr.
  unfold rne. set (q := n / d) in *. set (r := n mod d) in *.
  destruct (Z.compare_spec (2 * r) d); [destruct (Z.even q)|..]; lia.
Qed.

(** Unless the exponent is the least one, the scaled value has 53 bits. *)
Lemma bin_exp_normal (a q : Z) : 0 < a -> 0 < q -> bin_exp a q <> emin ->
  let '(n, d) := scaled a q (bin_exp a q) in 2 ^ 52 * d <= n.
Proof.
  intros Ha Hq Hne. destruct (flog2_spec a q Ha Hq) as [F1 _].
  assert (HE : bin_exp a q + 52 = flog2 a q) by (unfold bin_exp, emin, prec in *; lia).
  pose proof (ge_pow2_shift a q Ha Hq (bin_exp a q) 52 ltac:(lia)) as H.
  destruct (scaled a q (bin_exp a q)) as [n d]. rewrite HE, F1 in H.
  symmetry in H. apply Z.leb_le in H. lia.
Qed.

(** The value of a result, in units of [2^-1074]: the carry keeps it. *)
Lemma bin_round_units (a q M E : Z) : 0 < a -> 0 < q -> bin_round a q = Some (M, E) ->
  M * 2 ^ (E + 1074) = (let '(n, d) := scaled a q (bin_exp a q) in rne n d) * 2 ^ (bin_exp a q + 1074).
Proof.
  intros Ha Hq H. pose proof (bin_mant_bounds a q Ha Hq) as HB. cbv zeta in HB.
  unfold bin_round in H. destruct (scaled a q (bin_exp a q)) as [n d].
  unfold emin, prec in *. change (53 - 1) with 52 in *.
  destruct (Z.eqb_spec (rne n d) (2 ^ 53)) as [HM|HM]; cbv iota beta in H;
    destruct ((0 <=? _) && _); try discriminate; injection H as <- <-; [|done].
  rewrite HM. replace (bin_exp a q + 1 + 1074) with (bin_exp a q + 1074 + 1) by lia.
  rewrite Z.pow_add_r by lia. change (2 ^ 1) with 2.
  change (Z.pow_pos 2 52) with (2 ^ 52). replace (2 ^ 53) with (2 ^ 52 * 2) by reflexivity. ring.
Qed.

(** A finite result [x] of rounding [v = a / q] is within [2^-53 * v + 2^-1075]
    of [v], stated in units of [2^-1074]. *)
Lemma bin_round_err (a q M E : Z) : 0 < a -> 0 < q -> bin_round a q = Some (M, E) ->
  2 * Z.abs (M * 2 ^ (E + 1074) * q - a * 2 ^ 1074) <= a * 2 ^ 1022 + q.
Proof.
  intros Ha Hq H. rewrite (bin_round_units a q M E Ha Hq H).
  pose proof (bin_mant_bounds a q Ha Hq) as (_ & HE & _). pose proof (bin_exp_normal a q Ha Hq) as Hnorm.
  unfold scaled in *. set (E0 := bin_exp a q) in *. clearbody E0. unfold emin in HE.
  destruct (Z.leb_spec 0 E0).
  - pose proof (rne_err a (q * 2 ^ E0) ltac:(apply Z.mul_pos_pos; [lia|apply Z.pow_pos_nonneg; lia])) as Herr.
    set (R := rne a (q * 2 ^ E0)) in *.
    assert (Hn : 2 ^ 52 * (q * 2 ^ E0) <= a) by (apply Hnorm; unfold emin; lia).
    replace (R * 2 ^ (E0 + 1074) * q - a * 2 ^ 1074) with (2 ^ 1074 * (R * (q * 2 ^ E0) - a))
      by (rewrite Z.pow_add_r by lia; ring).
    rewrite Z.abs_mul, Z.abs_eq by (apply Z.pow_nonneg; lia).
    replace (2 ^ 1074) with (2 ^ 1022 * 2 ^ 52) by (rewrite <- Z.pow_add_r by lia; reflexivity).
    assert (0 < 2 ^ 1022) by (apply Z.pow_pos_nonneg; lia). nia.
  - pose proof (rne_err (a * 2 ^ (- E0)) q Hq) as Herr.
    set (R := rne (a * 2 ^ (- E0)) q) in *.
    replace (R * 2 ^ (E0 + 1074) * q - a * 2 ^ 1074) with (2 ^ (E0 + 1074) * (R * q - a * 2 ^ (- E0)))
      by (replace (2 ^ 1074) with (2 ^ (E0 + 1074) * 2 ^ (- E0)) by (rewrite <- Z.pow_add_r by lia; f_equal; lia); ring).
    rewrite Z.abs_mul, Z.abs_eq by (apply Z.pow_nonneg; lia).
    assert (0 < 2 ^ (E0 + 1074)) by (apply Z.pow_pos_nonneg; lia).
    assert (0 <= a * 2 ^ 1022) by (apply Z.mul_nonneg_nonneg; [lia|apply Z.pow_nonneg; lia]).
    destruct (Z.eq_dec E0 (-1074)) as [->|Hne]; [change (-1074 + 1074) with 0; rewrite Z.pow_0_r; lia|].
    assert (Hn : 2 ^ 52 * q <= a * 2 ^ (- E0)) by (apply Hnorm; unfold emin; lia).
    set (P := 2 ^ (E0 + 1074)) in *.
    assert (Hp1 : 2 ^ 1022 * 2 ^ 52 = P * 2 ^ (- E0)) by (unfold P; rewrite <- !Z.pow_add_r by lia; f_equal; lia).
    assert (HPq : P * q <= a * 2 ^ 1022).
    { apply (Z.mul_le_mono_pos_r _ _ (2 ^ 52)); [apply Z.pow_pos_nonneg; lia|].
      replace (a * 2 ^ 1022 * 2 ^ 52) with (a * (P * 2 ^ (- E0))) by (rewrite <- Hp1; ring). nia. }
    nia.
Qed.
