(* ===== verification/JsNum.v ===== *)
(** * JavaScript numbers: arithmetic, ToString and ToNumber

    The handlers compare, multiply and print JavaScript numbers.  A finite
    Number is a double; its value is the exact decimal fraction
    [m * 10^-e] (a double [M * 2^E] with [E < 0] is [M * 5^-E * 10^E]),
    kept in canonical form, and NaN and the two infinities are
    constructors of their own.  [round_dec] rounds a decimal to the nearest
    double with [Binary64.bin_round]; [num_wf x] says that [x] is its own
    rounding.  This file holds the operations of ECMA-262 the handlers use
    -- [*] (the exact product, rounded), [>], [==], StringToNumber (the
    literal's exact value, rounded) and Number::toString (the shortest
    digits that round back) -- and their lemmas: every operation returns a
    Number, rounding depends on the value only and is idempotent, its error
    is below [2^-53] relative, integers up to [2^53] are exact, and
    [ToNumber (ToString x) = x]. *)

From stdpp Require Import base strings list.
From Stdlib Require Import Ascii ZArith NArith Lia.
From S2P Require Import Base Binary64.

Inductive jsnum :=
| JNum (m : Z) (e : nat)
| JNaN
| JInf (neg : bool).

#[export] Instance jsnum_eq_dec : EqDecision jsnum.
Proof. solve_decision. Defined.

Definition JInt (z : Z) : jsnum := JNum z 0.

(** Canonical form: a fraction has no trailing decimal zero. *)
Fixpoint dec_norm (m : Z) (e : nat) : Z * nat :=
  match e with
  | O => (m, O)
  | S e' => if (m mod 10 =? 0)%Z then dec_norm (m / 10) e' else (m, e)
  end.

Definition dec_normal (m : Z) (e : nat) : bool :=
  match e with
  | O => true
  | S _ => negb (m mod 10 =? 0)%Z
  end.

(** The canonical form of a number. *)
Definition num_canon (x : jsnum) : bool :=
  match x with
  | JNum m e => dec_normal m e
  | _ => true
  end.

Definition mk_num (m : Z) (e : nat) : jsnum :=
  let '(m', e') := dec_norm m e in JNum m' e'.

Definition num_neg (x : jsnum) : jsnum :=
  match x with
  | JNum m e => JNum (- m) e
  | JNaN => JNaN
  | JInf b => JInf (negb b)
  end.

(** ** Rounding to a double *)

(** The decimal value of the double [M * 2^E]: [2^-k = 5^k * 10^-k]. *)
Definition dec_of_bin (M E : Z) : jsnum :=
  if (0 <=? E)%Z then mk_num (M * 2 ^ E) 0 else mk_num (M * 5 ^ (- E)) (Z.to_nat (- E)).

(** The double nearest to [a / q > 0], or [+Infinity]. *)
Definition round_pos (a q : Z) : jsnum :=
  match bin_round a q with
  | Some (M, E) => dec_of_bin M E
  | None => JInf false
  end.

(** The double nearest to [m * 10^-e] (roundTiesToEven, symmetric in the
    sign), as every arithmetic operation and ToNumber deliver it. *)
Definition round_dec (m : Z) (e : nat) : jsnum :=
  if (m =? 0)%Z then JInt 0
  else if (m <? 0)%Z then num_neg (round_pos (- m) (10 ^ Z.of_nat e))
  else round_pos m (10 ^ Z.of_nat e).

Definition round_num (x : jsnum) : jsnum :=
  match x with
  | JNum m e => round_dec m e
  | _ => x
  end.

(** A value of the model is a Number: a double, in canonical form. *)
Definition num_wf (x : jsnum) : bool := bool_decide (round_num x = x).

(** [x > y] (Number::lessThan with the operands swapped). *)
Definition num_gt (x y : jsnum) : bool :=
  match x, y with
  | JNaN, _ | _, JNaN => false
  | JNum m1 e1, JNum m2 e2 =>
      (m2 * 10 ^ Z.of_nat e1 <? m1 * 10 ^ Z.of_nat e2)%Z
  | JInf false, JInf false => false
  | JInf false, _ => true
  | JInf true, _ => false
  | JNum _ _, JInf neg => neg
  end.

(** [x == y] on numbers (Number::equal): NaN equals nothing. *)
Definition num_eqb (x y : jsnum) : bool :=
  match x, y with
  | JNum m1 e1, JNum m2 e2 =>
      (m1 * 10 ^ Z.of_nat e2 =? m2 * 10 ^ Z.of_nat e1)%Z
  | JInf a, JInf b => Bool.eqb a b
  | _, _ => false
  end.

Definition inf_times (m : Z) (neg : bool) : jsnum :=
  if (m =? 0)%Z then JNaN else JInf (xorb (m <? 0)%Z neg).

(** [x * y] (Number::multiply). *)
Definition num_mul (x y : jsnum) : jsnum :=
  match x, y with
  | JNaN, _ | _, JNaN => JNaN
  | JNum m1 e1, JNum m2 e2 => round_dec (m1 * m2) (e1 + e2)
  | JNum m _, JInf b | JInf b, JNum m _ => inf_times m b
  | JInf a, JInf b => JInf (xorb a b)
  end.

(** ** Number::toString (radix 10) *)

Definition digit_char (d : N) : ascii := Ascii.ascii_of_N (48 + d).

(** The [k] lowest decimal digits of [n], most significant first. *)
Fixpoint fixed_digits (k : nat) (n : N) : string :=
  match k with
  | O => ""
  | S k' => String (digit_char ((n / 10 ^ N.of_nat k') mod 10)) (fixed_digits k' n)
  end.

Fixpoint ndigits_fuel (fuel : nat) (n : N) : nat :=
  match fuel with
  | O => 1
  | S f => if (n <? 10)%N then 1 else S (ndigits_fuel f (n / 10))
  end.

(** Number of decimal digits of [n]; [N.size n] bits bound the recursion. *)
Definition ndigits (n : N) : nat := ndigits_fuel (N.to_nat (N.size n)) n.

Definition N_to_string (n : N) : string := fixed_digits (ndigits n) n.

(** [a * 10^-e] without sign: integer part, then [e] fraction digits. *)
Definition unsigned_numeral (a : N) (e : nat) : string :=
  match e with
  | O => N_to_string a
  | S _ =>
      let p := (10 ^ N.of_nat e)%N in
      N_to_string (a / p) +:+ "." +:+ fixed_digits e (a mod p)
  end.

(** [a = s * 10^t] with [s] free of trailing zeros when [a <> 0]; each
    step removes a digit, so the number of digits of [a] is enough fuel. *)
Fixpoint strip_fuel (fuel : nat) (a : N) : N * nat :=
  match fuel with
  | O => (a, O)
  | S f =>
      if (a =? 0)%N || negb (a mod 10 =? 0)%N then (a, O)
      else let '(s, t) := strip_fuel f (a / 10) in (s, S t)
  end.

Definition strip_zeros (a : N) : N * nat := strip_fuel (ndigits a) a.

(** The exponent form [d.ddde+x] (or [de+x], [e-x]) of [s * 10^(n - k)],
    [k] the number of digits of [s]: the exponent written is [n - 1]. *)
Definition exponent_numeral (s : N) (n : Z) : string :=
  let mant :=
    match N_to_string s with
    | String c EmptyString => String c EmptyString
    | String c r => String c ("." +:+ r)
    | EmptyString => EmptyString
    end in
  mant +:+ "e" +:+ (if (n - 1 <? 0)%Z then "-" else "+") +:+ N_to_string (Z.abs_N (n - 1)).

(** Number::toString of [a * 10^-e] for [a >= 0], radix 10: with [k] the
    digits of [s] and [n] such that the value is [s * 10^(n - k)],
    positional when [-6 < n <= 21], exponent form otherwise. *)
Definition unsigned_to_string (a : N) (e : nat) : string :=
  let '(s, t) := strip_zeros a in
  let n := (Z.of_nat (ndigits s) + Z.of_nat t - Z.of_nat e)%Z in
  if (a =? 0)%N || ((-6 <? n)%Z && (n <=? 21)%Z) then unsigned_numeral a e
  else exponent_numeral s n.

(** The digits Number::toString chooses for the double [x = a * 10^-e],
    [a > 0] of [D] digits: the least [k] such that a [k]-digit [s] at some
    scale rounds to [x]; among those the [s] closest to [x], the even one on
    a tie.  At scale [p = 10^(D-k)] the candidates are [x] rounded down and
    up to a multiple of [p]; any other [k]-digit number at any scale is
    farther from [x] than one of them, hence rounds to [x] only if that one
    does.  The result [c] is the chosen value over [10^e].  At [k = D] the
    candidate [a] itself is [x], so [D] steps are enough fuel. *)
Fixpoint shortest_fuel (fuel : nat) (k : nat) (a : N) (e : nat) (D : nat) : N :=
  match fuel with
  | O => a
  | S f =>
      let p := (10 ^ N.of_nat (D - k))%N in
      let lo := (a / p * p)%N in
      let hi := (lo + p)%N in
      let ok (c : N) := bool_decide (round_dec (Z.of_N c) e = JNum (Z.of_N a) e) in
      match ok lo, ok hi with
      | true, true =>
          if (a - lo <? hi - a)%N then lo
          else if (hi - a <? a - lo)%N then hi
          else if N.even (a / p) then lo else hi
      | true, false => lo
      | false, true => hi
      | false, false => shortest_fuel f (S k) a e D
      end
  end.

Definition shortest (a : N) (e : nat) : N := shortest_fuel (ndigits a) 1 a e (ndigits a).

(** The literal of a non-negative double [a * 10^-e]: its shortest digits,
    in canonical form, printed by [unsigned_to_string]. *)
Definition shortest_numeral (a : N) (e : nat) : string :=
  let '(m, e') := dec_norm (Z.of_N (shortest a e)) e in unsigned_to_string (Z.to_N m) e'.

(** Number::toString(x), radix 10 ([-0] is not modelled and prints as
    [0] as it does in JavaScript). *)
Definition num_to_string (x : jsnum) : string :=
  match x with
  | JNaN => "NaN"
  | JInf false => "Infinity"
  | JInf true => "-Infinity"
  | JNum m e => (if (m <? 0)%Z then "-" else "") +:+ shortest_numeral (Z.abs_N m) e
  end.

(** ** StringToNumber *)

(** StrWhiteSpaceChar, restricted to its ASCII members. *)
Definition is_ws (c : ascii) : bool := Ascii.is_space c.

Fixpoint trim_left (s : string) : string :=
  match s with
  | String c r => if is_ws c then trim_left r else s
  | EmptyString => EmptyString
  end.

Fixpoint trim_right (s : string) : string :=
  match s with
  | String c r =>
      let r' := trim_right r in
      if is_ws c && String.eqb r' "" then "" else String c r'
  | EmptyString => EmptyString
  end.

Definition trim (s : string) : string := trim_right (trim_left s).

Definition is_digit (c : ascii) : bool :=
  (48 <=? Ascii.N_of_ascii c)%N && (Ascii.N_of_ascii c <=? 57)%N.

Definition digit_value (c : ascii) : N := (Ascii.N_of_ascii c - 48)%N.

Fixpoint digits_val (s : string) (acc : N) : N :=
  match s with
  | EmptyString => acc
  | String c r => digits_val r (acc * 10 + digit_value c)%N
  end.

Fixpoint span_digits (s : string) : string * string :=
  match s with
  | String c r =>
      if is_digit c then let '(d, rest) := span_digits r in (String c d, rest)
      else (EmptyString, s)
  | EmptyString => (EmptyString, EmptyString)
  end.

(** Value [m * 10^-e * 10^x] of a literal with an exponent part. *)
Definition scale (m : Z) (e : nat) (x : Z) : jsnum :=
  let k := (Z.of_nat e - x)%Z in
  if (k <=? 0)%Z then mk_num (m * 10 ^ (- k)) 0 else mk_num m (Z.to_nat k).

Definition parse_exponent (s : string) : option Z :=
  let '(sgn, r) :=
    match s with
    | String c r =>
        if Ascii.eqb c "+"%char then (1%Z, r)
        else if Ascii.eqb c "-"%char then ((-1)%Z, r)
        else (1%Z, s)
    | EmptyString => (1%Z, s)
    end in
  let '(d, rest) := span_digits r in
  if String.eqb d "" || negb (String.eqb rest "") then None
  else Some (sgn * Z.of_N (digits_val d 0))%Z.

(** StrUnsignedDecimalLiteral. *)
Definition parse_unsigned (s : string) : option jsnum :=
  if String.eqb s "Infinity" then Some (JInf false) else
  let '(ip, r1) := span_digits s in
  let '(fp, r2) :=
    match r1 with
    | String c r => if Ascii.eqb c "."%char then span_digits r else (EmptyString, r1)
    | EmptyString => (EmptyString, r1)
    end in
  if String.eqb ip "" && String.eqb fp "" then None else
  let m := Z.of_N (digits_val (ip +:+ fp) 0) in
  let e := String.length fp in
  match r2 with
  | EmptyString => Some (mk_num m e)
  | String c r =>
      if Ascii.eqb c "e"%char || Ascii.eqb c "E"%char then
        match parse_exponent r with
        | Some x => Some (scale m e x)
        | None => None
        end
      else None
  end.

(** StrDecimalLiteral: an optional sign before the unsigned literal. *)
Definition parse_decimal (s : string) : option jsnum :=
  match s with
  | String c r =>
      if Ascii.eqb c "+"%char then parse_unsigned r
      else if Ascii.eqb c "-"%char then num_neg <$> parse_unsigned r
      else parse_unsigned s
  | EmptyString => parse_unsigned s
  end.

(** NonDecimalIntegerLiteral: the [0x], [0o] and [0b] prefixes. *)
Definition radix_digit (b : N) (c : ascii) : option N :=
  let n := Ascii.N_of_ascii c in
  let v :=
    if (48 <=? n)%N && (n <=? 57)%N then Some (n - 48)%N
    else if (97 <=? n)%N && (n <=? 102)%N then Some (n - 87)%N
    else if (65 <=? n)%N && (n <=? 70)%N then Some (n - 55)%N
    else None in
  match v with
  | Some d => if (d <? b)%N then Some d else None
  | None => None
  end.

Fixpoint radix_value (b : N) (s : string) (acc : N) : option N :=
  match s with
  | EmptyString => Some acc
  | String c r =>
      match radix_digit b c with
      | Some d => radix_value b r (acc * b + d)%N
      | None => None
      end
  end.

Definition parse_nondecimal (s : string) : option jsnum :=
  let digits b r :=
    match r with
    | EmptyString => None
    | _ => (fun n => JInt (Z.of_N n)) <$> radix_value b r 0%N
    end in
  match s with
  | String c0 (String c r) =>
      if negb (Ascii.eqb c0 "0"%char) then None
      else if Ascii.eqb c "x"%char || Ascii.eqb c "X"%char then digits 16%N r
      else if Ascii.eqb c "o"%char || Ascii.eqb c "O"%char then digits 8%N r
      else if Ascii.eqb c "b"%char || Ascii.eqb c "B"%char then digits 2%N r
      else None
  | _ => None
  end.

(** StringToNumber: the exact value of the literal, rounded to the nearest
    double. *)
Definition string_to_number (s : string) : jsnum :=
  let t := trim s in
  if String.eqb t "" then JInt 0 else
  match parse_nondecimal t with
  | Some n => round_num n
  | None =>
      match parse_decimal t with
      | Some n => round_num n
      | None => JNaN
      end
  end.

(** ** Lemmas *)

Section digits.

Lemma digit_value_char (d : N) : (d < 10)%N -> digit_value (digit_char d) = d.
Proof.
  intros Hd. unfold digit_value, digit_char.
  rewrite Ascii.N_ascii_embedding by lia. lia.
Qed.

Lemma is_digit_char (d : N) : (d < 10)%N -> is_digit (digit_char d) = true.
Proof.
  intros Hd. unfold is_digit, digit_char.
  rewrite Ascii.N_ascii_embedding by lia.
  apply andb_true_intro; split; apply N.leb_le; lia.
Qed.

Lemma digits_val_app (s1 s2 : string) acc :
  digits_val (s1 +:+ s2) acc = digits_val s2 (digits_val s1 acc).
Proof.
  revert acc. induction s1 as [|c s1 IH]; intros acc; [done|].
  rewrite string_app_cons. simpl. apply IH.
Qed.

Lemma fixed_digits_val (k : nat) (n acc : N) :
  digits_val (fixed_digits k n) acc = (acc * 10 ^ N.of_nat k + n mod 10 ^ N.of_nat k)%N.
Proof.
  revert acc. induction k as [|k IH]; intros acc; simpl.
  - rewrite N.mod_1_r. lia.
  - rewrite IH, digit_value_char by (apply N.mod_lt; lia).
    rewrite Nat2N.inj_succ, N.pow_succ_r', (N.mul_comm 10 (10 ^ _)).
    rewrite N.Div0.mod_mul_r.
    lia.
Qed.

Lemma fixed_digits_all (k : nat) (n : N) : str_forall is_digit (fixed_digits k n) = true.
Proof.
  induction k as [|k IH]; simpl; [done|].
  rewrite is_digit_char by (apply N.mod_lt; lia). done.
Qed.

Lemma fixed_digits_length (k : nat) (n : N) : String.length (fixed_digits k n) = k.
Proof. induction k as [|k IH]; simpl; congruence. Qed.

Lemma ndigits_fuel_bound fuel (n : N) :
  (n < 2 ^ N.of_nat fuel)%N -> (n < 10 ^ N.of_nat (ndigits_fuel fuel n))%N.
Proof.
  revert n. induction fuel as [|f IH]; intros n Hn; simpl.
  - simpl in Hn. lia.
  - destruct (N.ltb_spec n 10); [simpl; lia|].
    rewrite Nat2N.inj_succ, N.pow_succ_r'.
    assert (n / 10 < 2 ^ N.of_nat f)%N.
    { apply N.Div0.div_lt_upper_bound.
      rewrite Nat2N.inj_succ, N.pow_succ_r' in Hn. lia. }
    specialize (IH (n / 10)%N H0).
    pose proof (N.div_mod' n 10). pose proof (N.mod_lt n 10). lia.
Qed.

Lemma ndigits_bound (n : N) : (n < 10 ^ N.of_nat (ndigits n))%N.
Proof.
  apply ndigits_fuel_bound. rewrite N2Nat.id. apply N.size_gt.
Qed.

Lemma ndigits_pos (n : N) : ndigits n <> 0%nat.
Proof. unfold ndigits. destruct (N.to_nat (N.size n)); simpl; [lia|]. by case_match. Qed.

Lemma N_to_string_val (n acc : N) :
  digits_val (N_to_string n) acc = (acc * 10 ^ N.of_nat (ndigits n) + n)%N.
Proof.
  unfold N_to_string. rewrite fixed_digits_val, N.mod_small; [done|].
  apply ndigits_bound.
Qed.

Lemma N_to_string_all (n : N) : str_forall is_digit (N_to_string n) = true.
Proof. apply fixed_digits_all. Qed.

Lemma N_to_string_cons (n : N) : exists c r, N_to_string n = String c r /\ is_digit c = true.
Proof.
  pose proof (N_to_string_all n) as Hall. pose proof (ndigits_pos n) as Hpos.
  pose proof (fixed_digits_length (ndigits n) n) as Hlen.
  unfold N_to_string in *. destruct (fixed_digits (ndigits n) n) as [|c r]; simpl in *.
  - lia.
  - apply andb_prop in Hall as [? _]. eauto.
Qed.

End digits.

Section canonical.

Lemma dec_norm_normal (m : Z) (e : nat) :
  dec_normal (fst (dec_norm m e)) (snd (dec_norm m e)) = true.
Proof.
  revert m. induction e as [|e IH]; intros m; simpl; [done|].
  destruct (Z.eqb_spec (m mod 10) 0) as [_|Hne]; [apply IH|].
  simpl. by apply negb_true_iff, Z.eqb_neq.
Qed.

Lemma mk_num_canon (m : Z) (e : nat) : num_canon (mk_num m e) = true.
Proof.
  unfold mk_num. pose proof (dec_norm_normal m e).
  destruct (dec_norm m e). done.
Qed.

Lemma mk_num_normal (m : Z) (e : nat) : dec_normal m e = true -> mk_num m e = JNum m e.
Proof.
  destruct e as [|e]; [done|]. unfold mk_num. simpl.
  intros H. apply negb_true_iff in H. by rewrite H.
Qed.

Lemma mk_num_zero (e : nat) : mk_num 0 e = JInt 0.
Proof. unfold mk_num. by induction e. Qed.

(** [dec_norm] keeps the value [m * 10^-e]. *)
Lemma dec_norm_val (m : Z) (e : nat) :
  let '(m', e') := dec_norm m e in (m * 10 ^ Z.of_nat e' = m' * 10 ^ Z.of_nat e)%Z.
Proof.
  revert m. induction e as [|e IH]; intros m; simpl; [lia|].
  destruct (Z.eqb_spec (m mod 10) 0) as [H0|_]; [|lia].
  specialize (IH (m / 10)%Z). destruct (dec_norm (m / 10) e) as [m' e'].
  assert (Hm : (m = 10 * (m / 10))%Z) by (pose proof (Z.div_mod m 10); lia).
  rewrite Nat2Z.inj_succ, Z.pow_succ_r by lia. rewrite Hm at 1.
  rewrite <- Z.mul_assoc, IH. ring.
Qed.

Lemma dec_normal_opp (m : Z) (e : nat) : dec_normal (- m) e = dec_normal m e.
Proof.
  destruct e; [done|]. simpl. f_equal.
  apply Bool.eq_iff_eq_true. rewrite !Z.eqb_eq, !Z.mod_divide by lia.
  apply Z.divide_opp_r.
Qed.

Lemma num_neg_canon (x : jsnum) : num_canon (num_neg x) = num_canon x.
Proof. destruct x; simpl; [apply dec_normal_opp|done..]. Qed.

Lemma num_neg_involutive (x : jsnum) : num_neg (num_neg x) = x.
Proof. destruct x; simpl; f_equal; [lia|apply negb_involutive]. Qed.

Lemma pow10_pos (e : nat) : (0 < 10 ^ Z.of_nat e)%Z.
Proof. apply Z.pow_pos_nonneg; lia. Qed.

End canonical.

(** ** Rounding depends on the value only and is idempotent *)

Section rounding.

Lemma round_pos_eqv (a q a' q' : Z) : (0 < a)%Z -> (0 < q)%Z -> (0 < a')%Z -> (0 < q')%Z ->
  (a * q' = a' * q)%Z -> round_pos a q = round_pos a' q'.
Proof. intros. unfold round_pos. by rewrite (bin_round_eqv a q a' q'). Qed.

(** Two decimal fractions of the same value round alike. *)
Lemma round_dec_eqv (m m' : Z) (e e' : nat) :
  (m * 10 ^ Z.of_nat e' = m' * 10 ^ Z.of_nat e)%Z -> round_dec m e = round_dec m' e'.
Proof.
  intros Hv. pose proof (pow10_pos e). pose proof (pow10_pos e'). unfold round_dec.
  destruct (Z.eqb_spec m 0), (Z.eqb_spec m' 0); [done|nia|nia|].
  destruct (Z.ltb_spec m 0), (Z.ltb_spec m' 0); try nia; [f_equal|]; apply round_pos_eqv; nia.
Qed.

Lemma round_num_mk_num (m : Z) (e : nat) : round_num (mk_num m e) = round_dec m e.
Proof.
  unfold mk_num. pose proof (dec_norm_val m e) as Hv.
  destruct (dec_norm m e) as [m' e']. simpl. apply round_dec_eqv. lia.
Qed.

Lemma round_dec_opp (m : Z) (e : nat) : round_dec (- m) e = num_neg (round_dec m e).
Proof.
  unfold round_dec. destruct (Z.eqb_spec m 0) as [->|Hm]; [done|].
  rewrite (proj2 (Z.eqb_neq (- m) 0)) by lia.
  destruct (Z.ltb_spec m 0), (Z.ltb_spec (- m) 0); try lia.
  - by rewrite num_neg_involutive.
  - by rewrite Z.opp_involutive.
Qed.

Lemma round_num_neg (x : jsnum) : round_num (num_neg x) = num_neg (round_num x).
Proof. destruct x; simpl; [apply round_dec_opp|done..]. Qed.

Lemma round_dec_of_bin (M E : Z) : (0 < M)%Z ->
  round_num (dec_of_bin M E) = round_pos (fst (bin_frac M E)) (snd (bin_frac M E)).
Proof.
  intros HM. unfold dec_of_bin, bin_frac.
  destruct (Z.leb_spec 0 E); rewrite round_num_mk_num; unfold round_dec; simpl.
  - assert (0 < 2 ^ E)%Z by (apply Z.pow_pos_nonneg; lia).
    rewrite (proj2 (Z.eqb_neq _ 0)), (proj2 (Z.ltb_ge _ 0)) by nia. done.
  - assert (0 < 5 ^ (- E))%Z by (apply Z.pow_pos_nonneg; lia).
    assert (0 < 2 ^ (- E))%Z by (apply Z.pow_pos_nonneg; lia).
    rewrite (proj2 (Z.eqb_neq _ 0)), (proj2 (Z.ltb_ge _ 0)) by nia.
    apply round_pos_eqv; try nia. rewrite Z2Nat.id by lia.
    change 10%Z with (2 * 5)%Z. rewrite Z.pow_mul_l. ring.
Qed.

(** A double is its own rounding. *)
Lemma round_num_double (M E : Z) : is_double M E -> round_num (dec_of_bin M E) = dec_of_bin M E.
Proof.
  intros Hd. rewrite round_dec_of_bin by (unfold is_double in Hd; lia).
  unfold round_pos. by rewrite bin_round_double.
Qed.

Lemma round_pos_idem (a q : Z) : (0 < a)%Z -> (0 < q)%Z -> round_num (round_pos a q) = round_pos a q.
Proof.
  intros Ha Hq. unfold round_pos. destruct (bin_round a q) as [[M E]|] eqn:Hb; [|done].
  destruct (bin_round_bounds a q M E Ha Hq Hb) as [->|Hd]; [|by apply round_num_double].
  unfold dec_of_bin. rewrite !Z.mul_0_l. by destruct (0 <=? E)%Z; rewrite mk_num_zero.
Qed.

Lemma round_num_idem (x : jsnum) : round_num (round_num x) = round_num x.
Proof.
  destruct x as [m e| |]; [|done..]. simpl. unfold round_dec.
  pose proof (pow10_pos e). destruct (Z.eqb_spec m 0); [done|].
  destruct (Z.ltb_spec m 0).
  - rewrite round_num_neg, round_pos_idem by lia. done.
  - apply round_pos_idem; lia.
Qed.

Lemma num_wf_spec (x : jsnum) : num_wf x = true <-> round_num x = x.
Proof. apply bool_decide_eq_true. Qed.

Lemma num_wf_round (x : jsnum) : num_wf (round_num x) = true.
Proof. apply num_wf_spec, round_num_idem. Qed.

Lemma num_wf_nan : num_wf JNaN = true.
Proof. by apply num_wf_spec. Qed.

Lemma num_wf_inf (b : bool) : num_wf (JInf b) = true.
Proof. by apply num_wf_spec. Qed.

Lemma num_neg_wf (x : jsnum) : num_wf (num_neg x) = num_wf x.
Proof.
  apply Bool.eq_iff_eq_true. rewrite !num_wf_spec, round_num_neg. split; [|by intros ->].
  intros H. apply (f_equal num_neg) in H. by rewrite !num_neg_involutive in H.
Qed.

Lemma round_pos_canon (a q : Z) : num_canon (round_pos a q) = true.
Proof. unfold round_pos, dec_of_bin. repeat case_match; try apply mk_num_canon; done. Qed.

Lemma round_num_canon (x : jsnum) : num_canon (round_num x) = true.
Proof.
  destruct x as [m e| |]; [|done..]. simpl. unfold round_dec.
  repeat case_match; rewrite ?num_neg_canon; try done; apply round_pos_canon.
Qed.

Lemma num_mul_wf (x y : jsnum) : num_wf (num_mul x y) = true.
Proof.
  destruct x as [m1 e1| |], y as [m2 e2| |]; simpl; try apply (num_wf_round (JNum _ _));
    unfold inf_times; repeat case_match; first [apply num_wf_nan|apply num_wf_inf].
Qed.

(** ** Exact values *)

(** A fraction with more decimals than a normal one of the same value
    ends in a zero. *)
Lemma dec_normal_lt (m m' : Z) (e e' : nat) : (e < e')%nat -> dec_normal m' e' = true ->
  (m * 10 ^ Z.of_nat e' = m' * 10 ^ Z.of_nat e)%Z -> False.
Proof.
  intros Hlt Hn Hv. destruct e' as [|e'']; [lia|]. simpl in Hn. apply negb_true_iff, Z.eqb_neq in Hn.
  apply Hn. set (P := (10 ^ (Z.of_nat (S e'') - Z.of_nat e - 1))%Z).
  assert (HP : (10 ^ Z.of_nat (S e'') = 10 ^ Z.of_nat e * (10 * P))%Z)
    by (unfold P; rewrite <- Z.pow_succ_r, <- Z.pow_add_r by lia; f_equal; lia).
  assert (m' = m * (10 * P))%Z as ->.
  { apply (Z.mul_cancel_r _ _ (10 ^ Z.of_nat e)); [pose proof (pow10_pos e); lia|].
    rewrite <- Hv, HP. ring. }
  apply Z.mod_divide; [lia|]. exists (m * P)%Z. ring.
Qed.

(** The canonical form is unique. *)
Lemma dec_normal_unique (m m' : Z) (e e' : nat) :
  dec_normal m e = true -> dec_normal m' e' = true ->
  (m * 10 ^ Z.of_nat e' = m' * 10 ^ Z.of_nat e)%Z -> m = m' /\ e = e'.
Proof.
  intros Hn Hn' Hv. destruct (Nat.lt_total e e') as [Hlt|[<-|Hlt]].
  - exfalso. by apply (dec_normal_lt m m' e e').
  - split; [|done]. pose proof (pow10_pos e). nia.
  - exfalso. apply (dec_normal_lt m' m e' e); [done|done|lia].
Qed.

Lemma mk_num_eqv (m m' : Z) (e e' : nat) :
  (m * 10 ^ Z.of_nat e' = m' * 10 ^ Z.of_nat e)%Z -> mk_num m e = mk_num m' e'.
Proof.
  intros Hv. unfold mk_num.
  pose proof (dec_norm_val m e) as H1. pose proof (dec_norm_val m' e') as H2.
  pose proof (dec_norm_normal m e) as N1. pose proof (dec_norm_normal m' e') as N2.
  destruct (dec_norm m e) as [a b], (dec_norm m' e') as [a' b']. simpl in *.
  destruct (dec_normal_unique a a' b b') as [-> ->]; [done|done| |done].
  pose proof (pow10_pos e). pose proof (pow10_pos e').
  apply (Z.mul_cancel_r _ _ (10 ^ Z.of_nat e * 10 ^ Z.of_nat e')); [lia|].
  transitivity (m * 10 ^ Z.of_nat e' * 10 ^ Z.of_nat b * 10 ^ Z.of_nat b')%Z.
  - replace (a * 10 ^ Z.of_nat b' * (10 ^ Z.of_nat e * 10 ^ Z.of_nat e'))%Z
      with (a * 10 ^ Z.of_nat e * 10 ^ Z.of_nat b' * 10 ^ Z.of_nat e')%Z by ring.
    rewrite <- H1. ring.
  - rewrite Hv. replace (a' * 10 ^ Z.of_nat b * (10 ^ Z.of_nat e * 10 ^ Z.of_nat e'))%Z
      with (a' * 10 ^ Z.of_nat e' * 10 ^ Z.of_nat b * 10 ^ Z.of_nat e)%Z by ring.
    rewrite <- H2. ring.
Qed.

Lemma dec_of_bin_int (M E z : Z) :
  fst (bin_frac M E) = (z * snd (bin_frac M E))%Z -> dec_of_bin M E = JInt z.
Proof.
  unfold dec_of_bin, bin_frac. destruct (Z.leb_spec 0 E); cbn [fst snd]; intros Hv.
  - by rewrite Hv, Z.mul_1_r.
  - transitivity (mk_num z 0); [|reflexivity]. apply mk_num_eqv. rewrite Hv, Z2Nat.id by lia.
    change (10 ^ Z.of_nat 0)%Z with 1%Z. change 10%Z with (2 * 5)%Z. rewrite Z.pow_mul_l. ring.
Qed.

(** An integer of magnitude at most [2^53] is a Number. *)
Lemma round_dec_int (z : Z) : (Z.abs z <= 2 ^ 53)%Z -> round_dec z 0 = JInt z.
Proof.
  intros Hz.
  assert (Hpos : forall w, (0 < w <= 2 ^ 53)%Z -> round_dec w 0 = JInt w).
  { intros w Hw. unfold round_dec. rewrite (proj2 (Z.eqb_neq w 0)), (proj2 (Z.ltb_ge w 0)) by lia.
    destruct (bin_round_int w) as (M & E & Hb & Hv); [unfold prec; lia|].
    unfold round_pos. change (10 ^ Z.of_nat 0)%Z with 1%Z. rewrite Hb. by apply dec_of_bin_int. }
  destruct (Z.lt_trichotomy z 0) as [Hn|[->|Hp]]; [|done|apply Hpos; lia].
  replace z with (- - z)%Z by lia. rewrite round_dec_opp, Hpos by lia. done.
Qed.

(** A product whose value is an integer of magnitude at most [2^53] is
    exact. *)
Lemma round_dec_exact_int (m k : Z) (e : nat) :
  (m = k * 10 ^ Z.of_nat e)%Z -> (Z.abs k <= 2 ^ 53)%Z -> round_dec m e = JInt k.
Proof. intros Hm Hk. rewrite (round_dec_eqv m k e 0) by (simpl; lia). by apply round_dec_int. Qed.

Lemma int_wf (z : Z) : (Z.abs z <= 2 ^ 53)%Z -> num_wf (JInt z) = true.
Proof. intros Hz. apply num_wf_spec. exact (round_dec_int z Hz). Qed.

(** The decimal value of [M * 2^E], in units of [2^-1074]. *)
Lemma dec_of_bin_units (M E xm : Z) (xe : nat) : (-1074 <= E)%Z -> dec_of_bin M E = JNum xm xe ->
  (xm * 2 ^ 1074 = M * 2 ^ (E + 1074) * 10 ^ Z.of_nat xe)%Z.
Proof.
  intros HE. unfold dec_of_bin, mk_num. destruct (Z.leb_spec 0 E).
  - pose proof (dec_norm_val (M * 2 ^ E) 0) as Hv.
    destruct (dec_norm _ 0) as [m' e']. intros [= <- <-]. simpl in Hv.
    rewrite Z.pow_add_r by lia. nia.
  - pose proof (dec_norm_val (M * 5 ^ (- E)) (Z.to_nat (- E))) as Hv.
    destruct (dec_norm _ _) as [m' e']. intros [= <- <-]. rewrite Z2Nat.id in Hv by lia.
    assert (H5 : (0 < 5 ^ (- E))%Z) by (apply Z.pow_pos_nonneg; lia).
    assert (Hm : (m' * 2 ^ (- E) = M * 10 ^ Z.of_nat e')%Z).
    { apply (Z.mul_cancel_r _ _ (5 ^ (- E))); [lia|].
      transitivity (m' * 10 ^ (- E))%Z; [change 10%Z with (2 * 5)%Z; rewrite Z.pow_mul_l; ring|].
      rewrite <- Hv. ring. }
    replace (2 ^ 1074)%Z with (2 ^ (- E) * 2 ^ (E + 1074))%Z by (rewrite <- Z.pow_add_r by lia; f_equal; lia).
    rewrite Z.mul_assoc, Hm. ring.
Qed.

(** The error of [round_pos], in integers: [|x - a / q| <= 2^-53 * a / q + 2^-1075]. *)
Lemma round_pos_err (a q xm : Z) (xe : nat) : (0 < a)%Z -> (0 < q)%Z -> round_pos a q = JNum xm xe ->
  (2 * Z.abs (xm * q - a * 10 ^ Z.of_nat xe) * 2 ^ 1074 <= (a * 2 ^ 1022 + q) * 10 ^ Z.of_nat xe)%Z.
Proof.
  intros Ha Hq. unfold round_pos. destruct (bin_round a q) as [[M E]|] eqn:Hb; [|done]. intros Hx.
  pose proof (bin_round_err a q M E Ha Hq Hb) as Herr.
  destruct (bin_round_bounds a q M E Ha Hq Hb) as [->|Hd].
  - unfold dec_of_bin in Hx. rewrite !Z.mul_0_l in Hx.
    destruct (0 <=? E)%Z; rewrite mk_num_zero in Hx; injection Hx as <- <-;
      change (10 ^ Z.of_nat 0)%Z with 1%Z; lia.
  - apply dec_of_bin_units in Hx; [|unfold is_double, emin in Hd; lia].
    pose proof (pow10_pos xe).
    assert (H2 : (0 < 2 ^ 1074)%Z) by (apply Z.pow_pos_nonneg; lia).
    assert (Habs : (Z.abs (xm * q - a * 10 ^ Z.of_nat xe) * 2 ^ 1074
                    = Z.abs ((M * 2 ^ (E + 1074) * q - a * 2 ^ 1074) * 10 ^ Z.of_nat xe))%Z).
    { transitivity (Z.abs ((xm * q - a * 10 ^ Z.of_nat xe) * 2 ^ 1074));
        [rewrite Z.abs_mul, (Z.abs_eq (2 ^ 1074)) by lia; reflexivity|].
      f_equal. rewrite Z.mul_sub_distr_r.
      replace (xm * q * 2 ^ 1074)%Z with (xm * 2 ^ 1074 * q)%Z by ring. rewrite Hx. ring. }
    rewrite <- Z.mul_assoc, Habs, Z.abs_mul, (Z.abs_eq (10 ^ _)) by lia. nia.
Qed.

(** The same for [round_dec], whatever the sign. *)
Lemma round_dec_err (m : Z) (e : nat) (xm : Z) (xe : nat) : round_dec m e = JNum xm xe ->
  (2 * Z.abs (xm * 10 ^ Z.of_nat e - m * 10 ^ Z.of_nat xe) * 2 ^ 1074
   <= (Z.abs m * 2 ^ 1022 + 10 ^ Z.of_nat e) * 10 ^ Z.of_nat xe)%Z.
Proof.
  pose proof (pow10_pos e). pose proof (pow10_pos xe). unfold round_dec.
  destruct (Z.eqb_spec m 0) as [->|Hm0].
  - intros [= <- <-]. simpl. lia.
  - destruct (Z.ltb_spec m 0).
    + destruct (round_pos (- m) _) as [xm' xe'| |] eqn:Hr; simpl; intros [= <- <-].
      apply round_pos_err in Hr; [|lia|lia].
      replace (- xm' * 10 ^ Z.of_nat e - m * 10 ^ Z.of_nat xe')%Z
        with (- (xm' * 10 ^ Z.of_nat e - - m * 10 ^ Z.of_nat xe'))%Z by ring.
      rewrite Z.abs_opp, (Z.abs_neq m) by lia. exact Hr.
    + intros Hr. apply round_pos_err in Hr; [|lia|lia]. rewrite (Z.abs_eq m) by lia. exact Hr.
Qed.

End rounding.

#[export] Hint Resolve num_mul_wf num_wf_round num_wf_nan num_wf_inf : js.
#[export] Hint Rewrite num_neg_wf : js_rw.

Section roundtrip.

Lemma digit_neq (c d : ascii) : is_digit c = true -> is_digit d = false -> Ascii.eqb c d = false.
Proof. intros Hc Hd. destruct (Ascii.eqb_spec c d); congruence. Qed.

(** The characters a finite number prints with. *)
Definition numeral_char (c : ascii) : bool :=
  is_digit c || Ascii.eqb c "-"%char || Ascii.eqb c "."%char || Ascii.eqb c "e"%char
  || Ascii.eqb c "+"%char.

Lemma numeral_not_ws (c : ascii) : numeral_char c = true -> is_ws c = false.
Proof. by destruct c as [[] [] [] [] [] [] [] []]. Qed.

(** Two characters, one printed in a number and one not, differ. *)
Lemma numeral_neq (c d : ascii) : numeral_char c = true -> numeral_char d = false -> Ascii.eqb c d = false.
Proof. intros Hc Hd. destruct (Ascii.eqb_spec c d); congruence. Qed.

Lemma trim_left_id (s : string) : str_forall numeral_char s = true -> trim_left s = s.
Proof.
  destruct s as [|c r]; [done|]. simpl. intros [Hc _]%andb_prop.
  by rewrite numeral_not_ws.
Qed.

Lemma trim_right_id (s : string) : str_forall numeral_char s = true -> trim_right s = s.
Proof.
  induction s as [|c r IH]; [done|]. simpl. intros [Hc Hr]%andb_prop.
  by rewrite IH, numeral_not_ws.
Qed.

Lemma digits_numeral (s : string) : str_forall is_digit s = true -> str_forall numeral_char s = true.
Proof.
  induction s as [|c r IH]; [done|]. simpl. intros [Hc Hr]%andb_prop.
  rewrite IH by done. unfold numeral_char. by rewrite Hc.
Qed.

Lemma span_digits_app (d r : string) :
  str_forall is_digit d = true ->
  match r with String c _ => is_digit c = false | EmptyString => True end ->
  span_digits (d +:+ r) = (d, r).
Proof.
  intros Hd Hr. induction d as [|c d IH].
  - rewrite string_app_nil_l. destruct r as [|c r]; simpl; [done|]. by rewrite Hr.
  - simpl in Hd. apply andb_prop in Hd as [Hc Hd].
    rewrite string_app_cons. simpl. by rewrite Hc, IH.
Qed.

Lemma span_digits_all (d : string) : str_forall is_digit d = true -> span_digits d = (d, "").
Proof. intros Hd. rewrite <- (string_app_nil_r d) at 1. by apply span_digits_app. Qed.

Lemma N_to_string_not_infinity (n : N) (r : string) :
  String.eqb (N_to_string n +:+ r) "Infinity" = false.
Proof.
  destruct (N_to_string_cons n) as (c & s & -> & Hc).
  rewrite string_app_cons. simpl. by rewrite (digit_neq c "I"%char).
Qed.

Lemma N_to_string_nonempty (n : N) : String.eqb (N_to_string n) "" = false.
Proof. by destruct (N_to_string_cons n) as (c & s & -> & Hc). Qed.

(** The unsigned literal of a non-negative number parses back to it. *)
Lemma parse_unsigned_printed (a : N) (e : nat) :
  dec_normal (Z.of_N a) e = true ->
  parse_unsigned (unsigned_numeral a e) = Some (JNum (Z.of_N a) e).
Proof.
  intros Hn. unfold parse_unsigned, unsigned_numeral.
  destruct e as [|e].
  - rewrite <- (string_app_nil_r (N_to_string a)), N_to_string_not_infinity.
    rewrite string_app_nil_r, span_digits_all by apply N_to_string_all.
    rewrite N_to_string_nonempty, string_app_nil_r, N_to_string_val. done.
  - rewrite N_to_string_not_infinity.
    rewrite span_digits_app by (apply N_to_string_all || done).
    rewrite string_app_cons, string_app_nil_l. simpl Ascii.eqb. cbv iota.
    rewrite span_digits_all by apply fixed_digits_all.
    rewrite N_to_string_nonempty, digits_val_app, N_to_string_val, fixed_digits_val.
    rewrite fixed_digits_length, mk_num_normal.
    + do 2 f_equal. rewrite N.Div0.mod_mod by (apply N.pow_nonzero; lia).
      pose proof (N.div_mod' a (10 ^ N.of_nat (S e))). lia.
    + rewrite N.Div0.mod_mod by (apply N.pow_nonzero; lia).
      rewrite <- Hn. do 2 f_equal. pose proof (N.div_mod' a (10 ^ N.of_nat (S e))). lia.
Qed.

Lemma N_to_string_numeral (n : N) : str_forall numeral_char (N_to_string n) = true.
Proof. apply digits_numeral, N_to_string_all. Qed.

Lemma unsigned_numeral_chars (a : N) (e : nat) : str_forall numeral_char (unsigned_numeral a e) = true.
Proof.
  unfold unsigned_numeral. destruct e; [apply N_to_string_numeral|].
  autorewrite with js_rw. rewrite N_to_string_numeral.
  by rewrite (digits_numeral (fixed_digits _ _)) by apply fixed_digits_all.
Qed.

(** [N_to_string s] split into its first digit and the rest. *)
Lemma N_to_string_split (s : N) :
  exists c r, N_to_string s = String c r /\ is_digit c = true /\ str_forall is_digit r = true.
Proof.
  destruct (N_to_string_cons s) as (c & r & Hcr & Hc). pose proof (N_to_string_all s) as Hall.
  rewrite Hcr in Hall. simpl in Hall. apply andb_prop in Hall as [_ Hr]. eauto.
Qed.

Lemma exponent_numeral_chars (s : N) (n : Z) : str_forall numeral_char (exponent_numeral s n) = true.
Proof.
  unfold exponent_numeral. destruct (N_to_string_split s) as (c & r & -> & Hc & Hr).
  autorewrite with js_rw. rewrite N_to_string_numeral.
  assert (Hsg : str_forall numeral_char (if (n - 1 <? 0)%Z then "-" else "+") = true)
    by (destruct (n - 1 <? 0)%Z; reflexivity).
  rewrite Hsg. assert (Hc' : numeral_char c = true) by (unfold numeral_char; by rewrite Hc).
  destruct r as [|c' r']; simpl; rewrite Hc'; [done|].
  apply digits_numeral in Hr. simpl in Hr. by rewrite Hr.
Qed.

Lemma unsigned_to_string_chars (a : N) (e : nat) :
  str_forall numeral_char (unsigned_to_string a e) = true.
Proof.
  unfold unsigned_to_string. destruct (strip_zeros a) as [s t].
  destruct (_ || _); [apply unsigned_numeral_chars|apply exponent_numeral_chars].
Qed.

Lemma numeral_printed (x : jsnum) :
  match x with JNum _ _ => str_forall numeral_char (num_to_string x) = true | _ => True end.
Proof.
  destruct x as [m e| |]; [|done..]. simpl. unfold shortest_numeral.
  autorewrite with js_rw.
  assert (Hs : str_forall numeral_char (if (m <? 0)%Z then "-" else "") = true)
    by (destruct (m <? 0)%Z; reflexivity).
  rewrite Hs. destruct (dec_norm _ e). apply unsigned_to_string_chars.
Qed.

(** A non-negative finite number prints with a digit first and a printed
    character second: no [0x], [0o] or [0b] prefix can appear. *)
Lemma parse_nondecimal_digit (c : ascii) (s : string) :
  is_digit c = true ->
  match s with String c2 _ => numeral_char c2 | EmptyString => true end = true ->
  parse_nondecimal (String c s) = None.
Proof.
  intros Hc Hs. destruct s as [|c2 r]; [done|]. simpl.
  destruct (negb (Ascii.eqb c "0"%char)); [done|].
  by rewrite !(numeral_neq c2) by (done || reflexivity).
Qed.

Lemma unsigned_to_string_shape (a : N) (e : nat) :
  exists c s, unsigned_to_string a e = String c s /\ is_digit c = true /\
    match s with String c2 _ => numeral_char c2 | EmptyString => true end = true.
Proof.
  unfold unsigned_to_string. destruct (strip_zeros a) as [s0 t]. destruct (_ || _).
  - destruct (N_to_string_split (match e with O => a | S _ => a / 10 ^ N.of_nat e end)%N)
      as (c & r & Hcr & Hc & Hr).
    unfold unsigned_numeral. destruct e as [|e]; rewrite Hcr.
    + exists c, r. split_and!; [done..|]. destruct r; simpl in *; [done|].
      apply andb_prop in Hr as [Hd _]. unfold numeral_char. by rewrite Hd.
    + eexists c, (r +:+ "." +:+ _). rewrite string_app_cons.
      split_and!; [done..|]. destruct r; simpl in *; [done|].
      apply andb_prop in Hr as [Hd _]. unfold numeral_char. by rewrite Hd.
  - unfold exponent_numeral. destruct (N_to_string_split s0) as (c & r & -> & Hc & Hr).
    destruct r as [|c' r']; (eexists c, _; split; [reflexivity|split; [done|reflexivity]]).
Qed.

Lemma parse_exponent_printed (z : Z) :
  parse_exponent ((if (z <? 0)%Z then "-" else "+") +:+ N_to_string (Z.abs_N z)) = Some z.
Proof.
  unfold parse_exponent.
  destruct (Z.ltb_spec z 0); rewrite string_app_cons, string_app_nil_l; cbv iota beta;
    simpl Ascii.eqb; cbv iota beta;
    rewrite span_digits_all, N_to_string_nonempty by apply N_to_string_all; simpl;
    rewrite N_to_string_val; f_equal; lia.
Qed.

(** The exponent form parses back to the literal's value. *)
Lemma parse_unsigned_exponent (s : N) (n : Z) :
  parse_unsigned (exponent_numeral s n) = Some (scale (Z.of_N s) (Nat.pred (ndigits s)) (n - 1)).
Proof.
  unfold exponent_numeral.
  pose proof (N_to_string_val s 0) as Hval. pose proof (fixed_digits_length (ndigits s) s) as Hlen.
  fold (N_to_string s) in Hlen.
  destruct (N_to_string_split s) as (c & r & Hcr & Hc & Hr). rewrite Hcr in Hval, Hlen |- *.
  set (E := (if (n - 1 <? 0)%Z then "-" else "+") +:+ N_to_string (Z.abs_N (n - 1))).
  unfold parse_unsigned.
  assert (Hinf : forall t, String.eqb (String c t) "Infinity" = false)
    by (intros t; simpl; by rewrite (digit_neq c "I"%char)).
  destruct r as [|c' r'].
  - rewrite !string_app_cons, !string_app_nil_l, Hinf.
    assert (Hsp : span_digits (String c (String "e" E)) = (String c "", String "e" E))
      by (cbn [span_digits]; by rewrite Hc).
    rewrite Hsp. cbn -[parse_exponent digits_val E]. subst E. rewrite parse_exponent_printed.
    simpl in Hlen. rewrite <- Hlen. simpl in Hval |- *. do 3 f_equal. lia.
  - rewrite !string_app_cons, !string_app_nil_l, Hinf.
    assert (Hsp : forall X, span_digits (String c (String "." X)) = (String c "", String "." X))
      by (intros X; cbn [span_digits]; by rewrite Hc).
    rewrite Hsp. cbn -[parse_exponent digits_val E span_digits String.append].
    rewrite span_digits_app by done. cbn -[parse_exponent digits_val E].
    subst E. rewrite parse_exponent_printed. rewrite <- Hlen.
    simpl in Hval |- *. do 3 f_equal. lia.
Qed.

Lemma strip_fuel_spec (f : nat) (a : N) :
  let '(s, t) := strip_fuel f a in (s * 10 ^ N.of_nat t = a)%N.
Proof.
  revert a. induction f as [|f IH]; intros a; simpl; [lia|].
  destruct (_ || _) eqn:E; [simpl; lia|].
  specialize (IH (a / 10)%N). destruct (strip_fuel f (a / 10)) as [s t].
  apply orb_false_iff in E as [_ E]. apply negb_false_iff, N.eqb_eq in E.
  rewrite Nat2N.inj_succ, N.pow_succ_r'. pose proof (N.div_mod' a 10). lia.
Qed.

Lemma strip_zeros_normal (a : N) : (a mod 10 <> 0)%N -> strip_zeros a = (a, O).
Proof.
  intros H. unfold strip_zeros. destruct (ndigits a) eqn:E; [by apply ndigits_pos in E|].
  simpl. apply N.eqb_neq in H. by rewrite H, orb_true_r.
Qed.

(** The fuel of [strip_zeros] is enough: the mantissa it leaves has no
    trailing zero, so the exponent form has the fewest digits, as
    Number::toString requires. *)
Lemma strip_fuel_normal (f : nat) (a : N) :
  a <> 0%N -> (a < 10 ^ N.of_nat f)%N -> ((fst (strip_fuel f a)) mod 10 <> 0)%N.
Proof.
  revert a. induction f as [|f IH]; intros a Ha Hlt; simpl in *; [lia|].
  destruct (N.eqb_spec (a mod 10) 0) as [H0|Hne].
  - rewrite (proj2 (N.eqb_neq a 0) Ha). simpl.
    pose proof (N.div_mod' a 10) as Hd. rewrite H0, N.add_0_r in Hd.
    specialize (IH (a / 10)%N). destruct (strip_fuel f (a / 10)) as [s t]. apply IH.
    + intros H. rewrite H in Hd. lia.
    + rewrite Nat2N.inj_succ, N.pow_succ_r' in Hlt. lia.
  - by rewrite orb_true_r.
Qed.

Lemma strip_zeros_normal_mantissa (a : N) : a <> 0%N -> ((fst (strip_zeros a)) mod 10 <> 0)%N.
Proof. intros Ha. apply strip_fuel_normal; [done|apply ndigits_bound]. Qed.

(** The unsigned literal, positional or in exponent form, parses back to
    the number it prints. *)
Lemma parse_unsigned_to_string (a : N) (e : nat) :
  dec_normal (Z.of_N a) e = true -> parse_unsigned (unsigned_to_string a e) = Some (JNum (Z.of_N a) e).
Proof.
  intros Hn. unfold unsigned_to_string.
  pose proof (strip_fuel_spec (ndigits a) a) as Hst. fold (strip_zeros a) in Hst.
  destruct (strip_zeros a) as [s t] eqn:Hs.
  destruct (_ || _) eqn:Hpos; [by apply parse_unsigned_printed|].
  rewrite parse_unsigned_exponent. f_equal. unfold scale.
  pose proof (ndigits_pos s) as Hk.
  replace (Z.of_nat (Nat.pred (ndigits s)) - (Z.of_nat (ndigits s) + Z.of_nat t - Z.of_nat e - 1))%Z
    with (Z.of_nat e - Z.of_nat t)%Z by lia.
  destruct e as [|e].
  - rewrite (proj2 (Z.leb_le _ _)) by lia. unfold mk_num. simpl. f_equal.
    rewrite <- Hst, N2Z.inj_mul, N2Z.inj_pow, nat_N_Z. f_equal. f_equal. lia.
  - simpl in Hn. apply negb_true_iff, Z.eqb_neq in Hn.
    assert (Ha : (a mod 10 <> 0)%N)
      by (intros H; apply Hn; change 10%Z with (Z.of_N 10); by rewrite <- N2Z.inj_mod, H).
    rewrite strip_zeros_normal in Hs by done. injection Hs as <- <-.
    rewrite (proj2 (Z.leb_gt _ _)) by lia. rewrite Z.sub_0_r, Nat2Z.id. apply mk_num_normal. simpl. by apply negb_true_iff, Z.eqb_neq.
Qed.

(** Every value [shortest] can return rounds to [x]. *)
Lemma shortest_fuel_spec (f k : nat) (a : N) (e D : nat) :
  round_dec (Z.of_N a) e = JNum (Z.of_N a) e ->
  round_dec (Z.of_N (shortest_fuel f k a e D)) e = JNum (Z.of_N a) e.
Proof.
  intros Ha. revert k. induction f as [|f IH]; intros k; cbn [shortest_fuel]; [done|]. cbv beta zeta.
  repeat match goal with |- context [bool_decide ?P] => destruct (bool_decide_reflect P) end;
    repeat case_match; done.
Qed.

Lemma shortest_spec (a : N) (e : nat) :
  round_dec (Z.of_N a) e = JNum (Z.of_N a) e -> round_dec (Z.of_N (shortest a e)) e = JNum (Z.of_N a) e.
Proof. apply shortest_fuel_spec. Qed.

Lemma shortest_numeral_shape (a : N) (e : nat) :
  exists c s, shortest_numeral a e = String c s /\ is_digit c = true /\
    match s with String c2 _ => numeral_char c2 | EmptyString => true end = true.
Proof. unfold shortest_numeral. destruct (dec_norm _ e). apply unsigned_to_string_shape. Qed.

(** The printed digits read back as a fraction that rounds to [x]. *)
Lemma parse_shortest (a : N) (e : nat) :
  round_dec (Z.of_N a) e = JNum (Z.of_N a) e ->
  exists y, parse_unsigned (shortest_numeral a e) = Some y /\ round_num y = JNum (Z.of_N a) e.
Proof.
  intros Ha. pose proof (shortest_spec a e Ha) as Hc. unfold shortest_numeral.
  pose proof (dec_norm_val (Z.of_N (shortest a e)) e) as Hv.
  pose proof (dec_norm_normal (Z.of_N (shortest a e)) e) as Hn.
  destruct (dec_norm (Z.of_N (shortest a e)) e) as [m e'] eqn:Hd. simpl in Hn.
  pose proof (pow10_pos e). pose proof (pow10_pos e').
  assert (Hm : (0 <= m)%Z) by nia.
  exists (JNum m e'). rewrite <- (Z2N.id m) in Hn at 1 by done.
  rewrite parse_unsigned_to_string, Z2N.id by done. split; [done|].
  simpl. rewrite <- Hc. apply round_dec_eqv. lia.
Qed.

Lemma round_dec_abs (m : Z) (e : nat) :
  num_wf (JNum m e) = true -> round_dec (Z.of_N (Z.abs_N m)) e = JNum (Z.of_N (Z.abs_N m)) e.
Proof.
  intros H%num_wf_spec. simpl in H. rewrite N2Z.inj_abs_N.
  destruct (Z.abs_spec m) as [[_ ->]|[_ ->]]; [done|]. by rewrite round_dec_opp, H.
Qed.

End roundtrip.

(** ToNumber (ToString x) = x on every Number. *)
Theorem number_string_roundtrip (x : jsnum) :
  num_wf x = true -> string_to_number (num_to_string x) = x.
Proof.
  destruct x as [m e| |[]]; intros Hwf; [|reflexivity..].
  pose proof (numeral_printed (JNum m e)) as Hnum. simpl in Hnum.
  unfold string_to_number, trim.
  rewrite trim_left_id, trim_right_id by done.
  simpl. destruct (shortest_numeral_shape (Z.abs_N m) e) as (c & s & Hcs & Hc & Hs).
  destruct (parse_shortest (Z.abs_N m) e) as (y & Hp & Hy); [by apply round_dec_abs|].
  rewrite Hcs in Hp |- *. rewrite N2Z.inj_abs_N in Hy.
  destruct (Z.ltb_spec m 0).
  - simpl. rewrite string_app_nil_l, Hp. simpl. rewrite round_num_neg, Hy. simpl. f_equal. lia.
  - rewrite string_app_nil_l, parse_nondecimal_digit by done. simpl.
    rewrite (digit_neq c "+"%char), (digit_neq c "-"%char) by done. rewrite Hp, Hy.
    f_equal. lia.
Qed.

(** Two Numbers print differently. *)
Lemma num_to_string_inj (x y : jsnum) :
  num_wf x = true -> num_wf y = true -> num_to_string x = num_to_string y -> x = y.
Proof.
  intros Hx Hy H. by rewrite <- (number_string_roundtrip x Hx), <- (number_string_roundtrip y Hy), H.
Qed.
