(* ===== verification/NumQ.v ===== *)
(** * The value of a number: the decimal model against the rationals

    [JsNum.v] represents a finite JavaScript number as a mantissa and a
    count of decimals, kept in a canonical form.  Here each such number gets
    its value [dec_q m e = m / 10^e] in [Q]: the product of two values is
    the value of the product of their fractions ([dec_q_mul]), rounding to
    a double stays within the relative error [2^-53] ([round_dec_err_q]),
    and [>] and negation are the rational order and opposite.  The
    theorems about the values the handlers send are stated with these
    values. *)

From Stdlib Require Import ZArith QArith Qminmax Qabs Lia.
From S2P Require Import Base JsNum.

Local Open Scope Q_scope.

Definition dec_q (m : Z) (e : nat) : Q := Qmake m (Z.to_pos (10 ^ Z.of_nat e)).

(** The value of a finite number; [NaN] and the infinities have none. *)
Definition num_q (x : jsnum) : option Q :=
  match x with
  | JNum m e => Some (dec_q m e)
  | _ => None
  end.

Lemma dec_q_den (m : Z) (e : nat) : QDen (dec_q m e) = (10 ^ Z.of_nat e)%Z.
Proof. unfold dec_q. simpl. apply Z2Pos.id, pow10_pos. Qed.

Lemma dec_q_eq (m1 m2 : Z) (e1 e2 : nat) :
  dec_q m1 e1 == dec_q m2 e2 <-> (m1 * 10 ^ Z.of_nat e2 = m2 * 10 ^ Z.of_nat e1)%Z.
Proof. unfold Qeq. rewrite !dec_q_den. reflexivity. Qed.

Lemma dec_q_lt (m1 m2 : Z) (e1 e2 : nat) :
  dec_q m1 e1 < dec_q m2 e2 <-> (m1 * 10 ^ Z.of_nat e2 < m2 * 10 ^ Z.of_nat e1)%Z.
Proof. unfold Qlt. rewrite !dec_q_den. reflexivity. Qed.

Lemma dec_q_int (z : Z) : dec_q z 0 == inject_Z z.
Proof. apply Qeq_refl. Qed.

Lemma dec_q_opp (m : Z) (e : nat) : dec_q (- m) e == - dec_q m e.
Proof. apply Qeq_refl. Qed.

Lemma dec_q_mul (m1 m2 : Z) (e1 e2 : nat) :
  dec_q (m1 * m2) (e1 + e2) == dec_q m1 e1 * dec_q m2 e2.
Proof.
  unfold Qeq, Qmult. cbn [Qnum Qden]. rewrite Pos2Z.inj_mul.
  change (Z.pos (Z.to_pos (10 ^ Z.of_nat ?e))) with (QDen (dec_q 0 e)). rewrite !dec_q_den.
  rewrite Nat2Z.inj_add, Z.pow_add_r by lia. simpl. ring.
Qed.

(** A double [x] nearest to [v] ([round_dec]) is within [2^-53 * |v|]
    of it, or within [2^-1075] for the subnormal range. *)
Lemma round_dec_err_q (m : Z) (e : nat) (xm : Z) (xe : nat) : round_dec m e = JNum xm xe ->
  Qabs (dec_q xm xe - dec_q m e) <= Qabs (dec_q m e) * (1 # 2 ^ 53) + (1 # 2 ^ 1075).
Proof.
  intros H. apply round_dec_err in H.
  pose proof (pow10_pos e). pose proof (pow10_pos xe).
  unfold Qle, Qminus, Qplus, Qopp, Qmult, Qabs, dec_q. cbn [Qnum Qden].
  rewrite !Pos2Z.inj_mul, !Z2Pos.id, !Pos2Z.inj_pow by lia.
  set (P := (10 ^ Z.of_nat e)%Z) in *. set (P' := (10 ^ Z.of_nat xe)%Z) in *.
  replace (xm * P + - m * P')%Z with (xm * P - m * P')%Z by ring.
  set (A := Z.abs (xm * P - m * P')) in *.
  transitivity (2 * A * 2 ^ 1074 * (P * 2 ^ 53))%Z; [apply Z.eq_le_incl; ring|].
  transitivity ((Z.abs m * 2 ^ 1022 + P) * P' * (P * 2 ^ 53))%Z; [|apply Z.eq_le_incl; ring].
  apply Z.mul_le_mono_nonneg_r; [lia|exact H].
Qed.

(** [>] on finite numbers is the rational order. *)
Lemma num_gt_q (m1 m2 : Z) (e1 e2 : nat) :
  num_gt (JNum m1 e1) (JNum m2 e2) = true <-> dec_q m2 e2 < dec_q m1 e1.
Proof. simpl. rewrite Z.ltb_lt, dec_q_lt. reflexivity. Qed.

Lemma num_gt_q_false (m1 m2 : Z) (e1 e2 : nat) :
  num_gt (JNum m1 e1) (JNum m2 e2) = false <-> dec_q m1 e1 <= dec_q m2 e2.
Proof.
  split.
  - intros H. apply Qnot_lt_le. intros Hlt. apply num_gt_q in Hlt. congruence.
  - intros H. destruct (num_gt (JNum m1 e1) (JNum m2 e2)) eqn:E; [|reflexivity].
    apply num_gt_q in E. exfalso. exact (Qle_not_lt _ _ H E).
Qed.
