(* ===== verification/Js.v ===== *)
(** * JavaScript values, coercions and the state-and-exception monad

    The extension handlers are JavaScript methods that read their [args]
    object, coerce its properties, mutate host globals and call host
    functions that may throw.  This file gives the values they handle, the
    abstract operations of ECMA-262 they use (ToNumber, ToString, [==],
    [===], [>], [*], string [+]), and the monad [stM] in which a handler runs:
    a state transformer whose result is a value or a thrown exception, the
    state changes made before a throw being kept, as in JavaScript. *)

From stdpp Require Import base gmap strings list.
From Stdlib Require Import Ascii ZArith Lia.
From S2P Require Import Base JsNum.

(** ** Values *)

Inductive value :=
| VUndefined
| VNull
| VBool (b : bool)
| VNum (n : jsnum)
| VStr (s : string)
| VUnity (l : nat)        (* an instance returned by [UnityLoader.instantiate] *)
| VElem (id : string)     (* a DOM element, named by its id attribute *)
| VHost (name : string).  (* a function or object the host page provides *)

#[export] Instance value_eq_dec : EqDecision value.
Proof. solve_decision. Defined.

Definition VInt (z : Z) : value := VNum (JInt z).

(** ToNumber.  Objects go through ToPrimitive to a non-numeric string. *)
Definition to_number (v : value) : jsnum :=
  match v with
  | VUndefined => JNaN
  | VNull => JInt 0
  | VBool b => JInt (if b then 1 else 0)
  | VNum n => n
  | VStr s => string_to_number s
  | VUnity _ | VElem _ | VHost _ => JNaN
  end.

(** ToString. *)
Definition to_string (v : value) : string :=
  match v with
  | VUndefined => "undefined"
  | VNull => "null"
  | VBool b => if b then "true" else "false"
  | VNum n => num_to_string n
  | VStr s => s
  | VUnity _ | VElem _ => "[object Object]"
  | VHost _ => "function () { [native code] }"
  end.

(** [v == "lit"] (IsLooselyEqual with a string literal on the right). *)
Definition loose_eq_str (v : value) (lit : string) : bool :=
  match v with
  | VStr s => String.eqb s lit
  | VNum n => num_eqb n (string_to_number lit)
  | VBool b => num_eqb (JInt (if b then 1 else 0)) (string_to_number lit)
  | VUndefined | VNull => false
  | VUnity _ | VElem _ | VHost _ => String.eqb (to_string v) lit
  end.

(** [v === "lit"], the test of a [switch] case. *)
Definition strict_eq_str (v : value) (lit : string) : bool :=
  match v with
  | VStr s => String.eqb s lit
  | _ => false
  end.

(** [v > k] for a number literal [k]: both sides go through ToNumber. *)
Definition gt_num (v : value) (k : Z) : bool := num_gt (to_number v) (JInt k).

(** [x * y]. *)
Definition mul (x y : value) : value := VNum (num_mul (to_number x) (to_number y)).

(** [s + v] where [s] is a string: ToString on [v], then concatenation. *)
Definition cat_l (s : string) (v : value) : string := s +:+ to_string v.

(** ** The [args] object of a block *)

Abbreviation jsargs := (gmap string value).

(** [args.k]: a missing property reads as [undefined]. *)
Definition prop (a : jsargs) (k : string) : value := default VUndefined (a !! k).

Notation "a .[ k ]" := (prop a k) (format "a .[ k ]") : js_scope.

(** ** Exceptions and the handler monad *)

Inductive exn :=
| ReferenceError (name : string)
| TypeError (what : string).

#[export] Instance exn_eq_dec : EqDecision exn.
Proof. solve_decision. Defined.

Inductive outcome (A : Type) :=
| Normal (a : A)
| Thrown (e : exn).
Arguments Normal {A} a.
Arguments Thrown {A} e.

Record stM (S A : Type) := StM { run : S -> S * outcome A }.
Arguments StM {S A} run.
Arguments run {S A} _ _.

#[export] Instance stM_ret S : MRet (stM S) := fun A a => StM (fun s => (s, Normal a)).

#[export] Instance stM_bind S : MBind (stM S) := fun A B k m =>
  StM (fun s =>
    match run m s with
    | (s', Normal a) => run (k a) s'
    | (s', Thrown e) => (s', Thrown e)
    end).

Definition throw {S A} (e : exn) : stM S A := StM (fun s => (s, Thrown e)).
Definition get_state {S} : stM S S := StM (fun s => (s, Normal s)).
Definition modify {S} (f : S -> S) : stM S unit := StM (fun s => (f s, Normal tt)).

Section monad_laws.
Context {S : Type}.

Lemma run_ret {A} (a : A) (s : S) : run (mret a) s = (s, Normal a).
Proof. done. Qed.

Lemma run_bind {A B} (m : stM S A) (k : A -> stM S B) (s : S) :
  run (m ≫= k) s =
    match run m s with
    | (s', Normal a) => run (k a) s'
    | (s', Thrown e) => (s', Thrown e)
    end.
Proof. done. Qed.

Lemma run_throw {A} (e : exn) (s : S) : run (throw (A:=A) e) s = (s, Thrown e).
Proof. done. Qed.

Lemma run_modify (f : S -> S) (s : S) : run (modify f) s = (f s, Normal tt).
Proof. done. Qed.

Lemma bind_ret_l {A B} (a : A) (k : A -> stM S B) (s : S) :
  run (mret a ≫= k) s = run (k a) s.
Proof. done. Qed.

Lemma bind_ret_r {A} (m : stM S A) (s : S) : run (m ≫= mret) s = run m s.
Proof. rewrite run_bind. by destruct (run m s) as [? []]. Qed.

Lemma bind_assoc {A B C} (m : stM S A) (k : A -> stM S B) (h : B -> stM S C) (s : S) :
  run ((m ≫= k) ≫= h) s = run (m ≫= fun a => k a ≫= h) s.
Proof. rewrite !run_bind. destruct (run m s) as [? []]; [|done]. by rewrite run_bind. Qed.

Lemma bind_throw {A B} (e : exn) (k : A -> stM S B) (s : S) :
  run (throw e ≫= k) s = (s, Thrown e).
Proof. done. Qed.
End monad_laws.

#[export] Hint Rewrite @run_ret @run_bind @run_throw @run_modify : js_rw.

