(* ===== verification/Host.v ===== *)
(** * The host page the extensions run in

    The three extensions do not own their state: they read and write
    globals of the page ([stageId], [id], [droneFlag], [djiTelloInstance],
    [gameInstance]), call the page's global function [changeStage], create
    Unity WebGL instances with [UnityLoader.instantiate], send them commands
    with [SendMessage], and (Phantom 4) restyle two DOM elements.  The record
    [state] holds all of it; the operations below are the primitives every
    handler is built from.  Class bodies are strict-mode code, so an
    assignment to a global the page has not declared throws a
    [ReferenceError], and so does a read. *)

From stdpp Require Import base gmap strings list.
From Stdlib Require Import Ascii ZArith Lia.
From S2P Require Import Base JsNum Js.

(** A Unity instance: where it was loaded from and the messages it got, in
    order of arrival (object name, method name, argument string). *)
Record unity := mk_unity {
  u_container : string;
  u_build : string;
  u_log : list (string * string * string)
}.

(** The DOM properties the Phantom 4 extension writes. *)
Record element := mk_element {
  el_display : string;
  el_height : string;
  el_width : string
}.

(** Observable calls into code the page owns. *)
Inductive host_event :=
| HostChangeStage (arg : value).

Record state := mk_state {
  globals : gmap string value;
  unities : list unity;
  dom : gmap string element;
  host_log : list host_event
}.

Definition with_globals (g : gmap string value) (s : state) : state :=
  mk_state g (unities s) (dom s) (host_log s).
Definition with_unities (us : list unity) (s : state) : state :=
  mk_state (globals s) us (dom s) (host_log s).
Definition with_dom (d : gmap string element) (s : state) : state :=
  mk_state (globals s) (unities s) d (host_log s).
Definition with_host_log (h : list host_event) (s : state) : state :=
  mk_state (globals s) (unities s) (dom s) h.

Abbreviation JS := (stM state).

(** ** Globals (strict mode) *)

Definition get_global (x : string) : JS value :=
  StM (fun s =>
    match globals s !! x with
    | Some v => (s, Normal v)
    | None => (s, Thrown (ReferenceError x))
    end).

Definition set_global (x : string) (v : value) : JS unit :=
  StM (fun s =>
    match globals s !! x with
    | Some _ => (with_globals (<[x := v]> (globals s)) s, Normal tt)
    | None => (s, Thrown (ReferenceError x))
    end).

(** ** Calls into the page *)

(** [changeStage(arg)]: the global function of the page, not the method of
    the same name (methods are not in the lexical scope of a class body). *)
Definition call_changeStage (arg : value) : JS unit :=
  f ← get_global "changeStage";
  match f with
  | VHost n =>
      if String.eqb n "changeStage"
      then modify (fun s => with_host_log (host_log s ++ [HostChangeStage arg]) s)
      else throw (TypeError "changeStage is not a function")
  | _ => throw (TypeError "changeStage is not a function")
  end.

(** [UnityLoader.instantiate(container, build)]: a fresh instance. *)
Definition unity_instantiate (container build : string) : JS value :=
  l ← get_global "UnityLoader";
  match l with
  | VHost n =>
      if String.eqb n "UnityLoader" then
        StM (fun s =>
          (with_unities (unities s ++ [mk_unity container build []]) s,
           Normal (VUnity (length (unities s)))))
      else throw (TypeError "UnityLoader.instantiate is not a function")
  | _ => throw (TypeError "Cannot read properties of UnityLoader (reading 'instantiate')")
  end.

Definition log_message (m : string * string * string) (u : unity) : unity :=
  mk_unity (u_container u) (u_build u) (u_log u ++ [m]).

(** [inst.SendMessage(obj, meth, arg)]. *)
Definition send_message (inst : value) (obj meth arg : string) : JS unit :=
  match inst with
  | VUnity l =>
      StM (fun s =>
        match unities s !! l with
        | Some u => (with_unities (<[l := log_message (obj, meth, arg) u]> (unities s)) s, Normal tt)
        | None => (s, Thrown (TypeError "SendMessage is not a function"))
        end)
  | VUndefined => throw (TypeError "Cannot read properties of undefined (reading 'SendMessage')")
  | VNull => throw (TypeError "Cannot read properties of null (reading 'SendMessage')")
  | _ => throw (TypeError "SendMessage is not a function")
  end.

(** ** The DOM *)

(** [document.getElementById(id)]: the element, or [null]. *)
Definition get_element_by_id (id : string) : JS value :=
  StM (fun s => (s, Normal (if dom s !! id is Some _ then VElem id else VNull))).

(** An assignment to a property of [el] given as the update [f] of the
    element; on [null] it throws the [TypeError] [err]. *)
Definition set_elem (err : string) (f : element -> element) (el : value) : JS unit :=
  match el with
  | VElem id =>
      StM (fun s =>
        match dom s !! id with
        | Some e => (with_dom (<[id := f e]> (dom s)) s, Normal tt)
        | None => (s, Normal tt)
        end)
  | _ => throw (TypeError err)
  end.

(** [el.style.display = v]: reading [style] of [null] throws. *)
Definition set_display (v : string) : value -> JS unit :=
  set_elem "Cannot read properties of null (reading 'style')"
    (fun e => mk_element v (el_height e) (el_width e)).
(** [el.height = v]. *)
Definition set_height (v : string) : value -> JS unit :=
  set_elem "Cannot set properties of null (setting 'height')"
    (fun e => mk_element (el_display e) v (el_width e)).
(** [el.width = v]. *)
Definition set_width (v : string) : value -> JS unit :=
  set_elem "Cannot set properties of null (setting 'width')"
    (fun e => mk_element (el_display e) (el_height e) v).

(** ** How the primitives run *)

Section primitives.
Context (s : state).

Lemma get_global_run x v : globals s !! x = Some v -> run (get_global x) s = (s, Normal v).
Proof. intros H. unfold get_global. simpl. by rewrite H. Qed.

Lemma get_global_undeclared x : globals s !! x = None -> run (get_global x) s = (s, Thrown (ReferenceError x)).
Proof. intros H. unfold get_global. simpl. by rewrite H. Qed.

Lemma set_global_run x v :
  is_Some (globals s !! x) -> run (set_global x v) s = (with_globals (<[x := v]> (globals s)) s, Normal tt).
Proof. intros [w H]. unfold set_global. simpl. by rewrite H. Qed.

Lemma set_global_undeclared x v :
  globals s !! x = None -> run (set_global x v) s = (s, Thrown (ReferenceError x)).
Proof. intros H. unfold set_global. simpl. by rewrite H. Qed.

Lemma call_changeStage_run v :
  globals s !! "changeStage" = Some (VHost "changeStage") ->
  run (call_changeStage v) s = (with_host_log (host_log s ++ [HostChangeStage v]) s, Normal tt).
Proof. intros H. unfold call_changeStage. rewrite run_bind, (get_global_run _ _ H). done. Qed.

Lemma send_message_run l u o m a :
  unities s !! l = Some u ->
  run (send_message (VUnity l) o m a) s =
    (with_unities (<[l := log_message (o, m, a) u]> (unities s)) s, Normal tt).
Proof. intros H. unfold send_message. simpl. by rewrite H. Qed.

(** An instance global the page declared but never assigned. *)
Lemma send_message_undefined o m a :
  run (send_message VUndefined o m a) s =
    (s, Thrown (TypeError "Cannot read properties of undefined (reading 'SendMessage')")).
Proof. done. Qed.

Lemma get_element_by_id_run id e :
  dom s !! id = Some e -> run (get_element_by_id id) s = (s, Normal (VElem id)).
Proof. intros H. unfold get_element_by_id. simpl. by rewrite H. Qed.

Lemma get_element_by_id_null id :
  dom s !! id = None -> run (get_element_by_id id) s = (s, Normal VNull).
Proof. intros H. unfold get_element_by_id. simpl. by rewrite H. Qed.

Lemma set_elem_run err f id e :
  dom s !! id = Some e -> run (set_elem err f (VElem id)) s = (with_dom (<[id := f e]> (dom s)) s, Normal tt).
Proof. intros H. unfold set_elem. simpl. by rewrite H. Qed.
End primitives.

Lemma length_with_unities_insert (s : state) l u :
  length (<[l := u]> (unities s)) = length (unities s).
Proof. apply length_insert. Qed.

(** ** Footprint: code that neither talks to a Unity instance nor calls the page

    [silent m]: whatever the state and whether [m] returns or throws, the
    instances and the log of calls into the page are as before. *)

Definition silent {A} (m : JS A) : Prop :=
  forall s, unities (fst (run m s)) = unities s /\ host_log (fst (run m s)) = host_log s.

Lemma silent_ret {A} (a : A) : silent (mret a).
Proof. done. Qed.

Lemma silent_throw {A} (e : exn) : silent (throw (A:=A) e).
Proof. done. Qed.

Lemma silent_bind {A B} (m : JS A) (k : A -> JS B) :
  silent m -> (forall a, silent (k a)) -> silent (m ≫= k).
Proof.
  intros Hm Hk s. rewrite run_bind. destruct (Hm s) as [Hu Hh].
  destruct (run m s) as [s' [a|e]]; simpl in *; [|done].
  destruct (Hk a s') as [Hu' Hh']. split; congruence.
Qed.

Lemma silent_get_global x : silent (get_global x).
Proof. intros s. unfold get_global. simpl. by destruct (globals s !! x). Qed.

Lemma silent_set_global x v : silent (set_global x v).
Proof. intros s. unfold set_global. simpl. by destruct (globals s !! x). Qed.

Lemma silent_get_element_by_id id : silent (get_element_by_id id).
Proof. done. Qed.

Lemma silent_set_elem err f el : silent (set_elem err f el).
Proof. intros s. destruct el; try done. simpl. by destruct (dom s !! id). Qed.

#[export] Hint Resolve silent_ret silent_throw silent_get_global silent_set_global
  silent_get_element_by_id silent_set_elem : js.

(** Proves [silent] of a composition of silent primitives. *)
Ltac silent_solver :=
  repeat first
    [ apply silent_bind; [|intros ?]
    | progress (unfold set_display, set_height, set_width)
    | case_match
    | solve [auto with js] ].
