(* ===== verification/Protocol.v ===== *)
(** * The command protocol between the extensions and the Unity simulator

    Every command the Tello and Mambo handlers send is a string of
    comma-separated fields ["<drone id>,<action code>[,0],<value>"] passed to
    [SendMessage("Drones", "Scratch3", ...)].  This file states the protocol
    abstractly: the commands as an inductive type, their encoding (the code
    table of the handlers), a decoder, and the round trip [decode_message (encode_command c) =
    Some c].  It also states the arithmetic the handlers apply to a speed or
    angle argument (a sign chosen by the menu, a clamp from above) as
    functions on numbers, against which the handlers are proved. *)

From stdpp Require Import base gmap strings list.
From Stdlib Require Import Ascii ZArith Lia.
From S2P Require Import Base JsNum Js.

(** ** Abstract commands *)

Inductive command :=
| Stop | Reset | TakeOff | Landing | Shoot | Picture
| SetRoll (v : jsnum) | SetPitch (v : jsnum) | SetGaz (v : jsnum) | SetYaw (v : jsnum)
| Set4Axis (roll pitch gaz yaw : jsnum)
| Cap (deg : jsnum)
| Flip (dir : jsnum)
| Light (v : jsnum)
| Grab (mode : jsnum).

#[export] Instance command_eq_dec : EqDecision command.
Proof. solve_decision. Defined.

Definition command_wf (c : command) : bool :=
  match c with
  | SetRoll v | SetPitch v | SetGaz v | SetYaw v | Cap v | Flip v | Light v | Grab v => num_wf v
  | Set4Axis r p g y => num_wf r && num_wf p && num_wf g && num_wf y
  | _ => true
  end.

Definition encode_command (c : command) : string :=
  match c with
  | Stop => "0,2"
  | Reset => "0,3"
  | TakeOff => "0,4"
  | Landing => "0,5"
  | Shoot => "0,6"
  | Picture => "0,7"
  | SetRoll v => "0,100,0," +:+ num_to_string v
  | SetPitch v => "0,110,0," +:+ num_to_string v
  | SetGaz v => "0,120,0," +:+ num_to_string v
  | SetYaw v => "0,130,0," +:+ num_to_string v
  | Set4Axis r p g y =>
      "0,140,0," +:+ num_to_string r +:+ ":" +:+ num_to_string p +:+ ":"
        +:+ num_to_string g +:+ ":" +:+ num_to_string y
  | Cap v => "0,200,0," +:+ num_to_string v
  | Flip a => "0,210," +:+ num_to_string a
  | Light v => "0,220,0," +:+ num_to_string v
  | Grab a => "0,230," +:+ num_to_string a
  end.

(** ** Decoding, as the simulator reads a message *)

Fixpoint split_on (sep : ascii) (s : string) : list string :=
  match s with
  | EmptyString => [""]
  | String c r =>
      if Ascii.eqb c sep then "" :: split_on sep r
      else match split_on sep r with
           | h :: t => String c h :: t
           | [] => [String c ""]
           end
  end.

Definition decode_value (code : string) (v : string) : option command :=
  let x := string_to_number v in
  if String.eqb code "100" then Some (SetRoll x)
  else if String.eqb code "110" then Some (SetPitch x)
  else if String.eqb code "120" then Some (SetGaz x)
  else if String.eqb code "130" then Some (SetYaw x)
  else if String.eqb code "200" then Some (Cap x)
  else if String.eqb code "220" then Some (Light x)
  else if String.eqb code "140" then
    match split_on ":" v with
    | [r; p; g; y] =>
        Some (Set4Axis (string_to_number r) (string_to_number p)
                       (string_to_number g) (string_to_number y))
    | _ => None
    end
  else None.

Definition decode_message (msg : string) : option command :=
  match split_on "," msg with
  | [id; code] =>
      if negb (String.eqb id "0") then None
      else if String.eqb code "2" then Some Stop
      else if String.eqb code "3" then Some Reset
      else if String.eqb code "4" then Some TakeOff
      else if String.eqb code "5" then Some Landing
      else if String.eqb code "6" then Some Shoot
      else if String.eqb code "7" then Some Picture
      else None
  | [id; code; a] =>
      if negb (String.eqb id "0") then None
      else if String.eqb code "210" then Some (Flip (string_to_number a))
      else if String.eqb code "230" then Some (Grab (string_to_number a))
      else None
  | [id; code; z; v] =>
      if String.eqb id "0" && String.eqb z "0" then decode_value code v else None
  | _ => None
  end.

(** ** The argument arithmetic of the handlers, as a specification *)

(** [x > limit ? limit : x] on numbers: a clamp from above only. *)
Definition clamp_hi (limit : Z) (x : jsnum) : jsnum :=
  if num_gt x (JInt limit) then JInt limit else x.

(** The sign a direction menu selects. *)
Definition signed (neg : bool) (x : jsnum) : jsnum := if neg then num_neg x else x.

(** A value is in canonical form; every JavaScript value has such a
    representative, and the handlers only ever produce them. *)
Definition value_wf (v : value) : bool :=
  match v with VNum n => num_wf n | _ => true end.

Definition args_wf (a : jsargs) : Prop := map_Forall (fun _ v => value_wf v = true) a.

(** ** Lemmas *)

Section split.

Definition no_sep (sep : ascii) (s : string) : bool :=
  str_forall (fun c => negb (Ascii.eqb c sep)) s.

Lemma split_on_single (sep : ascii) (a : string) :
  no_sep sep a = true -> split_on sep a = [a].
Proof.
  unfold no_sep. induction a as [|c a IH]; [done|]. simpl.
  intros [Hc Ha]%andb_prop. apply negb_true_iff in Hc. by rewrite Hc, IH.
Qed.

Lemma split_on_app (sep : ascii) (a b : string) :
  no_sep sep a = true -> split_on sep (a +:+ String sep b) = a :: split_on sep b.
Proof.
  unfold no_sep. induction a as [|c a IH].
  - intros _. rewrite string_app_nil_l. simpl. by rewrite Ascii.eqb_refl.
  - simpl. intros [Hc Ha]%andb_prop. apply negb_true_iff in Hc.
    rewrite ?string_app_cons. simpl. by rewrite Hc, IH.
Qed.

Lemma no_sep_app (sep : ascii) (a b : string) :
  no_sep sep (a +:+ b) = no_sep sep a && no_sep sep b.
Proof. apply str_forall_app. Qed.

Lemma no_sep_cons (sep c : ascii) (s : string) :
  no_sep sep (String c s) = negb (Ascii.eqb c sep) && no_sep sep s.
Proof. done. Qed.

(** A printed number contains no [","] and no [":"]. *)
Lemma num_to_string_no_sep (sep : ascii) (x : jsnum) :
  sep = ","%char \/ sep = ":"%char -> no_sep sep (num_to_string x) = true.
Proof.
  intros Hsep. destruct x as [m e| |[]]; [|by destruct Hsep as [->| ->]..].
  pose proof (numeral_printed (JNum m e)) as Hnum. simpl in Hnum.
  unfold no_sep. eapply str_forall_impl; [|exact Hnum].
  intros c Hc. apply negb_true_iff, numeral_neq; [done|]. by destruct Hsep as [->| ->].
Qed.

End split.

Ltac no_sep_solver :=
  repeat first
    [ rewrite no_sep_app
    | rewrite no_sep_cons
    | rewrite (num_to_string_no_sep ",") by (left; reflexivity)
    | rewrite (num_to_string_no_sep ":") by (right; reflexivity) ];
  reflexivity.

(** The simulator's decoding inverts the extensions' encoding: every
    command whose numbers are in canonical form is read back from its
    message string ("0,<code>,..." with the numbers printed by JavaScript's
    ToString). *)
Theorem decode_encode (c : command) : command_wf c = true -> decode_message (encode_command c) = Some c.
Proof.
  intros Hwf. destruct c; try reflexivity; simpl in Hwf;
    unfold decode_message, decode_value, encode_command; rewrite ?string_app_assoc; autorewrite with js_rw;
    simpl split_on.
  all: try (rewrite (split_on_single "," (num_to_string _)) by no_sep_solver;
            simpl; by rewrite number_string_roundtrip).
  repeat (apply andb_prop in Hwf as [Hwf ?]).
  rewrite split_on_single by no_sep_solver. simpl.
  rewrite !split_on_app, split_on_single by no_sep_solver. simpl.
  by rewrite !number_string_roundtrip.
Qed.

(** ** The handlers' arithmetic against its specification *)

Section arithmetic.

Lemma num_mul_one (x : jsnum) : num_wf x = true -> num_mul (JInt 1) x = x.
Proof.
  destruct x as [m e| |b]; simpl; intros Hx; [|done|unfold inf_times; by destruct b].
  apply num_wf_spec in Hx. by rewrite Z.mul_1_l.
Qed.

Lemma num_mul_minus_one (x : jsnum) : num_wf x = true -> num_mul (JInt (-1)) x = num_neg x.
Proof.
  destruct x as [m e| |b]; intros Hx; [|done|destruct b; reflexivity].
  apply num_wf_spec in Hx. simpl in Hx. unfold num_mul, JInt.
  by rewrite Nat.add_0_l, Z.mul_comm, <- Z.opp_eq_mul_m1, round_dec_opp, Hx.
Qed.

Lemma string_to_number_wf (s : string) : num_wf (string_to_number s) = true.
Proof.
  unfold string_to_number. repeat case_match; try apply num_wf_round; try apply num_wf_nan.
Qed.

Lemma to_number_wf (v : value) : value_wf v = true -> num_wf (to_number v) = true.
Proof.
  destruct v; simpl; intros H; try done; try apply string_to_number_wf;
    try apply num_wf_nan; apply int_wf; repeat case_match; lia.
Qed.

(** [(m == neg ? -1 : 1) * (n > L ? L : n)], the expression every speed and
    angle handler sends, is the clamped and signed argument. *)
Lemma sign_clamp_spec (neg : bool) (n : value) (L : Z) :
  num_wf (JInt L) = true -> value_wf n = true ->
  mul (if neg then VInt (-1) else VInt 1) (if gt_num n L then VInt L else n)
  = VNum (signed neg (clamp_hi L (to_number n))).
Proof.
  intros HL Hn. unfold mul, gt_num, clamp_hi, signed. f_equal.
  pose proof (to_number_wf n Hn).
  destruct (num_gt (to_number n) (JInt L)), neg; cbn [to_number VInt];
    rewrite ?num_mul_one, ?num_mul_minus_one by done; done.
Qed.

Lemma signed_wf (neg : bool) (x : jsnum) : num_wf x = true -> num_wf (signed neg x) = true.
Proof. destruct neg; simpl; [by rewrite num_neg_wf|done]. Qed.

Lemma clamp_hi_wf (L : Z) (x : jsnum) :
  num_wf (JInt L) = true -> num_wf x = true -> num_wf (clamp_hi L x) = true.
Proof. unfold clamp_hi. by case_match. Qed.

End arithmetic.

#[export] Hint Resolve to_number_wf signed_wf clamp_hi_wf : js.
#[export] Hint Extern 2 (num_wf (JInt _) = true) => apply int_wf; lia : js.

(** ** Menu-driven codes *)

Fixpoint index_of (x : string) (l : list string) : option nat :=
  match l with
  | [] => None
  | y :: r => if String.eqb x y then Some 0 else S <$> index_of x r
  end.

(** The flag of a menu item: bit [i] for the [i]-th item, [0] for a value
    that is not an item. *)
Definition menu_flag (items : list string) (v : value) : Z :=
  match v with
  | VStr s => match index_of s items with Some i => 2 ^ Z.of_nat i | None => 0 end
  | _ => 0
  end.

Lemma index_of_lt (x : string) (l : list string) (i : nat) : index_of x l = Some i -> (i < length l)%nat.
Proof.
  revert i. induction l as [|y r IH]; intros i H; simpl in *; [done|].
  destruct (String.eqb x y); [injection H as <-; lia|].
  destruct (index_of x r) as [j|] eqn:E; simpl in H; [|done].
  injection H as <-. specialize (IH j eq_refl). lia.
Qed.

(** The flag of a menu of at most 53 items is a Number. *)
Lemma menu_flag_wf (items : list string) (v : value) :
  (length items <= 53)%nat -> num_wf (JInt (menu_flag items v)) = true.
Proof.
  intros Hl. apply int_wf. unfold menu_flag. destruct v; try (simpl; lia).
  destruct (index_of s items) as [i|] eqn:E; [|simpl; lia].
  apply index_of_lt in E. rewrite Z.abs_eq by (apply Z.pow_nonneg; lia).
  apply Z.pow_le_mono_r; lia.
Qed.

#[export] Hint Extern 1 (num_wf (JInt (menu_flag _ _)) = true) =>
  apply menu_flag_wf, Nat.leb_le; vm_compute; reflexivity : js.

Lemma prop_wf (a : jsargs) (k : string) : args_wf a -> value_wf (prop a k) = true.
Proof.
  intros Ha. unfold prop. destruct (a !! k) as [v|] eqn:E; [|done].
  by apply (map_Forall_lookup_1 _ _ _ _ Ha E).
Qed.

#[export] Hint Resolve prop_wf : js.

(** Two distinct non-numeric labels cannot both be [==] to one value. *)
Lemma loose_eq_str_exclusive (v : value) (s1 s2 : string) :
  s1 <> s2 -> string_to_number s1 = JNaN ->
  loose_eq_str v s1 = true -> loose_eq_str v s2 = false.
Proof.
  intros Hne Hnan. destruct v as [| |b|n|str| | |]; cbn [loose_eq_str]; rewrite ?Hnan;
    try done; [by destruct n|..];
    intros H1%String.eqb_eq; apply String.eqb_neq; congruence.
Qed.

Lemma args_wf_empty : args_wf ∅.
Proof. apply map_Forall_empty. Qed.

Lemma args_wf_insert (a : jsargs) (k : string) (v : value) :
  value_wf v = true -> args_wf a -> args_wf (<[k := v]> a).
Proof. intros Hv Ha. by apply map_Forall_insert_2. Qed.

#[export] Hint Resolve args_wf_empty args_wf_insert : js.

#[export] Instance args_wf_dec (a : jsargs) : Decision (args_wf a).
Proof. unfold args_wf. apply _. Defined.
