(* ===== verification/Catalog.v ===== *)
(** * Block catalogs: the result of [getInfo()]

    Each extension describes its blocks to the Scratch runtime with
    [getInfo()]: an id, a name, colours, a list of blocks (opcode, label
    text with [[arg]] placeholders, block type, typed arguments with an
    optional menu and default) and the item lists of its menus.  This file
    gives the data types of that description (the [BlockType] and
    [ArgumentType] enumerations of scratch-vm among them) and the decidable
    conditions a catalog must meet for the runtime to render and run its
    blocks. *)

From stdpp Require Import base gmap strings list.
From Stdlib Require Import Ascii ZArith Lia.
From S2P Require Import Base JsNum Js.

(** [BlockType] of scratch-vm's extension-support. *)
Inductive block_type := COMMAND | REPORTER | BOOLEAN_BLOCK.

(** [ArgumentType] of scratch-vm's extension-support. *)
Inductive argument_type := STRING | NUMBER | BOOLEAN | COLOR.

#[export] Instance block_type_eq_dec : EqDecision block_type.
Proof. solve_decision. Defined.
#[export] Instance argument_type_eq_dec : EqDecision argument_type.
Proof. solve_decision. Defined.

Record argument := mk_argument {
  arg_name : string;
  arg_type : argument_type;
  arg_menu : option string;
  arg_default : option value
}.

Record block := mk_block {
  opcode : string;
  text : string;
  blockType : block_type;
  arguments : list argument
}.

Record info := mk_info {
  info_id : string;
  info_name : string;
  colour : string;
  colourSecondary : string;
  colourTertiary : string;
  blocks : list block;
  menus : list (string * list string)
}.

(** ** Placeholders of a label: the names between brackets *)

Fixpoint take_name (s : string) : string * string :=
  match s with
  | EmptyString => (EmptyString, EmptyString)
  | String c r =>
      if Ascii.eqb c "]"%char then (EmptyString, r)
      else let '(n, rest) := take_name r in (String c n, rest)
  end.

Fixpoint placeholders_fuel (fuel : nat) (s : string) : list string :=
  match fuel with
  | O => []
  | S f =>
      match s with
      | EmptyString => []
      | String c r =>
          if Ascii.eqb c "["%char
          then let '(n, rest) := take_name r in n :: placeholders_fuel f rest
          else placeholders_fuel f r
      end
  end.

(** Each step consumes a character, so the length of the label is enough fuel. *)
Definition placeholders (s : string) : list string := placeholders_fuel (String.length s) s.

(** ** Well-formedness of a catalog *)

Fixpoint menu_lookup (m : string) (l : list (string * list string)) : option (list string) :=
  match l with
  | [] => None
  | (k, items) :: r => if String.eqb k m then Some items else menu_lookup m r
  end.

Definition str_mem (x : string) (l : list string) : bool := existsb (String.eqb x) l.

(** An argument with a menu names a menu of the catalog, and its default is
    one of that menu's items. *)
Definition arg_menu_ok (i : info) (a : argument) : bool :=
  match arg_menu a with
  | None => true
  | Some m =>
      match menu_lookup m (menus i) with
      | None => false
      | Some items =>
          match arg_default a with
          | None => true
          | Some (VStr d) => str_mem d items
          | Some _ => false
          end
      end
  end.

(** Every placeholder of the label is a declared argument. *)
Definition placeholders_declared (b : block) : bool :=
  forallb (fun p => str_mem p (map arg_name (arguments b))) (placeholders (text b)).

(** Every declared argument has a slot in the label. *)
Definition arguments_shown (b : block) : bool :=
  forallb (fun a => str_mem (arg_name a) (placeholders (text b))) (arguments b).

Definition opcodes (i : info) : list string := map opcode (blocks i).

Definition info_wf (i : info) : bool :=
  bool_decide (NoDup (opcodes i)) &&
  forallb (fun b => placeholders_declared b && forallb (arg_menu_ok i) (arguments b)) (blocks i).

Definition find_block (i : info) (op : string) : option block :=
  List.find (fun b => String.eqb (opcode b) op) (blocks i).

(** ** The fuel of [placeholders] is enough *)

Lemma take_name_length (s : string) : String.length (snd (take_name s)) <= String.length s.
Proof.
  induction s as [|c r IH]; simpl; [lia|].
  destruct (Ascii.eqb c "]"%char); simpl; [lia|].
  destruct (take_name r) as [n rest]. simpl in *. lia.
Qed.

Lemma placeholders_fuel_stable (f1 f2 : nat) (s : string) :
  String.length s <= f1 -> String.length s <= f2 -> placeholders_fuel f1 s = placeholders_fuel f2 s.
Proof.
  revert f2 s. induction f1 as [|f1 IH]; intros f2 s H1 H2.
  - destruct s; [by destruct f2|simpl in H1; lia].
  - destruct s as [|c r]; [by destruct f2|]. destruct f2 as [|f2]; [simpl in H2; lia|].
    simpl in H1, H2 |- *. destruct (Ascii.eqb c "["%char).
    + pose proof (take_name_length r) as Hl. destruct (take_name r) as [n rest].
      simpl in Hl. f_equal. apply IH; lia.
    + apply IH; lia.
Qed.

(** The fuel [placeholders] gives itself, the length of the label,
    is enough: with any larger fuel the scan returns the same list, so the
    function computes the placeholders of the whole label. *)
Theorem placeholders_fuel_enough (f : nat) (s : string) :
  String.length s <= f -> placeholders_fuel f s = placeholders s.
Proof. intros Hf. apply placeholders_fuel_stable; [done|lia]. Qed.

