(* ===== verification/Extension.v ===== *)
(** * Extensions as the Scratch runtime sees them, and what a Unity-backed
      drone extension promises

    The runtime constructs an extension object, reads its catalog with
    [getInfo()], and runs a block by calling the method named by the block's
    opcode with the block's [args].  The record [extension] is that view of
    a class.  The class [UnityDrone] states what the Tello and Mambo
    extensions promise to the runtime and to the simulator: on a ready
    host, every block returns normally, leaves the host ready, changes no
    global of the page but [stageId], and appends
    to its Unity instance's log exactly the encoding of its abstract command
    (or nothing).  [Session.v] proves its theorems against this class only;
    [Tello.v] and [Mambo.v] discharge it. *)

From stdpp Require Import base gmap strings list.
From Stdlib Require Import Ascii ZArith Lia.
From S2P Require Import Base JsNum Js Host Protocol Catalog.

Record extension := mk_extension {
  ext_info : info;
  ext_constructor : JS unit;
  ext_method : string -> option (jsargs -> JS value)
}.

(** The runtime's call [extension[opcode](args)]. *)
Definition run_block (e : extension) (op : string) (a : jsargs) : JS value :=
  match ext_method e op with
  | Some h => h a
  | None => throw (TypeError (op +:+ " is not a function"))
  end.

(** Every block of the catalog has a method. *)
Definition methods_cover (e : extension) : bool :=
  forallb (fun op => bool_decide (is_Some (ext_method e op))) (opcodes (ext_info e)).

(** The page has declared what the handlers write and call: the global
    [stageId], the function [changeStage], and the instance global [inst]
    holding a live Unity instance. *)
Definition host_ready (inst : string) (s : state) : Prop :=
  is_Some (globals s !! "stageId") /\
  globals s !! "changeStage" = Some (VHost "changeStage") /\
  exists l, globals s !! inst = Some (VUnity l) /\ l < length (unities s).

(** The log of instance [u] after a block that sends [c], if any. *)
Definition log_after (c : option command) (u : unity) : unity :=
  match c with
  | Some c => log_message ("Drones", "Scratch3", encode_command c) u
  | None => u
  end.

(** A block changes no DOM element and no global of the page but
    [stageId]. *)
Definition frames_stage (s s' : state) : Prop :=
  dom s' = dom s /\ forall x, x <> "stageId" -> globals s' !! x = globals s !! x.

(** Proves [host_ready] of a concrete page by evaluation. *)
Ltac ready := unfold host_ready; split_and!; [concrete|concrete|eexists; split; concrete].

Class UnityDrone (e : extension) := {
  ud_instance : string;
  ud_command : string -> jsargs -> option command;
  ud_command_wf : forall op a c,
    args_wf a -> ud_command op a = Some c -> command_wf c = true;
  ud_step : forall op a h s l u,
    ext_method e op = Some h -> args_wf a -> host_ready ud_instance s ->
    globals s !! ud_instance = Some (VUnity l) -> unities s !! l = Some u ->
    exists s' v,
      run (h a) s = (s', Normal v) /\
      host_ready ud_instance s' /\
      globals s' !! ud_instance = Some (VUnity l) /\
      unities s' = <[l := log_after (ud_command op a) u]> (unities s) /\
      frames_stage s s'
}.

(** ** Readiness is kept by the two kinds of state change a block makes *)

Lemma host_ready_send inst s l u :
  host_ready inst s -> host_ready inst (with_unities (<[l := u]> (unities s)) s).
Proof.
  intros (Hst & Hcs & l' & Hl' & Hlen). split_and!; try done.
  exists l'. simpl. by rewrite length_insert.
Qed.

(** The page's [changeStage(n)] after [stageId = n]. *)
Definition staged (s : state) (n : Z) : state :=
  with_host_log (host_log s ++ [HostChangeStage (VInt n)])
    (with_globals (<["stageId" := VInt n]> (globals s)) s).

Lemma host_ready_staged inst s n :
  inst <> "stageId" -> host_ready inst s -> host_ready inst (staged s n).
Proof.
  intros Hne (Hst & Hcs & l & Hl & Hlen). unfold staged, host_ready; simpl.
  rewrite lookup_insert_eq. split_and!; [done| |].
  - by rewrite lookup_insert_ne.
  - exists l. by rewrite lookup_insert_ne.
Qed.

Lemma frames_stage_refl s : frames_stage s s.
Proof. done. Qed.

Lemma frames_stage_unities s us : frames_stage s (with_unities us s).
Proof. done. Qed.

Lemma frames_stage_staged s n : frames_stage s (staged s n).
Proof. split; [done|]. intros x Hx. simpl. by rewrite lookup_insert_ne. Qed.

#[export] Hint Resolve frames_stage_refl frames_stage_unities frames_stage_staged : js.

(** Another extension's block keeps the page ready for [inst]: it keeps
    [stageId] declared, every other global, and the number of instances. *)
Lemma host_ready_frame inst s s' :
  inst <> "stageId" -> host_ready inst s -> is_Some (globals s' !! "stageId") ->
  frames_stage s s' -> length (unities s') = length (unities s) -> host_ready inst s'.
Proof.
  intros Hne (_ & Hcs & l & Hl & Hlen) Hst [_ Hfr] Hus. split_and!; [done|by rewrite Hfr|].
  exists l. rewrite Hfr, Hus by done. done.
Qed.

(** ** Runs of blocks

    The runtime executes blocks one after the other on the shared page;
    a block that throws keeps the changes it made before the throw, and
    the next block runs on that state.  The runtime passes a block the
    strings and numbers of its argument slots ([args_wf]). *)

Inductive runs (e : extension) : state -> state -> Prop :=
| runs_refl s : runs e s s
| runs_step s op a s' r s'' :
    args_wf a -> run (run_block e op a) s = (s', r) -> runs e s' s'' -> runs e s s''.

Section runs_induction.
Context (e : extension) (P : state -> Prop).
Hypothesis HP : forall s op a, args_wf a -> P s -> P (fst (run (run_block e op a) s)).

Lemma runs_invariant s s' : runs e s s' -> P s -> P s'.
Proof.
  induction 1 as [|s op a s' r s'' Ha Hrun _ IH]; [done|].
  intros Hs. apply IH. change s' with (fst (s', r)). rewrite <- Hrun. by apply HP.
Qed.
End runs_induction.

Lemma run_block_missing (e : extension) op a s :
  ext_method e op = None -> run (run_block e op a) s = (s, Thrown (TypeError (op +:+ " is not a function"))).
Proof. intros H. unfold run_block. by rewrite H. Qed.
