(* ===== verification/Drone.v ===== *)
(** * Code patterns the drone extensions share, and their lemmas

    The three classes repeat the same statements in many methods: send a
    string to a Unity instance held in a global and return [undefined];
    compute [(m == neg ? -1 : 1) * (n > L ? L : n)]; map the [flip] menu to a
    bit with a [switch]; set [stageId] and call the page's [changeStage].
    The lemmas here state what each pattern computes, once, for every
    extension that uses it.  The file also gives [unity_block_spec], the
    complete behaviour of a block of a Unity-backed extension, with the
    lemma [dispatch_run] that reduces it to per-method facts; the bounds of
    a speed argument; and the concrete pages the examples run on. *)

From stdpp Require Import base gmap strings list.
From Stdlib Require Import Ascii ZArith Lia.
From S2P Require Import Base JsNum Js Host Protocol Catalog Extension.

Local Open Scope js_scope.

(** A speed or angle argument: the sign the menu [dir] selects when it
    equals [neg], applied to the value of [n] clamped from above at [L]. *)
Definition speed (a : jsargs) (dir neg n : string) (L : Z) : jsnum :=
  signed (loose_eq_str a.[dir] neg) (clamp_hi L (to_number a.[n])).

Definition flip_menu : list string := ["前"; "後"; "右"; "左"].

(** The state after the message [msg] reached instance [l] (whose record
    was [u]). *)
Definition sent (s : state) (l : nat) (u : unity) (msg : string) : state :=
  with_unities (<[l := log_message ("Drones", "Scratch3", msg) u]> (unities s)) s.

(** A message is read back from the state it produced. *)
Lemma sent_inj (s : state) (l : nat) (u : unity) (m1 m2 : string) :
  unities s !! l = Some u -> sent s l u m1 = sent s l u m2 -> m1 = m2.
Proof.
  intros Hu H. apply (f_equal (fun st => unities st !! l)) in H. simpl in H.
  assert (Hl : l < length (unities s)) by (by eapply lookup_lt_Some).
  rewrite !list_lookup_insert_eq in H by done. injection H as H.
  apply app_inj_tail in H as [_ H]. by injection H.
Qed.

(** The message of a block whose code is followed by a number. *)
Lemma coded_message_inj (code : string) (x y : Z) :
  num_wf (JInt x) = true -> num_wf (JInt y) = true ->
  code +:+ num_to_string (JInt x) = code +:+ num_to_string (JInt y) -> x = y.
Proof.
  intros Hx Hy H. apply string_app_inj_l, num_to_string_inj in H; [|done|done]. by injection H.
Qed.

Section patterns.
Context (s : state) (inst : string) (l : nat) (u : unity).
Hypothesis Hinst : globals s !! inst = Some (VUnity l).
Hypothesis Hu : unities s !! l = Some u.

(** [inst.SendMessage("Drones", "Scratch3", msg); return;] *)
Lemma send_return_run (msg : string) :
  run ((i ← get_global inst; send_message i "Drones" "Scratch3" msg) ;; mret VUndefined) s
  = (sent s l u msg, Normal VUndefined).
Proof.
  rewrite run_bind, run_bind, (get_global_run _ _ _ Hinst).
  by rewrite (send_message_run _ _ _ _ _ _ Hu).
Qed.
End patterns.

(** The error of [inst.SendMessage(...)] when the page declared [inst]
    but no instance was ever assigned to it. *)
Definition unloaded_error : exn := TypeError "Cannot read properties of undefined (reading 'SendMessage')".

(** [inst.SendMessage(...); return;] before an instance is assigned: the
    call throws and nothing changes. *)
Lemma send_return_unloaded (s : state) (inst msg : string) :
  globals s !! inst = Some VUndefined ->
  run ((i ← get_global inst; send_message i "Drones" "Scratch3" msg) ;; mret VUndefined) s
  = (s, Thrown unloaded_error).
Proof. intros H. rewrite run_bind, run_bind, (get_global_run _ _ _ H). done. Qed.

Lemma speed_message (a : jsargs) code dir neg n L :
  num_wf (JInt L) = true -> args_wf a ->
  cat_l code (mul (if loose_eq_str a.[dir] neg then VInt (-1) else VInt 1)
                  (if gt_num a.[n] L then VInt L else a.[n]))
  = code +:+ num_to_string (speed a dir neg n L).
Proof. intros HL Ha. unfold cat_l, speed. by rewrite sign_clamp_spec by auto with js. Qed.

Lemma speed_string (a : jsargs) dir neg n L :
  num_wf (JInt L) = true -> args_wf a ->
  to_string (mul (if loose_eq_str a.[dir] neg then VInt (-1) else VInt 1)
                 (if gt_num a.[n] L then VInt L else a.[n]))
  = num_to_string (speed a dir neg n L).
Proof. intros HL Ha. unfold speed. by rewrite sign_clamp_spec by auto with js. Qed.

Lemma speed_wf (a : jsargs) dir neg n L :
  num_wf (JInt L) = true -> args_wf a -> num_wf (speed a dir neg n L) = true.
Proof. intros HL Ha. unfold speed. auto with js. Qed.

(** The [switch] of [flip]: bit [i] for the [i]-th item of the flip menu. *)
Lemma flip_switch (m : value) :
  (if strict_eq_str m "前" then VInt 1
   else if strict_eq_str m "後" then VInt 2
   else if strict_eq_str m "右" then VInt 4
   else if strict_eq_str m "左" then VInt 8
   else VInt 0) = VInt (menu_flag flip_menu m).
Proof. destruct m as [| | | |str| | |]; try done. simpl. by str_cases. Qed.

(** [stageId = n; changeStage(stageId);] *)
Lemma stage_step (s : state) (n : Z) :
  is_Some (globals s !! "stageId") -> globals s !! "changeStage" = Some (VHost "changeStage") ->
  run (set_global "stageId" (VInt n) ;; sid ← get_global "stageId"; call_changeStage sid) s
  = (staged s n, Normal tt).
Proof.
  intros Hst Hcs. rewrite run_bind, (set_global_run s "stageId" (VInt n) Hst).
  rewrite run_bind, (get_global_run _ "stageId" (VInt n)) by (simpl; apply lookup_insert_eq).
  rewrite call_changeStage_run; [done|]. simpl. by rewrite lookup_insert_ne.
Qed.

(** [stageId = n; changeStage(stageId); g = UnityLoader.instantiate(c, b);],
    the constructors of the Tello and the Mambo, on a page that has not
    loaded the Unity loader script: the stage is switched, then reading
    [UnityLoader] throws and [g] is not assigned. *)
Lemma stage_then_load_no_loader (s : state) (n : Z) (c b g : string) :
  is_Some (globals s !! "stageId") -> globals s !! "changeStage" = Some (VHost "changeStage") ->
  globals s !! "UnityLoader" = None ->
  run (set_global "stageId" (VInt n) ;;
       sid ← get_global "stageId";
       call_changeStage sid ;;
       inst ← unity_instantiate c b;
       set_global g inst) s
  = (staged s n, Thrown (ReferenceError "UnityLoader")).
Proof.
  intros Hst Hcs Hul. rewrite run_bind, (set_global_run s "stageId" (VInt n) Hst).
  rewrite run_bind, (get_global_run _ "stageId" (VInt n)) by (simpl; apply lookup_insert_eq).
  rewrite run_bind, call_changeStage_run by (simpl; by rewrite lookup_insert_ne).
  rewrite run_bind. unfold unity_instantiate.
  rewrite run_bind, get_global_undeclared by (simpl; by rewrite lookup_insert_ne). done.
Qed.

(** The same code on a page that has the loader: the fresh instance, at
    the first free index, is stored in [g]. *)
Lemma stage_then_load_run (s : state) (n : Z) (c b g : string) :
  g <> "stageId" ->
  is_Some (globals s !! "stageId") -> globals s !! "changeStage" = Some (VHost "changeStage") ->
  globals s !! "UnityLoader" = Some (VHost "UnityLoader") -> is_Some (globals s !! g) ->
  run (set_global "stageId" (VInt n) ;;
       sid ← get_global "stageId";
       call_changeStage sid ;;
       inst ← unity_instantiate c b;
       set_global g inst) s
  = (with_globals (<[g := VUnity (length (unities s))]> (globals (staged s n)))
       (with_unities (unities s ++ [mk_unity c b []]) (staged s n)), Normal tt).
Proof.
  intros Hg Hst Hcs Hul Hinst. rewrite run_bind, (set_global_run s "stageId" (VInt n) Hst).
  rewrite run_bind, (get_global_run _ "stageId" (VInt n)) by (simpl; apply lookup_insert_eq).
  rewrite run_bind, call_changeStage_run by (simpl; by rewrite lookup_insert_ne).
  rewrite run_bind. unfold unity_instantiate.
  rewrite run_bind, (get_global_run _ "UnityLoader" (VHost "UnityLoader"))
    by (simpl; by rewrite lookup_insert_ne).
  simpl. rewrite lookup_insert_ne by congruence. destruct Hinst as [? ->]. done.
Qed.

Lemma stage_step_undeclared (s : state) (n : Z) :
  globals s !! "stageId" = None ->
  run (set_global "stageId" (VInt n) ;; sid ← get_global "stageId"; call_changeStage sid) s
  = (s, Thrown (ReferenceError "stageId")).
Proof. intros Hst. by rewrite run_bind, (set_global_undeclared s "stageId" (VInt n) Hst). Qed.

Lemma host_ready_sent (inst : string) (s : state) (l : nat) (u : unity) (msg : string) :
  host_ready inst s -> host_ready inst (sent s l u msg).
Proof. apply host_ready_send. Qed.

#[export] Hint Resolve speed_wf host_ready_sent : js.

(** ** Bounds of a speed argument

    The handlers clamp from above only: a speed never exceeds [L] in the
    direction the menu selects, and nothing bounds it from below. *)

Lemma clamp_hi_le (L : Z) (x : jsnum) : num_gt (clamp_hi L x) (JInt L) = false.
Proof.
  unfold clamp_hi. destruct (num_gt x (JInt L)) eqn:E; [|done].
  simpl. apply Z.ltb_ge. lia.
Qed.

Lemma num_gt_neg (L : Z) (x : jsnum) : num_gt (JInt (- L)) (num_neg x) = num_gt x (JInt L).
Proof.
  destruct x as [m e| |[]]; simpl; try done.
  apply Bool.eq_iff_eq_true. rewrite !Z.ltb_lt. lia.
Qed.

Lemma speed_capped (a : jsargs) dir neg n L :
  (if loose_eq_str a.[dir] neg
   then num_gt (JInt (- L)) (speed a dir neg n L)
   else num_gt (speed a dir neg n L) (JInt L)) = false.
Proof.
  unfold speed, signed. destruct (loose_eq_str a.[dir] neg);
    rewrite ?num_gt_neg; apply clamp_hi_le.
Qed.

(** ** What the runtime's call of a block does, for a Unity-backed drone

    [unity_block_spec] is the complete behaviour of [run_block] for an
    extension whose blocks are the opcodes [ops]: an opcode it does not
    know throws; a command block sends the encoding of its command; the
    [changeStage] block switches the stage it selects; every other block
    answers its constant [reply] and changes nothing. *)
Definition unity_block_spec (ops : list string) (cmd : string -> jsargs -> option command)
    (target : jsargs -> option Z) (reply : string -> value)
    (op : string) (a : jsargs) (s : state) (l : nat) (u : unity) : state * outcome value :=
  if negb (str_mem op ops) then (s, Thrown (TypeError (op +:+ " is not a function")))
  else match cmd op a with
       | Some c => (sent s l u (encode_command c), Normal VUndefined)
       | None =>
           if String.eqb op "changeStage"
           then (default s (staged s <$> target a), Normal VUndefined)
           else (s, Normal (reply op))
       end.

Section dispatch.
Context (e : extension) (inst : string) (cmd : string -> jsargs -> option command)
        (target : jsargs -> option Z) (reply : string -> value).
Hypothesis Hknown : forall op, is_Some (ext_method e op) <-> str_mem op (opcodes (ext_info e)) = true.
Hypothesis Hsends : forall op h a c s l u,
  ext_method e op = Some h -> cmd op a = Some c -> args_wf a ->
  globals s !! inst = Some (VUnity l) -> unities s !! l = Some u ->
  run (h a) s = (sent s l u (encode_command c), Normal VUndefined).
Hypothesis Hquiet : forall op h a s,
  ext_method e op = Some h -> cmd op a = None -> op <> "changeStage" ->
  run (h a) s = (s, Normal (reply op)).
Hypothesis Hstage : forall h a s,
  ext_method e "changeStage" = Some h ->
  is_Some (globals s !! "stageId") -> globals s !! "changeStage" = Some (VHost "changeStage") ->
  run (h a) s = (default s (staged s <$> target a), Normal VUndefined).

Lemma dispatch_run (op : string) (a : jsargs) (s : state) (l : nat) (u : unity) :
  is_Some (globals s !! "stageId") -> globals s !! "changeStage" = Some (VHost "changeStage") ->
  globals s !! inst = Some (VUnity l) -> unities s !! l = Some u -> args_wf a ->
  run (run_block e op a) s = unity_block_spec (opcodes (ext_info e)) cmd target reply op a s l u.
Proof.
  intros Hst Hcs Hinst Hu Ha. unfold run_block, unity_block_spec.
  destruct (ext_method e op) as [h|] eqn:Hm.
  - rewrite (proj1 (Hknown op)) by eauto. simpl.
    destruct (cmd op a) as [c|] eqn:Hc; [by eapply Hsends|].
    destruct (String.eqb_spec op "changeStage") as [->|Hne]; [by apply Hstage|by apply Hquiet].
  - destruct (str_mem op (opcodes (ext_info e))) eqn:Hmem; [|done].
    apply Hknown in Hmem as [? ?]. congruence.
Qed.
End dispatch.

(** ** A page with both Unity extensions loaded

    The page of the repository's GUI after the Tello's constructor (its
    instance at index 0) and the Mambo's (index 1), with the Scratch stage
    shown: the concrete host on which the examples are evaluated. *)
Definition example_page : state :=
  mk_state
    (<["stageId" := VInt 1]> (<["changeStage" := VHost "changeStage"]>
     (<["UnityLoader" := VHost "UnityLoader"]> (<["djiTelloInstance" := VUnity 0]>
     (<["gameInstance" := VUnity 1]> (<["droneFlag" := VBool false]>
     (<["id" := VStr "0"]> ∅)))))))
    [mk_unity "djiTello_drone" "static/dji_tello/dji_tello.json" [];
     mk_unity "gameContainer_drone" "static/WebGL/WebGL.json" []]
    (<["scratch_stage" := mk_element "block" "360" "480"]>
     (<["gameContainer_drone" := mk_element "none" "100%" "100%"]> ∅))
    [HostChangeStage (VInt 2); HostChangeStage (VInt 1)].

(** The arguments of a [下降] block with speed ["150"], as a slot typed in
    the editor passes them. *)
(** The example page before the Unity loader script is included. *)
Definition no_loader_page : state :=
  with_globals (delete "UnityLoader" (globals example_page)) example_page.

Definition example_args : jsargs := <["m" := VStr "下降"]> (<["n" := VStr "150"]> ∅).

(** ** The codes of the flip menu *)

Lemma flip_menu_codes (x y : string) :
  x ∈ flip_menu -> y ∈ flip_menu ->
  menu_flag flip_menu (VStr x) <> 0%Z /\
  (menu_flag flip_menu (VStr x) = menu_flag flip_menu (VStr y) -> x = y) /\
  num_wf (JInt (menu_flag flip_menu (VStr x))) = true /\ num_wf (JInt (menu_flag flip_menu (VStr y))) = true.
Proof.
  unfold flip_menu. intros Hx Hy. rewrite !elem_of_cons, elem_of_nil in Hx, Hy.
  destruct_or! Hx; destruct_or! Hy; try contradiction; subst; split_and!; try done;
    vm_compute; congruence.
Qed.

