(* ===== verification/Tello.v ===== *)
(** * The DJI Tello extension ([src/src/extensions/scratch3_dji_tello/index.js])

    Module [DjiTelloBlocks] transcribes the class of the same name: its
    catalog ([getInfo], one definition per block), its constructor, and one
    definition per method, each in the monad [JS] over the host [state].
    Every command method sends one message to the Unity instance held in the
    global [djiTelloInstance]; the reporters return constants; [face],
    [picture], [searchColor] and [move] do nothing.  The theorems give each
    handler's behaviour on every branch, and discharge the [UnityDrone]
    interface. *)

From stdpp Require Import base gmap strings list.
From Stdlib Require Import Ascii ZArith Lia.
From S2P Require Import Base JsNum Js Host Protocol Catalog Extension Drone.

Local Open Scope js_scope.

Module DjiTelloBlocks.

(** ** [getInfo()] *)

Definition blk_changeStage : block :=
  mk_block "changeStage" "ステージを[m]に切り替える" COMMAND
    [mk_argument "m" STRING (Some "stage") (Some (VStr "Simulator"))].

Definition blk_reset : block :=
  mk_block "reset" "リセット" COMMAND
    [].

Definition blk_connected : block :=
  mk_block "connected" "接続状態" BOOLEAN_BLOCK
    [mk_argument "CONNECTED" BOOLEAN None None].

Definition blk_gaz : block :=
  mk_block "gaz" "ギャズ（上下速度）" REPORTER
    [].

Definition blk_pitch : block :=
  mk_block "pitch" "ピッチ（前後速度）" REPORTER
    [].

Definition blk_roll : block :=
  mk_block "roll" "ピッチ（前後速度）" REPORTER
    [].

Definition blk_battery : block :=
  mk_block "battery" "バッテリー" REPORTER
    [].

Definition blk_takeoff : block :=
  mk_block "takeoff" "離陸する" COMMAND
    [].

Definition blk_landing : block :=
  mk_block "landing" "着陸する" COMMAND
    [].

Definition blk_stop : block :=
  mk_block "stop" "移動停止（ホバリング）" COMMAND
    [].

Definition blk_set_gaz : block :=
  mk_block "set_gaz" "[m] 速度[n]" COMMAND
    [mk_argument "m" STRING (Some "gaz") (Some (VStr "上昇"));
     mk_argument "n" NUMBER None (Some (VInt 1))].

Definition blk_set_pitch : block :=
  mk_block "set_pitch" "[m] 速度[n]" COMMAND
    [mk_argument "m" STRING (Some "pitch") (Some (VStr "前進"));
     mk_argument "n" NUMBER None (Some (VInt 1))].

Definition blk_set_roll : block :=
  mk_block "set_roll" "[m] 速度[n]" COMMAND
    [mk_argument "m" STRING (Some "roll") (Some (VStr "右移動"));
     mk_argument "n" NUMBER None (Some (VInt 1))].

Definition blk_set_yaw : block :=
  mk_block "set_yaw" "[m] 速度[n]" COMMAND
    [mk_argument "m" STRING (Some "yaw") (Some (VStr "右旋回"));
     mk_argument "n" NUMBER None (Some (VInt 1))].

Definition blk_cap : block :=
  mk_block "cap" "[m] 角度[n] 度" COMMAND
    [mk_argument "m" STRING (Some "yaw") (Some (VStr "右旋回"));
     mk_argument "n" NUMBER None (Some (VInt 90))].

Definition blk_flip : block :=
  mk_block "flip" "[m] フリップ" COMMAND
    [mk_argument "m" STRING (Some "flip") (Some (VStr "前"))].

Definition blk_light : block :=
  mk_block "light" "ライト[n]" COMMAND
    [mk_argument "n" NUMBER None (Some (VInt 0))].

Definition blk_searchColor : block :=
  mk_block "searchColor" "[COLOR]色を探す" COMMAND
    [mk_argument "COLOR" COLOR None None].

Definition blk_picture : block :=
  mk_block "picture" "写真撮影" COMMAND
    [].

Definition blk_face : block :=
  mk_block "face" "顔を[m]" COMMAND
    [mk_argument "m" STRING (Some "face") (Some (VStr "登録する"))].

Definition blk_pitch_roll_yaw_gaz : block :=
  mk_block "pitch_roll_yaw_gaz" "[m] 速度[n] | [o] 速度[p] | [q] 速度[r] | [s] 速度[t]" COMMAND
    [mk_argument "m" STRING (Some "pitch") (Some (VStr "前進"));
     mk_argument "n" NUMBER None (Some (VInt 0));
     mk_argument "o" STRING (Some "roll") (Some (VStr "右移動"));
     mk_argument "p" NUMBER None (Some (VInt 0));
     mk_argument "q" STRING (Some "yaw") (Some (VStr "右旋回"));
     mk_argument "r" NUMBER None (Some (VInt 0));
     mk_argument "s" STRING (Some "gaz") (Some (VStr "上昇"));
     mk_argument "t" NUMBER None (Some (VInt 0))].

Definition blk_move : block :=
  mk_block "move" "[m]に移動する" COMMAND
    [mk_argument "m" STRING (Some "move") (Some (VStr "中心"))].

Definition menus_def : list (string * list string) :=
  [("stage", ["標準"; "Simulator"]);
   ("pitch", ["前進"; "後進"]);
   ("roll", ["右移動"; "左移動"]);
   ("yaw", ["右旋回"; "左旋回"]);
   ("gaz", ["上昇"; "下降"]);
   ("flip", ["前"; "後"; "右"; "左"]);
   ("face", ["登録する"; "探す"]);
   ("move", ["中心"])].

Definition getInfo : info :=
  mk_info "djiTelloBlocks" "DJI Tello" "#42f4ad" "#008e47" "#2eaa6c"
    [blk_changeStage; blk_reset; blk_connected; blk_gaz; blk_pitch; blk_roll; blk_battery; blk_takeoff; blk_landing; blk_stop; blk_set_gaz; blk_set_pitch; blk_set_roll; blk_set_yaw; blk_cap; blk_flip; blk_light; blk_searchColor; blk_picture; blk_face; blk_pitch_roll_yaw_gaz; blk_move]
    menus_def.

(** ** Methods *)

(** [djiTelloInstance.SendMessage("Drones", "Scratch3", msg)]. *)
Definition sendMessage (msg : string) : JS unit :=
  inst ← get_global "djiTelloInstance";
  send_message inst "Drones" "Scratch3" msg.

Definition constructor : JS unit :=
  set_global "stageId" (VInt 2) ;;
  sid ← get_global "stageId";
  call_changeStage sid ;;
  inst ← unity_instantiate "djiTello_drone" "static/dji_tello/dji_tello.json";
  set_global "djiTelloInstance" inst.

Definition changeStage (args : jsargs) : JS value :=
  (if loose_eq_str args.["m"] "標準" then
     set_global "stageId" (VInt 0) ;;
     sid ← get_global "stageId";
     call_changeStage sid
   else mret tt) ;;
  (if loose_eq_str args.["m"] "Simulator" then
     set_global "stageId" (VInt 2) ;;
     sid ← get_global "stageId";
     call_changeStage sid
   else mret tt) ;;
  mret VUndefined.

Definition reset : JS value := sendMessage "0,3" ;; mret VUndefined.

Definition connected (args : jsargs) : JS value := mret (VBool false).
Definition gaz (args : jsargs) : JS value := mret (VInt 0).
Definition pitch (args : jsargs) : JS value := mret (VInt 0).
Definition roll (args : jsargs) : JS value := mret (VInt 0).
Definition battery (args : jsargs) : JS value := mret (VInt 0).

Definition takeoff (args : jsargs) : JS value := sendMessage "0,4" ;; mret VUndefined.
Definition landing (args : jsargs) : JS value := sendMessage "0,5" ;; mret VUndefined.
Definition stop (args : jsargs) : JS value := sendMessage "0,2" ;; mret VUndefined.

Definition set_gaz (args : jsargs) : JS value :=
  let a := if loose_eq_str args.["m"] "下降" then VInt (-1) else VInt 1 in
  let tmp := if gt_num args.["n"] 100 then VInt 100 else args.["n"] in
  sendMessage (cat_l "0,120,0," (mul a tmp)) ;;
  mret VUndefined.

Definition set_pitch (args : jsargs) : JS value :=
  let a := if loose_eq_str args.["m"] "後進" then VInt (-1) else VInt 1 in
  let tmp := if gt_num args.["n"] 100 then VInt 100 else args.["n"] in
  sendMessage (cat_l "0,110,0," (mul a tmp)) ;;
  mret VUndefined.

Definition set_roll (args : jsargs) : JS value :=
  let a := if loose_eq_str args.["m"] "左移動" then VInt (-1) else VInt 1 in
  let tmp := if gt_num args.["n"] 100 then VInt 100 else args.["n"] in
  sendMessage (cat_l "0,100,0," (mul a tmp)) ;;
  mret VUndefined.

Definition set_yaw (args : jsargs) : JS value :=
  let a := if loose_eq_str args.["m"] "左旋回" then VInt (-1) else VInt 1 in
  let tmp := if gt_num args.["n"] 100 then VInt 100 else args.["n"] in
  sendMessage (cat_l "0,130,0," (mul a tmp)) ;;
  mret VUndefined.

Definition cap (args : jsargs) : JS value :=
  let a := if loose_eq_str args.["m"] "左旋回" then VInt (-1) else VInt 1 in
  let tmp := if gt_num args.["n"] 360 then VInt 360 else args.["n"] in
  sendMessage (cat_l "0,200,0," (mul a tmp)) ;;
  mret VUndefined.

Definition flip (args : jsargs) : JS value :=
  let a :=
    if strict_eq_str args.["m"] "前" then VInt 1
    else if strict_eq_str args.["m"] "後" then VInt 2
    else if strict_eq_str args.["m"] "右" then VInt 4
    else if strict_eq_str args.["m"] "左" then VInt 8
    else VInt 0 in
  sendMessage (cat_l "0,210," a) ;;
  mret VUndefined.

Definition light (args : jsargs) : JS value :=
  sendMessage (cat_l "0,220,0," (mul args.["n"] (VInt 255))) ;;
  mret VUndefined.

Definition face (args : jsargs) : JS value := mret VUndefined.
Definition picture (args : jsargs) : JS value := mret VUndefined.
Definition searchColor (args : jsargs) : JS value := mret VUndefined.

Definition pitch_roll_yaw_gaz (args : jsargs) : JS value :=
  let p := if loose_eq_str args.["m"] "後進" then VInt (-1) else VInt 1 in
  let r := if loose_eq_str args.["o"] "左移動" then VInt (-1) else VInt 1 in
  let y := if loose_eq_str args.["q"] "左旋回" then VInt (-1) else VInt 1 in
  let g := if loose_eq_str args.["s"] "下降" then VInt (-1) else VInt 1 in
  let tmp_p := if gt_num args.["n"] 100 then VInt 100 else args.["n"] in
  let tmp_r := if gt_num args.["p"] 100 then VInt 100 else args.["p"] in
  let tmp_y := if gt_num args.["r"] 100 then VInt 100 else args.["r"] in
  let tmp_g := if gt_num args.["t"] 100 then VInt 100 else args.["t"] in
  let str :=
    to_string (mul r tmp_r) +:+ ":" +:+ to_string (mul p tmp_p) +:+ ":"
      +:+ to_string (mul g tmp_g) +:+ ":" +:+ to_string (mul y tmp_y) in
  sendMessage (cat_l "0,140,0," (VStr str)) ;;
  mret VUndefined.

Definition move (args : jsargs) : JS value := mret VUndefined.

(** The methods of the class, by name. *)
Definition method (op : string) : option (jsargs -> JS value) :=
  if String.eqb op "changeStage" then Some changeStage
  else if String.eqb op "reset" then Some (fun _ => reset)
  else if String.eqb op "connected" then Some connected
  else if String.eqb op "gaz" then Some gaz
  else if String.eqb op "pitch" then Some pitch
  else if String.eqb op "roll" then Some roll
  else if String.eqb op "battery" then Some battery
  else if String.eqb op "takeoff" then Some takeoff
  else if String.eqb op "landing" then Some landing
  else if String.eqb op "stop" then Some stop
  else if String.eqb op "set_gaz" then Some set_gaz
  else if String.eqb op "set_pitch" then Some set_pitch
  else if String.eqb op "set_roll" then Some set_roll
  else if String.eqb op "set_yaw" then Some set_yaw
  else if String.eqb op "cap" then Some cap
  else if String.eqb op "flip" then Some flip
  else if String.eqb op "light" then Some light
  else if String.eqb op "face" then Some face
  else if String.eqb op "picture" then Some picture
  else if String.eqb op "searchColor" then Some searchColor
  else if String.eqb op "pitch_roll_yaw_gaz" then Some pitch_roll_yaw_gaz
  else if String.eqb op "move" then Some move
  else None.

Definition extension : Extension.extension := mk_extension getInfo constructor method.

(** ** The abstract command of each block *)

Definition command_of (op : string) (a : jsargs) : option command :=
  if String.eqb op "reset" then Some Reset
  else if String.eqb op "takeoff" then Some TakeOff
  else if String.eqb op "landing" then Some Landing
  else if String.eqb op "stop" then Some Stop
  else if String.eqb op "set_gaz" then Some (SetGaz (speed a "m" "下降" "n" 100))
  else if String.eqb op "set_pitch" then Some (SetPitch (speed a "m" "後進" "n" 100))
  else if String.eqb op "set_roll" then Some (SetRoll (speed a "m" "左移動" "n" 100))
  else if String.eqb op "set_yaw" then Some (SetYaw (speed a "m" "左旋回" "n" 100))
  else if String.eqb op "cap" then Some (Cap (speed a "m" "左旋回" "n" 360))
  else if String.eqb op "flip" then Some (Flip (JInt (menu_flag flip_menu a.["m"])))
  else if String.eqb op "light" then Some (Light (num_mul (to_number a.["n"]) (JInt 255)))
  else if String.eqb op "pitch_roll_yaw_gaz" then
    Some (Set4Axis (speed a "o" "左移動" "p" 100) (speed a "m" "後進" "n" 100)
                   (speed a "s" "下降" "t" 100) (speed a "q" "左旋回" "r" 100))
  else None.

(** What the reporters answer; [undefined] for every other block. *)
Definition reply (op : string) : value :=
  if String.eqb op "connected" then VBool false
  else if String.eqb op "gaz" || String.eqb op "pitch" || String.eqb op "roll"
          || String.eqb op "battery" then VInt 0
  else VUndefined.

(** The [stageId] the [changeStage] block selects. *)
Definition stage_target (a : jsargs) : option Z :=
  if loose_eq_str a.["m"] "標準" then Some 0%Z
  else if loose_eq_str a.["m"] "Simulator" then Some 2%Z
  else None.

(** The page after the constructor. *)
Definition constructed (s : state) : state :=
  with_globals (<["djiTelloInstance" := VUnity (length (unities s))]> (globals (staged s 2)))
    (with_unities (unities s ++ [mk_unity "djiTello_drone" "static/dji_tello/dji_tello.json" []])
       (staged s 2)).

(** ** Behaviour of the handlers *)

Lemma tello_send_undefined s l u msg :
  globals s !! "djiTelloInstance" = Some (VUnity l) -> unities s !! l = Some u ->
  run (sendMessage msg ;; mret VUndefined) s = (sent s l u msg, Normal VUndefined).
Proof. intros Hinst Hu. exact (send_return_run s _ l u Hinst Hu msg). Qed.

(** Every command block is [sendMessage] of the encoding of its command,
    followed by [return]. *)
Lemma tello_method_message (op : string) (h : jsargs -> JS value) (a : jsargs) (c : command) (s : state) :
  method op = Some h -> command_of op a = Some c -> args_wf a ->
  run (h a) s = run (sendMessage (encode_command c) ;; mret VUndefined) s.
Proof.
  intros Hm Hc Ha. unfold method, command_of in *. str_cases; simplify_eq;
    cbv zeta; unfold reset, takeoff, landing, stop, set_gaz, set_pitch, set_roll,
    set_yaw, cap, flip, light, pitch_roll_yaw_gaz; cbv zeta;
    rewrite ?speed_message, ?flip_switch by done; try reflexivity.
  unfold cat_l. by rewrite !speed_string.
Qed.

Lemma tello_method_sends (op : string) (h : jsargs -> JS value) (a : jsargs) (c : command)
    (s : state) (l : nat) (u : unity) :
  method op = Some h -> command_of op a = Some c -> args_wf a ->
  globals s !! "djiTelloInstance" = Some (VUnity l) -> unities s !! l = Some u ->
  run (h a) s = (sent s l u (encode_command c), Normal VUndefined).
Proof.
  intros Hm Hc Ha Hinst Hu. rewrite (tello_method_message op h a c) by done.
  by apply tello_send_undefined.
Qed.

Lemma tello_quiet_methods (op : string) (h : jsargs -> JS value) (a : jsargs) (s : state) :
  method op = Some h -> command_of op a = None -> op <> "changeStage" ->
  run (h a) s = (s, Normal (reply op)).
Proof. intros Hm Hc Hne. unfold method, command_of in *. str_cases; simplify_eq; done. Qed.

Lemma tello_changeStage_run (a : jsargs) (s : state) :
  is_Some (globals s !! "stageId") -> globals s !! "changeStage" = Some (VHost "changeStage") ->
  run (changeStage a) s =
    (match stage_target a with Some n => staged s n | None => s end, Normal VUndefined).
Proof.
  intros Hst Hcs. unfold changeStage, stage_target.
  destruct (loose_eq_str a.["m"] "標準") eqn:E1.
  - rewrite (loose_eq_str_exclusive _ "標準" "Simulator") by done.
    rewrite run_bind, stage_step by done. done.
  - rewrite bind_ret_l. destruct (loose_eq_str a.["m"] "Simulator").
    + rewrite run_bind, stage_step by done. done.
    + by rewrite bind_ret_l.
Qed.

(** C13: On a page that never declared [stageId], choosing a stage with
    the [changeStage] block throws a [ReferenceError] (class bodies are
    strict code) before anything is changed: [changeStage(stageId)] is not
    called and the page keeps its stage. *)
Lemma tello_changeStage_undeclared (a : jsargs) (s : state) :
  globals s !! "stageId" = None -> stage_target a <> None ->
  run (changeStage a) s = (s, Thrown (ReferenceError "stageId")).
Proof.
  intros Hst Ht. unfold changeStage. unfold stage_target in Ht.
  destruct (loose_eq_str a.["m"] "標準").
  - by rewrite run_bind, stage_step_undeclared.
  - destruct (loose_eq_str a.["m"] "Simulator"); [|done].
    by rewrite bind_ret_l, run_bind, stage_step_undeclared.
Qed.

Lemma tello_constructor_run (s : state) :
  is_Some (globals s !! "stageId") -> globals s !! "changeStage" = Some (VHost "changeStage") ->
  globals s !! "UnityLoader" = Some (VHost "UnityLoader") ->
  is_Some (globals s !! "djiTelloInstance") ->
  run constructor s = (constructed s, Normal tt).
Proof.
  intros Hst Hcs Hul Hinst. by apply stage_then_load_run.
Qed.

Lemma tello_constructed_ready (s : state) :
  is_Some (globals s !! "stageId") -> globals s !! "changeStage" = Some (VHost "changeStage") ->
  host_ready "djiTelloInstance" (constructed s).
Proof.
  intros Hst Hcs. unfold host_ready, constructed, staged; simpl. split_and!.
  - by rewrite lookup_insert_ne, lookup_insert_eq.
  - by rewrite !lookup_insert_ne.
  - eexists. split; [by rewrite lookup_insert_eq|]. rewrite length_app. simpl. lia.
Qed.

(** ** The Tello meets the [UnityDrone] interface *)

Lemma tello_command_of_wf (op : string) (a : jsargs) (c : command) :
  args_wf a -> command_of op a = Some c -> command_wf c = true.
Proof. intros Ha Hc. unfold command_of in Hc. str_cases; simplify_eq; simpl;
  rewrite ?speed_wf; auto with js.
Qed.

Lemma tello_method_step (op : string) (a : jsargs) (h : jsargs -> JS value) (s : state) (l : nat) (u : unity) :
  ext_method extension op = Some h -> args_wf a -> host_ready "djiTelloInstance" s ->
  globals s !! "djiTelloInstance" = Some (VUnity l) -> unities s !! l = Some u ->
  exists s' v,
    run (h a) s = (s', Normal v) /\
    host_ready "djiTelloInstance" s' /\
    globals s' !! "djiTelloInstance" = Some (VUnity l) /\
    unities s' = <[l := log_after (command_of op a) u]> (unities s) /\
    frames_stage s s'.
Proof.
  intros Hm Ha Hready Hinst Hu. simpl in Hm.
  destruct (command_of op a) as [c|] eqn:Hc.
  - exists (sent s l u (encode_command c)), VUndefined.
    split_and!; [by eapply tello_method_sends|by apply host_ready_sent|done|done|apply frames_stage_unities].
  - rewrite list_insert_id by done.
    destruct (String.eqb_spec op "changeStage") as [->|Hne].
    + unfold method in Hm. simpl in Hm. simplify_eq. destruct Hready as (Hst & Hcs & Hrest).
      rewrite tello_changeStage_run by done.
      eexists _, VUndefined. split; [done|].
      destruct (stage_target a); [|split_and!; first [apply frames_stage_refl|done]].
      split_and!; [by apply host_ready_staged|simpl; by rewrite lookup_insert_ne|done|apply frames_stage_staged].
    + eexists s, _. rewrite (tello_quiet_methods op h a s) by done. split_and!; first [apply frames_stage_refl|done].
Qed.


(** ** The blocks as the runtime runs them *)

Lemma tello_known (op : string) : is_Some (method op) <-> str_mem op (opcodes getInfo) = true.
Proof.
  unfold method, str_mem. cbn -[String.eqb]. str_cases; split; intros H; by inversion H.
Qed.

(** C1: On a page that declares [stageId] and [changeStage] and whose
    [djiTelloInstance] is a live Unity instance, the runtime's call of any
    opcode on the Tello extension does exactly what [unity_block_spec]
    says: an opcode outside the catalog throws a [TypeError]; each command
    block returns [undefined] after sending the instance the encoding of
    its command ([command_of]); [changeStage] sets [stageId] to 0 or 2 and
    calls the page's [changeStage]; the reporters answer [false] or [0] and
    the other blocks [undefined], changing nothing. *)
Theorem tello_run_block (op : string) (a : jsargs) (s : state) (l : nat) (u : unity) :
  is_Some (globals s !! "stageId") -> globals s !! "changeStage" = Some (VHost "changeStage") ->
  globals s !! "djiTelloInstance" = Some (VUnity l) -> unities s !! l = Some u -> args_wf a ->
  run (run_block extension op a) s =
    unity_block_spec (opcodes getInfo) command_of stage_target reply op a s l u.
Proof.
  apply (dispatch_run extension "djiTelloInstance"); [exact tello_known|exact tello_method_sends
    |exact tello_quiet_methods|].
  intros h a' s' Hm Hst Hcs. simpl in Hm. unfold method in Hm. simpl in Hm. simplify_eq.
  rewrite tello_changeStage_run by done. by destruct (stage_target a').
Qed.

(** C7: The speed [set_gaz] sends is clamped from above only: in the
    direction the menu selects it never exceeds 100, i.e. the message is
    ["0,120,0," + x] with [x <= 100] for [上昇] and [x >= -100] for [下降]. *)
Theorem tello_set_gaz_capped (a : jsargs) (s : state) (l : nat) (u : unity) :
  args_wf a -> globals s !! "djiTelloInstance" = Some (VUnity l) -> unities s !! l = Some u ->
  exists x,
    run (set_gaz a) s = (sent s l u ("0,120,0," +:+ num_to_string x), Normal VUndefined) /\
    (if loose_eq_str a.["m"] "下降" then num_gt (JInt (-100)) x else num_gt x (JInt 100)) = false.
Proof.
  intros Ha Hinst Hu. exists (speed a "m" "下降" "n" 100). split; [|apply speed_capped].
  by apply (tello_method_sends "set_gaz" set_gaz a (SetGaz (speed a "m" "下降" "n" 100))).
Qed.

Lemma tello_run_block_witness :
  is_Some (globals example_page !! "stageId") /\
  globals example_page !! "changeStage" = Some (VHost "changeStage") /\
  globals example_page !! "djiTelloInstance" = Some (VUnity 0) /\
  unities example_page !! 0 = Some (mk_unity "djiTello_drone" "static/dji_tello/dji_tello.json" []) /\
  args_wf example_args /\
  run (run_block extension "set_gaz" example_args) example_page =
    unity_block_spec (opcodes getInfo) command_of stage_target reply "set_gaz" example_args example_page 0
      (mk_unity "djiTello_drone" "static/dji_tello/dji_tello.json" []).
Proof.
  split_and!; [concrete..|apply tello_run_block; concrete].
Defined.
Lemma tello_set_gaz_capped_witness :
  args_wf example_args /\ globals example_page !! "djiTelloInstance" = Some (VUnity 0) /\
  unities example_page !! 0 = Some (mk_unity "djiTello_drone" "static/dji_tello/dji_tello.json" []) /\
  exists x,
    run (set_gaz example_args) example_page =
      (sent example_page 0 (mk_unity "djiTello_drone" "static/dji_tello/dji_tello.json" [])
         ("0,120,0," +:+ num_to_string x), Normal VUndefined) /\
    (if loose_eq_str example_args.["m"] "下降" then num_gt (JInt (-100)) x else num_gt x (JInt 100)) = false.
Proof. split_and!; [concrete..|apply tello_set_gaz_capped; concrete]. Defined.

(** C10: The constructor, on a page that declares [stageId],
    [changeStage], [UnityLoader] and [djiTelloInstance], returns normally
    after switching the page to the simulator ([stageId] 2 and the call
    [changeStage(2)]) and loading a fresh Unity instance of the Tello build,
    with an empty log, into [djiTelloInstance]; the page is then ready for
    every block. *)
Theorem tello_constructor_ready (s : state) :
  is_Some (globals s !! "stageId") -> globals s !! "changeStage" = Some (VHost "changeStage") ->
  globals s !! "UnityLoader" = Some (VHost "UnityLoader") ->
  is_Some (globals s !! "djiTelloInstance") ->
  exists s',
    run constructor s = (s', Normal tt) /\ host_ready "djiTelloInstance" s' /\
    globals s' !! "stageId" = Some (VInt 2) /\
    host_log s' = host_log s ++ [HostChangeStage (VInt 2)] /\
    globals s' !! "djiTelloInstance" = Some (VUnity (length (unities s))) /\
    unities s' = unities s ++ [mk_unity "djiTello_drone" "static/dji_tello/dji_tello.json" []].
Proof.
  intros Hst Hcs Hul Hinst. exists (constructed s).
  rewrite tello_constructor_run by done. split_and!; [done|by apply tello_constructed_ready|..];
    unfold constructed, staged; simpl; by simplify_map_eq.
Qed.

Lemma tello_constructor_ready_witness :
  is_Some (globals example_page !! "stageId") /\
  globals example_page !! "changeStage" = Some (VHost "changeStage") /\
  globals example_page !! "UnityLoader" = Some (VHost "UnityLoader") /\
  is_Some (globals example_page !! "djiTelloInstance") /\
  exists s',
    run constructor example_page = (s', Normal tt) /\ host_ready "djiTelloInstance" s' /\
    globals s' !! "stageId" = Some (VInt 2) /\
    host_log s' = host_log example_page ++ [HostChangeStage (VInt 2)] /\
    globals s' !! "djiTelloInstance" = Some (VUnity (length (unities example_page))) /\
    unities s' = unities example_page ++ [mk_unity "djiTello_drone" "static/dji_tello/dji_tello.json" []].
Proof. split_and!; [concrete..|apply tello_constructor_ready; concrete]. Defined.
Lemma tello_changeStage_undeclared_witness :
  globals (with_globals (delete "stageId" (globals example_page)) example_page) !! "stageId" = None /\
  stage_target (<["m" := VStr "標準"]> ∅) <> None /\
  run (changeStage (<["m" := VStr "標準"]> ∅)) (with_globals (delete "stageId" (globals example_page)) example_page)
  = (with_globals (delete "stageId" (globals example_page)) example_page, Thrown (ReferenceError "stageId")).
Proof. split_and!; [concrete..|apply tello_changeStage_undeclared; concrete]. Defined.

(** C14: The [flip] block tells the items of its menu apart: two items of
    the catalog's [flip] menu make the handler send the same message only
    if they are the same item, and no item sends the code 0 a label outside
    the menu gets. *)
Theorem tello_flip_items_distinct (x y : string) (s : state) (l : nat) (u : unity) :
  globals s !! "djiTelloInstance" = Some (VUnity l) -> unities s !! l = Some u ->
  x ∈ default [] (menu_lookup "flip" menus_def) -> y ∈ default [] (menu_lookup "flip" menus_def) ->
  (run (flip (<["m" := VStr x]> ∅)) s = run (flip (<["m" := VStr y]> ∅)) s <-> x = y) /\
  run (flip (<["m" := VStr x]> ∅)) s <> (sent s l u "0,210,0", Normal VUndefined).
Proof.
  intros Hinst Hu Hx Hy. destruct (flip_menu_codes x y Hx Hy) as (Hnz & Hinj & Wx & Wy).
  rewrite !(tello_method_sends "flip" flip _ _ s l u) by (reflexivity || done || auto with js).
  split; [split; [|by intros ->]|]; intros H; apply pair_equal_spec in H as [H _];
    apply sent_inj in H; try done; try change "0,210,0" with ("0,210," +:+ num_to_string (JInt 0)) in H;
    [apply Hinj|apply Hnz]; by apply (coded_message_inj "0,210,").
Qed.

Lemma tello_flip_items_distinct_witness :
  globals example_page !! "djiTelloInstance" = Some (VUnity 0) /\
  unities example_page !! 0 = Some (mk_unity "djiTello_drone" "static/dji_tello/dji_tello.json" []) /\
  "右" ∈ default [] (menu_lookup "flip" menus_def) /\ "左" ∈ default [] (menu_lookup "flip" menus_def) /\
  (run (flip (<["m" := VStr "右"]> ∅)) example_page = run (flip (<["m" := VStr "左"]> ∅)) example_page <-> "右" = "左") /\
  run (flip (<["m" := VStr "右"]> ∅)) example_page <>
    (sent example_page 0 (mk_unity "djiTello_drone" "static/dji_tello/dji_tello.json" []) "0,210,0", Normal VUndefined).
Proof. do 4 (split; [concrete|]). apply tello_flip_items_distinct; concrete. Defined.

(** C24: The handlers never check that an instance was loaded: on a page
    where [djiTelloInstance] is declared but still [undefined] (the state
    before the constructor assigns it), every block with a command throws
    the [TypeError] of reading [SendMessage] of [undefined] and changes
    nothing, while the reporters and the unimplemented blocks return their
    value as usual. *)
Theorem tello_blocks_unloaded (op : string) (h : jsargs -> JS value) (a : jsargs) (s : state) :
  method op = Some h -> args_wf a -> op <> "changeStage" ->
  globals s !! "djiTelloInstance" = Some VUndefined ->
  run (h a) s = (s, match command_of op a with
                    | Some _ => Thrown unloaded_error
                    | None => Normal (reply op)
                    end).
Proof.
  intros Hm Ha Hne Hinst. destruct (command_of op a) as [c|] eqn:Hc.
  - rewrite (tello_method_message op h a c) by done. exact (send_return_unloaded s _ _ Hinst).
  - by apply tello_quiet_methods.
Qed.

(** The example page before the Tello's constructor assigned its instance. *)
Definition unloaded_page : state :=
  with_globals (<["djiTelloInstance" := VUndefined]> (globals example_page)) example_page.

Lemma tello_blocks_unloaded_witness :
  method "set_gaz" = Some set_gaz /\ args_wf example_args /\ "set_gaz" <> "changeStage" /\
  globals unloaded_page !! "djiTelloInstance" = Some VUndefined /\
  run (set_gaz example_args) unloaded_page =
    (unloaded_page, match command_of "set_gaz" example_args with
                    | Some _ => Thrown unloaded_error
                    | None => Normal (reply "set_gaz")
                    end).
Proof. do 4 (split; [concrete|]). apply tello_blocks_unloaded; concrete. Defined.

(** C29: The constructor on a page without [UnityLoader] throws a
    [ReferenceError] after it has switched the page to the Tello's stage
    ([stageId] 2 and the call [changeStage(2)]); no Unity instance is
    created and [djiTelloInstance] keeps its value, so the Tello's command
    blocks then throw as well. *)
Theorem tello_constructor_no_loader (s : state) :
  is_Some (globals s !! "stageId") -> globals s !! "changeStage" = Some (VHost "changeStage") ->
  globals s !! "UnityLoader" = None ->
  run constructor s = (staged s 2, Thrown (ReferenceError "UnityLoader")) /\
  unities (staged s 2) = unities s /\
  globals (staged s 2) !! "djiTelloInstance" = globals s !! "djiTelloInstance".
Proof.
  intros Hst Hcs Hul. split_and!; [by apply stage_then_load_no_loader|done|by simpl; simplify_map_eq].
Qed.

Lemma tello_constructor_no_loader_witness :
  is_Some (globals no_loader_page !! "stageId") /\
  globals no_loader_page !! "changeStage" = Some (VHost "changeStage") /\
  globals no_loader_page !! "UnityLoader" = None /\
  run constructor no_loader_page = (staged no_loader_page 2, Thrown (ReferenceError "UnityLoader")) /\
  unities (staged no_loader_page 2) = unities no_loader_page /\
  globals (staged no_loader_page 2) !! "djiTelloInstance" = globals no_loader_page !! "djiTelloInstance".
Proof. do 3 (split; [concrete|]). apply tello_constructor_no_loader; concrete. Defined.

(** ** The interface instance *)

#[export] Instance unity_drone : UnityDrone extension := {|
  ud_instance := "djiTelloInstance";
  ud_command := command_of;
  ud_command_wf := tello_command_of_wf;
  ud_step := tello_method_step
|}.
End DjiTelloBlocks.
