(* ===== verification/Mambo.v ===== *)
(** * The Parrot Mambo extension ([src/src/extensions/scratch3_parrot_mambo/index.js])

    Module [ParrotMamboBlocks] transcribes the class of the same name.  It
    is the Tello's class with another instance global ([gameInstance]),
    another Unity build, [stageId] 1 for the simulator, and the blocks
    [grab], [picture] and [shoot] sending commands where the Tello has
    [face], [searchColor] and [move] doing nothing.  The theorems mirror
    [Tello.v] and discharge the [UnityDrone] interface. *)

From stdpp Require Import base gmap strings list.
From Stdlib Require Import Ascii ZArith Lia.
From S2P Require Import Base JsNum Js Host Protocol Catalog Extension Drone.

Local Open Scope js_scope.

Module ParrotMamboBlocks.

(** ** [getInfo()] *)

Definition blk_changeStage : block :=
  mk_block "changeStage" "ステージを[m]に切り替える" COMMAND
    [mk_argument "m" STRING (Some "stage") (Some (VStr "Simulator"))].

Definition blk_reset : block :=
  mk_block "reset" "リセット" COMMAND
    [].

Definition blk_connected : block :=
  mk_block "connected" "接続状態" BOOLEAN_BLOCK
    [mk_argument "CONNECTED" BOOLEAN None None].

Definition blk_gaz : block :=
  mk_block "gaz" "ギャズ（上下速度）" REPORTER
    [].

Definition blk_pitch : block :=
  mk_block "pitch" "ピッチ（前後速度）" REPORTER
    [].

Definition blk_roll : block :=
  mk_block "roll" "ピッチ（前後速度）" REPORTER
    [].

Definition blk_battery : block :=
  mk_block "battery" "バッテリー" REPORTER
    [].

Definition blk_takeoff : block :=
  mk_block "takeoff" "離陸する" COMMAND
    [].

Definition blk_landing : block :=
  mk_block "landing" "着陸する" COMMAND
    [].

Definition blk_stop : block :=
  mk_block "stop" "移動停止（ホバリング）" COMMAND
    [].

Definition blk_set_gaz : block :=
  mk_block "set_gaz" "[m] 速度[n]" COMMAND
    [mk_argument "m" STRING (Some "gaz") (Some (VStr "上昇"));
     mk_argument "n" NUMBER None (Some (VInt 1))].

Definition blk_set_pitch : block :=
  mk_block "set_pitch" "[m] 速度[n]" COMMAND
    [mk_argument "m" STRING (Some "pitch") (Some (VStr "前進"));
     mk_argument "n" NUMBER None (Some (VInt 1))].

Definition blk_set_roll : block :=
  mk_block "set_roll" "[m] 速度[n]" COMMAND
    [mk_argument "m" STRING (Some "roll") (Some (VStr "右移動"));
     mk_argument "n" NUMBER None (Some (VInt 1))].

Definition blk_set_yaw : block :=
  mk_block "set_yaw" "[m] 速度[n]" COMMAND
    [mk_argument "m" STRING (Some "yaw") (Some (VStr "右旋回"));
     mk_argument "n" NUMBER None (Some (VInt 1))].

Definition blk_cap : block :=
  mk_block "cap" "[m] 角度[n] 度" COMMAND
    [mk_argument "m" STRING (Some "yaw") (Some (VStr "右旋回"));
     mk_argument "n" NUMBER None (Some (VInt 90))].

Definition blk_flip : block :=
  mk_block "flip" "[m] フリップ" COMMAND
    [mk_argument "m" STRING (Some "flip") (Some (VStr "前"))].

Definition blk_light : block :=
  mk_block "light" "ライト[n]" COMMAND
    [mk_argument "n" NUMBER None (Some (VInt 0))].

Definition blk_grab : block :=
  mk_block "grab" "アームを[m]" COMMAND
    [mk_argument "m" STRING (Some "grab") (Some (VStr "開く←→閉じる"))].

Definition blk_picture : block :=
  mk_block "picture" "写真撮影" COMMAND
    [].

Definition blk_shoot : block :=
  mk_block "shoot" "弾を射つ" COMMAND
    [].

Definition blk_pitch_roll_yaw_gaz : block :=
  mk_block "pitch_roll_yaw_gaz" "[m] 速度[n] | [o] 速度[p] | [q] 速度[r] | [s] 速度[t]" COMMAND
    [mk_argument "m" STRING (Some "pitch") (Some (VStr "前進"));
     mk_argument "n" NUMBER None (Some (VInt 0));
     mk_argument "o" STRING (Some "roll") (Some (VStr "右移動"));
     mk_argument "p" NUMBER None (Some (VInt 0));
     mk_argument "q" STRING (Some "yaw") (Some (VStr "右旋回"));
     mk_argument "r" NUMBER None (Some (VInt 0));
     mk_argument "s" STRING (Some "gaz") (Some (VStr "上昇"));
     mk_argument "t" NUMBER None (Some (VInt 0))].

Definition menus_def : list (string * list string) :=
  [("stage", ["標準"; "Simulator"]);
   ("pitch", ["前進"; "後進"]);
   ("roll", ["右移動"; "左移動"]);
   ("yaw", ["右旋回"; "左旋回"]);
   ("gaz", ["上昇"; "下降"]);
   ("flip", ["前"; "後"; "右"; "左"]);
   ("grab", ["開く"; "閉じる"; "開く←→閉じる"])].

Definition getInfo : info :=
  mk_info "parrotMamboBlocks" "Parrot Drone" "#A0A0A0" "#505050" "#202020"
    [blk_changeStage; blk_reset; blk_connected; blk_gaz; blk_pitch; blk_roll; blk_battery; blk_takeoff; blk_landing; blk_stop; blk_set_gaz; blk_set_pitch; blk_set_roll; blk_set_yaw; blk_cap; blk_flip; blk_light; blk_grab; blk_picture; blk_shoot; blk_pitch_roll_yaw_gaz]
    menus_def.

(** ** Methods *)

(** [gameInstance.SendMessage("Drones", "Scratch3", msg)]. *)
Definition sendMessage (msg : string) : JS unit :=
  inst ← get_global "gameInstance";
  send_message inst "Drones" "Scratch3" msg.

Definition constructor : JS unit :=
  set_global "stageId" (VInt 1) ;;
  sid ← get_global "stageId";
  call_changeStage sid ;;
  inst ← unity_instantiate "gameContainer_drone" "static/WebGL/WebGL.json";
  set_global "gameInstance" inst.

Definition changeStage (args : jsargs) : JS value :=
  (if loose_eq_str args.["m"] "標準" then
     set_global "stageId" (VInt 0) ;;
     sid ← get_global "stageId";
     call_changeStage sid
   else mret tt) ;;
  (if loose_eq_str args.["m"] "Simulator" then
     set_global "stageId" (VInt 1) ;;
     sid ← get_global "stageId";
     call_changeStage sid
   else mret tt) ;;
  mret VUndefined.

Definition reset : JS value := sendMessage "0,3" ;; mret VUndefined.

Definition connected (args : jsargs) : JS value := mret (VBool false).
Definition gaz (args : jsargs) : JS value := mret (VInt 0).
Definition pitch (args : jsargs) : JS value := mret (VInt 0).
Definition roll (args : jsargs) : JS value := mret (VInt 0).
Definition battery (args : jsargs) : JS value := mret (VInt 0).

Definition takeoff (args : jsargs) : JS value := sendMessage "0,4" ;; mret VUndefined.
Definition landing (args : jsargs) : JS value := sendMessage "0,5" ;; mret VUndefined.
Definition stop (args : jsargs) : JS value := sendMessage "0,2" ;; mret VUndefined.

Definition set_gaz (args : jsargs) : JS value :=
  let a := if loose_eq_str args.["m"] "下降" then VInt (-1) else VInt 1 in
  let tmp := if gt_num args.["n"] 100 then VInt 100 else args.["n"] in
  sendMessage (cat_l "0,120,0," (mul a tmp)) ;;
  mret VUndefined.

Definition set_pitch (args : jsargs) : JS value :=
  let a := if loose_eq_str args.["m"] "後進" then VInt (-1) else VInt 1 in
  let tmp := if gt_num args.["n"] 100 then VInt 100 else args.["n"] in
  sendMessage (cat_l "0,110,0," (mul a tmp)) ;;
  mret VUndefined.

Definition set_roll (args : jsargs) : JS value :=
  let a := if loose_eq_str args.["m"] "左移動" then VInt (-1) else VInt 1 in
  let tmp := if gt_num args.["n"] 100 then VInt 100 else args.["n"] in
  sendMessage (cat_l "0,100,0," (mul a tmp)) ;;
  mret VUndefined.

Definition set_yaw (args : jsargs) : JS value :=
  let a := if loose_eq_str args.["m"] "左旋回" then VInt (-1) else VInt 1 in
  let tmp := if gt_num args.["n"] 100 then VInt 100 else args.["n"] in
  sendMessage (cat_l "0,130,0," (mul a tmp)) ;;
  mret VUndefined.

Definition cap (args : jsargs) : JS value :=
  let a := if loose_eq_str args.["m"] "左旋回" then VInt (-1) else VInt 1 in
  let tmp := if gt_num args.["n"] 360 then VInt 360 else args.["n"] in
  sendMessage (cat_l "0,200,0," (mul a tmp)) ;;
  mret VUndefined.

Definition flip (args : jsargs) : JS value :=
  let a :=
    if strict_eq_str args.["m"] "前" then VInt 1
    else if strict_eq_str args.["m"] "後" then VInt 2
    else if strict_eq_str args.["m"] "右" then VInt 4
    else if strict_eq_str args.["m"] "左" then VInt 8
    else VInt 0 in
  sendMessage (cat_l "0,210," a) ;;
  mret VUndefined.

Definition light (args : jsargs) : JS value :=
  sendMessage (cat_l "0,220,0," (mul args.["n"] (VInt 255))) ;;
  mret VUndefined.

Definition grab (args : jsargs) : JS value :=
  let a :=
    if strict_eq_str args.["m"] "閉じる" then VInt 1
    else if strict_eq_str args.["m"] "開く" then VInt 2
    else if strict_eq_str args.["m"] "開く←→閉じる" then VInt 3
    else VInt 0 in
  sendMessage (cat_l "0,230," a) ;;
  mret VUndefined.

Definition picture (args : jsargs) : JS value := sendMessage "0,7" ;; mret VUndefined.
Definition shoot (args : jsargs) : JS value := sendMessage "0,6" ;; mret VUndefined.

Definition pitch_roll_yaw_gaz (args : jsargs) : JS value :=
  let p := if loose_eq_str args.["m"] "後進" then VInt (-1) else VInt 1 in
  let r := if loose_eq_str args.["o"] "左移動" then VInt (-1) else VInt 1 in
  let y := if loose_eq_str args.["q"] "左旋回" then VInt (-1) else VInt 1 in
  let g := if loose_eq_str args.["s"] "下降" then VInt (-1) else VInt 1 in
  let tmp_p := if gt_num args.["n"] 100 then VInt 100 else args.["n"] in
  let tmp_r := if gt_num args.["p"] 100 then VInt 100 else args.["p"] in
  let tmp_y := if gt_num args.["r"] 100 then VInt 100 else args.["r"] in
  let tmp_g := if gt_num args.["t"] 100 then VInt 100 else args.["t"] in
  let str :=
    to_string (mul r tmp_r) +:+ ":" +:+ to_string (mul p tmp_p) +:+ ":"
      +:+ to_string (mul g tmp_g) +:+ ":" +:+ to_string (mul y tmp_y) in
  sendMessage (cat_l "0,140,0," (VStr str)) ;;
  mret VUndefined.

(** The methods of the class, by name. *)
Definition method (op : string) : option (jsargs -> JS value) :=
  if String.eqb op "changeStage" then Some changeStage
  else if String.eqb op "reset" then Some (fun _ => reset)
  else if String.eqb op "connected" then Some connected
  else if String.eqb op "gaz" then Some gaz
  else if String.eqb op "pitch" then Some pitch
  else if String.eqb op "roll" then Some roll
  else if String.eqb op "battery" then Some battery
  else if String.eqb op "takeoff" then Some takeoff
  else if String.eqb op "landing" then Some landing
  else if String.eqb op "stop" then Some stop
  else if String.eqb op "set_gaz" then Some set_gaz
  else if String.eqb op "set_pitch" then Some set_pitch
  else if String.eqb op "set_roll" then Some set_roll
  else if String.eqb op "set_yaw" then Some set_yaw
  else if String.eqb op "cap" then Some cap
  else if String.eqb op "flip" then Some flip
  else if String.eqb op "light" then Some light
  else if String.eqb op "grab" then Some grab
  else if String.eqb op "picture" then Some picture
  else if String.eqb op "shoot" then Some shoot
  else if String.eqb op "pitch_roll_yaw_gaz" then Some pitch_roll_yaw_gaz
  else None.

Definition extension : Extension.extension := mk_extension getInfo constructor method.

(** ** The abstract command of each block *)

(** The modes of the arm, as the simulator numbers them. *)
Definition grab_modes : list (string * Z) :=
  [("閉じる", 1%Z); ("開く", 2%Z); ("開く←→閉じる", 3%Z)].

Definition grab_mode (m : value) : Z :=
  match m with
  | VStr s => default 0%Z (snd <$> List.find (fun p => String.eqb s (fst p)) grab_modes)
  | _ => 0%Z
  end.

Definition command_of (op : string) (a : jsargs) : option command :=
  if String.eqb op "reset" then Some Reset
  else if String.eqb op "takeoff" then Some TakeOff
  else if String.eqb op "landing" then Some Landing
  else if String.eqb op "stop" then Some Stop
  else if String.eqb op "set_gaz" then Some (SetGaz (speed a "m" "下降" "n" 100))
  else if String.eqb op "set_pitch" then Some (SetPitch (speed a "m" "後進" "n" 100))
  else if String.eqb op "set_roll" then Some (SetRoll (speed a "m" "左移動" "n" 100))
  else if String.eqb op "set_yaw" then Some (SetYaw (speed a "m" "左旋回" "n" 100))
  else if String.eqb op "cap" then Some (Cap (speed a "m" "左旋回" "n" 360))
  else if String.eqb op "flip" then Some (Flip (JInt (menu_flag flip_menu a.["m"])))
  else if String.eqb op "light" then Some (Light (num_mul (to_number a.["n"]) (JInt 255)))
  else if String.eqb op "grab" then Some (Grab (JInt (grab_mode a.["m"])))
  else if String.eqb op "picture" then Some Picture
  else if String.eqb op "shoot" then Some Shoot
  else if String.eqb op "pitch_roll_yaw_gaz" then
    Some (Set4Axis (speed a "o" "左移動" "p" 100) (speed a "m" "後進" "n" 100)
                   (speed a "s" "下降" "t" 100) (speed a "q" "左旋回" "r" 100))
  else None.

(** What the reporters answer; [undefined] for every other block. *)
Definition reply (op : string) : value :=
  if String.eqb op "connected" then VBool false
  else if String.eqb op "gaz" || String.eqb op "pitch" || String.eqb op "roll"
          || String.eqb op "battery" then VInt 0
  else VUndefined.

(** The [stageId] the [changeStage] block selects. *)
Definition stage_target (a : jsargs) : option Z :=
  if loose_eq_str a.["m"] "標準" then Some 0%Z
  else if loose_eq_str a.["m"] "Simulator" then Some 1%Z
  else None.

(** The page after the constructor. *)
Definition constructed (s : state) : state :=
  with_globals (<["gameInstance" := VUnity (length (unities s))]> (globals (staged s 1)))
    (with_unities (unities s ++ [mk_unity "gameContainer_drone" "static/WebGL/WebGL.json" []])
       (staged s 1)).

(** ** Behaviour of the handlers *)

Lemma grab_switch (m : value) :
  (if strict_eq_str m "閉じる" then VInt 1
   else if strict_eq_str m "開く" then VInt 2
   else if strict_eq_str m "開く←→閉じる" then VInt 3
   else VInt 0) = VInt (grab_mode m).
Proof. destruct m as [| | | |str| | |]; try done. cbn [strict_eq_str grab_mode List.find fst snd grab_modes]. by str_cases. Qed.

Lemma mambo_send_undefined s l u msg :
  globals s !! "gameInstance" = Some (VUnity l) -> unities s !! l = Some u ->
  run (sendMessage msg ;; mret VUndefined) s = (sent s l u msg, Normal VUndefined).
Proof. intros Hinst Hu. exact (send_return_run s _ l u Hinst Hu msg). Qed.

(** Every command block is [sendMessage] of the encoding of its command,
    followed by [return]. *)
Lemma mambo_method_message (op : string) (h : jsargs -> JS value) (a : jsargs) (c : command) (s : state) :
  method op = Some h -> command_of op a = Some c -> args_wf a ->
  run (h a) s = run (sendMessage (encode_command c) ;; mret VUndefined) s.
Proof.
  intros Hm Hc Ha. unfold method, command_of in *. str_cases; simplify_eq;
    cbv zeta; unfold reset, takeoff, landing, stop, set_gaz, set_pitch, set_roll,
    set_yaw, cap, flip, light, grab, picture, shoot, pitch_roll_yaw_gaz; cbv zeta;
    rewrite ?speed_message, ?flip_switch, ?grab_switch by done; try reflexivity.
  unfold cat_l. by rewrite !speed_string.
Qed.

Lemma mambo_method_sends (op : string) (h : jsargs -> JS value) (a : jsargs) (c : command)
    (s : state) (l : nat) (u : unity) :
  method op = Some h -> command_of op a = Some c -> args_wf a ->
  globals s !! "gameInstance" = Some (VUnity l) -> unities s !! l = Some u ->
  run (h a) s = (sent s l u (encode_command c), Normal VUndefined).
Proof.
  intros Hm Hc Ha Hinst Hu. rewrite (mambo_method_message op h a c) by done.
  by apply mambo_send_undefined.
Qed.

Lemma mambo_quiet_methods (op : string) (h : jsargs -> JS value) (a : jsargs) (s : state) :
  method op = Some h -> command_of op a = None -> op <> "changeStage" ->
  run (h a) s = (s, Normal (reply op)).
Proof. intros Hm Hc Hne. unfold method, command_of in *. str_cases; simplify_eq; done. Qed.

Lemma mambo_changeStage_run (a : jsargs) (s : state) :
  is_Some (globals s !! "stageId") -> globals s !! "changeStage" = Some (VHost "changeStage") ->
  run (changeStage a) s =
    (match stage_target a with Some n => staged s n | None => s end, Normal VUndefined).
Proof.
  intros Hst Hcs. unfold changeStage, stage_target.
  destruct (loose_eq_str a.["m"] "標準") eqn:E1.
  - rewrite (loose_eq_str_exclusive _ "標準" "Simulator") by done.
    rewrite run_bind, stage_step by done. done.
  - rewrite bind_ret_l. destruct (loose_eq_str a.["m"] "Simulator").
    + rewrite run_bind, stage_step by done. done.
    + by rewrite bind_ret_l.
Qed.

Lemma mambo_changeStage_undeclared (a : jsargs) (s : state) :
  globals s !! "stageId" = None -> stage_target a <> None ->
  run (changeStage a) s = (s, Thrown (ReferenceError "stageId")).
Proof.
  intros Hst Ht. unfold changeStage. unfold stage_target in Ht.
  destruct (loose_eq_str a.["m"] "標準").
  - by rewrite run_bind, stage_step_undeclared.
  - destruct (loose_eq_str a.["m"] "Simulator"); [|done].
    by rewrite bind_ret_l, run_bind, stage_step_undeclared.
Qed.

Lemma mambo_constructor_run (s : state) :
  is_Some (globals s !! "stageId") -> globals s !! "changeStage" = Some (VHost "changeStage") ->
  globals s !! "UnityLoader" = Some (VHost "UnityLoader") ->
  is_Some (globals s !! "gameInstance") ->
  run constructor s = (constructed s, Normal tt).
Proof.
  intros Hst Hcs Hul Hinst. by apply stage_then_load_run.
Qed.

Lemma mambo_constructed_ready (s : state) :
  is_Some (globals s !! "stageId") -> globals s !! "changeStage" = Some (VHost "changeStage") ->
  host_ready "gameInstance" (constructed s).
Proof.
  intros Hst Hcs. unfold host_ready, constructed, staged; simpl. split_and!.
  - by rewrite lookup_insert_ne, lookup_insert_eq.
  - by rewrite !lookup_insert_ne.
  - eexists. split; [by rewrite lookup_insert_eq|]. rewrite length_app. simpl. lia.
Qed.

(** ** The Mambo meets the [UnityDrone] interface *)

Lemma grab_mode_wf (v : value) : num_wf (JInt (grab_mode v)) = true.
Proof.
  apply int_wf. unfold grab_mode. destruct v; try (simpl; lia).
  destruct (List.find _ grab_modes) as [[k z]|] eqn:E; simpl; [|lia].
  apply find_some in E as [Hin _]. simpl in Hin. destruct_or! Hin; simplify_eq; lia.
Qed.

#[local] Hint Resolve grab_mode_wf : js.

Lemma mambo_command_of_wf (op : string) (a : jsargs) (c : command) :
  args_wf a -> command_of op a = Some c -> command_wf c = true.
Proof. intros Ha Hc. unfold command_of in Hc. str_cases; simplify_eq; simpl;
  rewrite ?speed_wf; auto with js.
Qed.

Lemma mambo_method_step (op : string) (a : jsargs) (h : jsargs -> JS value) (s : state) (l : nat) (u : unity) :
  ext_method extension op = Some h -> args_wf a -> host_ready "gameInstance" s ->
  globals s !! "gameInstance" = Some (VUnity l) -> unities s !! l = Some u ->
  exists s' v,
    run (h a) s = (s', Normal v) /\
    host_ready "gameInstance" s' /\
    globals s' !! "gameInstance" = Some (VUnity l) /\
    unities s' = <[l := log_after (command_of op a) u]> (unities s) /\
    frames_stage s s'.
Proof.
  intros Hm Ha Hready Hinst Hu. simpl in Hm.
  destruct (command_of op a) as [c|] eqn:Hc.
  - exists (sent s l u (encode_command c)), VUndefined.
    split_and!; [by eapply mambo_method_sends|by apply host_ready_sent|done|done|apply frames_stage_unities].
  - rewrite list_insert_id by done.
    destruct (String.eqb_spec op "changeStage") as [->|Hne].
    + unfold method in Hm. simpl in Hm. simplify_eq. destruct Hready as (Hst & Hcs & Hrest).
      rewrite mambo_changeStage_run by done.
      eexists _, VUndefined. split; [done|].
      destruct (stage_target a); [|split_and!; first [apply frames_stage_refl|done]].
      split_and!; [by apply host_ready_staged|simpl; by rewrite lookup_insert_ne|done|apply frames_stage_staged].
    + eexists s, _. rewrite (mambo_quiet_methods op h a s) by done. split_and!; first [apply frames_stage_refl|done].
Qed.

(** ** The blocks as the runtime runs them *)

Lemma mambo_known (op : string) : is_Some (method op) <-> str_mem op (opcodes getInfo) = true.
Proof.
  unfold method, str_mem. cbn -[String.eqb]. str_cases; split; intros H; by inversion H.
Qed.

(** C2: On a page that declares [stageId] and [changeStage] and whose
    [gameInstance] is a live Unity instance, the runtime's call of any
    opcode on the Mambo extension does exactly what [unity_block_spec]
    says: an opcode outside the catalog throws a [TypeError]; each command
    block returns [undefined] after sending the instance the encoding of
    its command ([command_of]); [changeStage] sets [stageId] to 0 or 1 and
    calls the page's [changeStage]; the reporters answer [false] or [0] and
    the other blocks [undefined], changing nothing. *)
Theorem mambo_run_block (op : string) (a : jsargs) (s : state) (l : nat) (u : unity) :
  is_Some (globals s !! "stageId") -> globals s !! "changeStage" = Some (VHost "changeStage") ->
  globals s !! "gameInstance" = Some (VUnity l) -> unities s !! l = Some u -> args_wf a ->
  run (run_block extension op a) s =
    unity_block_spec (opcodes getInfo) command_of stage_target reply op a s l u.
Proof.
  apply (dispatch_run extension "gameInstance"); [exact mambo_known|exact mambo_method_sends
    |exact mambo_quiet_methods|].
  intros h a' s' Hm Hst Hcs. simpl in Hm. unfold method in Hm. simpl in Hm. simplify_eq.
  rewrite mambo_changeStage_run by done. by destruct (stage_target a').
Qed.

(** C11: The constructor, on a page that declares [stageId],
    [changeStage], [UnityLoader] and [gameInstance], returns normally
    after switching the page to the simulator ([stageId] 1 and the call
    [changeStage(1)]) and loading a fresh Unity instance of the Mambo build,
    with an empty log, into [gameInstance]; the page is then ready for
    every block. *)
Theorem mambo_constructor_ready (s : state) :
  is_Some (globals s !! "stageId") -> globals s !! "changeStage" = Some (VHost "changeStage") ->
  globals s !! "UnityLoader" = Some (VHost "UnityLoader") ->
  is_Some (globals s !! "gameInstance") ->
  exists s',
    run constructor s = (s', Normal tt) /\ host_ready "gameInstance" s' /\
    globals s' !! "stageId" = Some (VInt 1) /\
    host_log s' = host_log s ++ [HostChangeStage (VInt 1)] /\
    globals s' !! "gameInstance" = Some (VUnity (length (unities s))) /\
    unities s' = unities s ++ [mk_unity "gameContainer_drone" "static/WebGL/WebGL.json" []].
Proof.
  intros Hst Hcs Hul Hinst. exists (constructed s).
  rewrite mambo_constructor_run by done. split_and!; [done|by apply mambo_constructed_ready|..];
    unfold constructed, staged; simpl; by simplify_map_eq.
Qed.

Lemma mambo_constructor_ready_witness :
  is_Some (globals example_page !! "stageId") /\
  globals example_page !! "changeStage" = Some (VHost "changeStage") /\
  globals example_page !! "UnityLoader" = Some (VHost "UnityLoader") /\
  is_Some (globals example_page !! "gameInstance") /\
  exists s',
    run constructor example_page = (s', Normal tt) /\ host_ready "gameInstance" s' /\
    globals s' !! "stageId" = Some (VInt 1) /\
    host_log s' = host_log example_page ++ [HostChangeStage (VInt 1)] /\
    globals s' !! "gameInstance" = Some (VUnity (length (unities example_page))) /\
    unities s' = unities example_page ++ [mk_unity "gameContainer_drone" "static/WebGL/WebGL.json" []].
Proof. split_and!; [concrete..|apply mambo_constructor_ready; concrete]. Defined.

Lemma grab_menu_codes (x y : string) :
  x ∈ default [] (menu_lookup "grab" menus_def) -> y ∈ default [] (menu_lookup "grab" menus_def) ->
  grab_mode (VStr x) <> 0%Z /\ (grab_mode (VStr x) = grab_mode (VStr y) -> x = y) /\
  num_wf (JInt (grab_mode (VStr x))) = true /\ num_wf (JInt (grab_mode (VStr y))) = true.
Proof.
  simpl. intros Hx Hy. rewrite !elem_of_cons, elem_of_nil in Hx, Hy.
  destruct_or! Hx; destruct_or! Hy; try contradiction; subst; split_and!; try done;
    vm_compute; congruence.
Qed.

(** C15: The [grab] block tells the items of its menu apart: two items of
    the catalog's [grab] menu ([開く], [閉じる], [開く←→閉じる]) make the
    handler send the same message only if they are the same item, and no
    item sends the mode 0 a label outside the menu gets. *)
Theorem mambo_grab_items_distinct (x y : string) (s : state) (l : nat) (u : unity) :
  globals s !! "gameInstance" = Some (VUnity l) -> unities s !! l = Some u ->
  x ∈ default [] (menu_lookup "grab" menus_def) -> y ∈ default [] (menu_lookup "grab" menus_def) ->
  (run (grab (<["m" := VStr x]> ∅)) s = run (grab (<["m" := VStr y]> ∅)) s <-> x = y) /\
  run (grab (<["m" := VStr x]> ∅)) s <> (sent s l u "0,230,0", Normal VUndefined).
Proof.
  intros Hinst Hu Hx Hy. destruct (grab_menu_codes x y Hx Hy) as (Hnz & Hinj & Wx & Wy).
  rewrite !(mambo_method_sends "grab" grab _ _ s l u) by (reflexivity || done || auto with js).
  split; [split; [|by intros ->]|]; intros H; apply pair_equal_spec in H as [H _];
    apply sent_inj in H; try done; try change "0,230,0" with ("0,230," +:+ num_to_string (JInt 0)) in H;
    [apply Hinj|apply Hnz]; by apply (coded_message_inj "0,230,").
Qed.

Lemma mambo_grab_items_distinct_witness :
  globals example_page !! "gameInstance" = Some (VUnity 1) /\
  unities example_page !! 1 = Some (mk_unity "gameContainer_drone" "static/WebGL/WebGL.json" []) /\
  "開く" ∈ default [] (menu_lookup "grab" menus_def) /\ "閉じる" ∈ default [] (menu_lookup "grab" menus_def) /\
  (run (grab (<["m" := VStr "開く"]> ∅)) example_page = run (grab (<["m" := VStr "閉じる"]> ∅)) example_page
     <-> "開く" = "閉じる") /\
  run (grab (<["m" := VStr "開く"]> ∅)) example_page <>
    (sent example_page 1 (mk_unity "gameContainer_drone" "static/WebGL/WebGL.json" []) "0,230,0", Normal VUndefined).
Proof. do 4 (split; [concrete|]). apply mambo_grab_items_distinct; concrete. Defined.


Lemma mambo_run_block_witness :
  is_Some (globals example_page !! "stageId") /\
  globals example_page !! "changeStage" = Some (VHost "changeStage") /\
  globals example_page !! "gameInstance" = Some (VUnity 1) /\
  unities example_page !! 1 = Some (mk_unity "gameContainer_drone" "static/WebGL/WebGL.json" []) /\
  args_wf (<["m" := VStr "開く←→閉じる"]> ∅) /\
  run (run_block extension "grab" (<["m" := VStr "開く←→閉じる"]> ∅)) example_page =
    unity_block_spec (opcodes getInfo) command_of stage_target reply "grab" (<["m" := VStr "開く←→閉じる"]> ∅)
      example_page 1 (mk_unity "gameContainer_drone" "static/WebGL/WebGL.json" []).
Proof. split_and!; [concrete..|apply mambo_run_block; concrete]. Defined.
(** C22: The constructor on a page without [UnityLoader] (the Unity
    loader script not yet included) throws a [ReferenceError] after it has
    already switched the page to the simulator: [stageId] is 1 and
    [changeStage(1)] was called, but no Unity instance is created and
    [gameInstance] keeps its value, so every later block of the Mambo
    finds no instance. *)
Theorem mambo_constructor_no_loader (s : state) :
  is_Some (globals s !! "stageId") -> globals s !! "changeStage" = Some (VHost "changeStage") ->
  globals s !! "UnityLoader" = None ->
  run constructor s = (staged s 1, Thrown (ReferenceError "UnityLoader")) /\
  unities (staged s 1) = unities s /\
  globals (staged s 1) !! "gameInstance" = globals s !! "gameInstance".
Proof.
  intros Hst Hcs Hul. split_and!; [by apply stage_then_load_no_loader|done|by simpl; simplify_map_eq].
Qed.

Lemma mambo_constructor_no_loader_witness :
  is_Some (globals no_loader_page !! "stageId") /\
  globals no_loader_page !! "changeStage" = Some (VHost "changeStage") /\
  globals no_loader_page !! "UnityLoader" = None /\
  run constructor no_loader_page = (staged no_loader_page 1, Thrown (ReferenceError "UnityLoader")) /\
  unities (staged no_loader_page 1) = unities no_loader_page /\
  globals (staged no_loader_page 1) !! "gameInstance" = globals no_loader_page !! "gameInstance".
Proof. do 3 (split; [concrete|]). apply mambo_constructor_no_loader; concrete. Defined.

(** C20: What the simulator reads is what the block means: every command
    block of the Mambo, run with string or number arguments on a page whose
    [gameInstance] is live, returns [undefined] after sending its instance
    one message, and the simulator's decoding of that message gives back
    exactly the block's command ([command_of]). *)
Theorem mambo_message_roundtrip (op : string) (h : jsargs -> JS value) (a : jsargs) (c : command)
    (s : state) (l : nat) (u : unity) :
  method op = Some h -> command_of op a = Some c -> args_wf a ->
  globals s !! "gameInstance" = Some (VUnity l) -> unities s !! l = Some u ->
  exists msg, run (h a) s = (sent s l u msg, Normal VUndefined) /\ decode_message msg = Some c.
Proof.
  intros Hm Hc Ha Hinst Hu. exists (encode_command c). split.
  - by apply (mambo_method_sends op).
  - apply decode_encode. by apply (mambo_command_of_wf op a).
Qed.

(** Arguments of [pitch_roll_yaw_gaz]: backward 150, right 20, yaw left
    5.5, up 30 (a number, as a reporter block gives it). *)
Definition example_axes : jsargs :=
  <["m" := VStr "後進"]> (<["n" := VStr "150"]> (<["o" := VStr "右移動"]> (<["p" := VStr "20"]>
  (<["q" := VStr "左旋回"]> (<["r" := VStr "5.5"]> (<["s" := VStr "上昇"]> (<["t" := VNum (JInt 30)]> ∅))))))).

Lemma mambo_message_roundtrip_witness :
  method "pitch_roll_yaw_gaz" = Some pitch_roll_yaw_gaz /\
  command_of "pitch_roll_yaw_gaz" example_axes =
    Some (Set4Axis (JInt 20) (JInt (-100)) (JInt 30) (JNum (-55) 1)) /\
  args_wf example_axes /\
  globals example_page !! "gameInstance" = Some (VUnity 1) /\
  unities example_page !! 1 = Some (mk_unity "gameContainer_drone" "static/WebGL/WebGL.json" []) /\
  exists msg, run (pitch_roll_yaw_gaz example_axes) example_page =
    (sent example_page 1 (mk_unity "gameContainer_drone" "static/WebGL/WebGL.json" []) msg, Normal VUndefined) /\
    decode_message msg = Some (Set4Axis (JInt 20) (JInt (-100)) (JInt 30) (JNum (-55) 1)).
Proof. do 5 (split; [concrete|]). apply (mambo_message_roundtrip "pitch_roll_yaw_gaz"); concrete. Defined.

(** ** The interface instance *)

#[export] Instance unity_drone : UnityDrone extension := {|
  ud_instance := "gameInstance";
  ud_command := command_of;
  ud_command_wf := mambo_command_of_wf;
  ud_step := mambo_method_step
|}.
End ParrotMamboBlocks.
