(* ===== verification/Phantom4.v ===== *)
(** * The DJI Phantom 4 extension ([src/src/extensions/scratch3_dji_phantom4/index.js])

    Module [DjiPhantom4Blocks] transcribes the class of the same name.  Its
    constructor only sets the global [id]; it loads no Unity instance, and
    every [SendMessage] call of its command methods is commented out in the
    source, so those methods compute their local variables and return.  The
    only method with an effect is [changeStage], which switches the page
    between the Scratch stage and the simulator container by restyling two
    DOM elements and setting the global [droneFlag].  The theorems give its
    behaviour, the exception it throws half-way when an element is missing,
    and the page-layout invariant every block keeps. *)

From stdpp Require Import base gmap strings list.
From Stdlib Require Import Ascii ZArith Lia.
From S2P Require Import Base JsNum Js Host Protocol Catalog Extension Drone.

Local Open Scope js_scope.

Module DjiPhantom4Blocks.

(** ** [getInfo()] *)

Definition blk_changeStage : block :=
  mk_block "changeStage" "ステージを[m]に切り替える" COMMAND
    [mk_argument "m" STRING (Some "stage") (Some (VStr "Simulator"))].

Definition blk_reset : block :=
  mk_block "reset" "リセット" COMMAND
    [].

Definition blk_connected : block :=
  mk_block "connected" "接続状態" BOOLEAN_BLOCK
    [mk_argument "CONNECTED" BOOLEAN None None].

Definition blk_gaz : block :=
  mk_block "gaz" "ギャズ（上下速度）" REPORTER
    [].

Definition blk_pitch : block :=
  mk_block "pitch" "ピッチ（前後速度）" REPORTER
    [].

Definition blk_roll : block :=
  mk_block "roll" "ピッチ（前後速度）" REPORTER
    [].

Definition blk_battery : block :=
  mk_block "battery" "バッテリー" REPORTER
    [].

Definition blk_takeoff : block :=
  mk_block "takeoff" "離陸する" COMMAND
    [].

Definition blk_landing : block :=
  mk_block "landing" "着陸する" COMMAND
    [].

Definition blk_stop : block :=
  mk_block "stop" "移動停止（ホバリング）" COMMAND
    [].

Definition blk_set_gaz : block :=
  mk_block "set_gaz" "[m] 速度[n]" COMMAND
    [mk_argument "m" STRING (Some "gaz") (Some (VStr "上昇"));
     mk_argument "n" NUMBER None (Some (VInt 1))].

Definition blk_set_pitch : block :=
  mk_block "set_pitch" "[m] 速度[n]" COMMAND
    [mk_argument "m" STRING (Some "pitch") (Some (VStr "前進"));
     mk_argument "n" NUMBER None (Some (VInt 1))].

Definition blk_set_roll : block :=
  mk_block "set_roll" "[m] 速度[n]" COMMAND
    [mk_argument "m" STRING (Some "roll") (Some (VStr "右移動"));
     mk_argument "n" NUMBER None (Some (VInt 1))].

Definition blk_set_yaw : block :=
  mk_block "set_yaw" "[m] 速度[n]" COMMAND
    [mk_argument "m" STRING (Some "yaw") (Some (VStr "右旋回"));
     mk_argument "n" NUMBER None (Some (VInt 1))].

Definition blk_cap : block :=
  mk_block "cap" "[m] 角度[n] 度" COMMAND
    [mk_argument "m" STRING (Some "yaw") (Some (VStr "右旋回"));
     mk_argument "n" NUMBER None (Some (VInt 90))].

Definition blk_flip : block :=
  mk_block "flip" "[m] フリップ" COMMAND
    [mk_argument "m" STRING (Some "flip") (Some (VStr "前"))].

Definition blk_light : block :=
  mk_block "light" "ライト[n]" COMMAND
    [mk_argument "n" NUMBER None (Some (VInt 0))].

Definition blk_grab : block :=
  mk_block "grab" "アームを[m]" COMMAND
    [mk_argument "m" STRING (Some "grab") (Some (VStr "開く←→閉じる"))].

Definition blk_picture : block :=
  mk_block "picture" "写真撮影" COMMAND
    [].

Definition blk_shoot : block :=
  mk_block "shoot" "弾を射つ" COMMAND
    [].

Definition blk_pitch_roll_yaw_gaz : block :=
  mk_block "pitch_roll_yaw_gaz" "[m] 速度[n] | [o] 速度[p] | [q] 速度[r] | [s] 速度[t]" COMMAND
    [mk_argument "m" STRING (Some "pitch") (Some (VStr "前進"));
     mk_argument "n" NUMBER None (Some (VInt 0));
     mk_argument "o" STRING (Some "roll") (Some (VStr "右移動"));
     mk_argument "p" NUMBER None (Some (VInt 0));
     mk_argument "q" STRING (Some "yaw") (Some (VStr "右旋回"));
     mk_argument "r" NUMBER None (Some (VInt 0));
     mk_argument "s" STRING (Some "gaz") (Some (VStr "上昇"));
     mk_argument "t" NUMBER None (Some (VInt 0))].

Definition menus_def : list (string * list string) :=
  [("stage", ["標準"; "Simulator"]);
   ("pitch", ["前進"; "後進"]);
   ("roll", ["右移動"; "左移動"]);
   ("yaw", ["右旋回"; "左旋回"]);
   ("gaz", ["上昇"; "下降"]);
   ("flip", ["前"; "後"; "右"; "左"]);
   ("grab", ["開く"; "閉じる"; "開く←→閉じる"])].

Definition getInfo : info :=
  mk_info "djiPhantom4Blocks" "DJI Drone" "#6dbfff" "#3885c1" "#007fe2"
    [blk_changeStage; blk_reset; blk_connected; blk_gaz; blk_pitch; blk_roll; blk_battery; blk_takeoff; blk_landing; blk_stop; blk_set_gaz; blk_set_pitch; blk_set_roll; blk_set_yaw; blk_cap; blk_flip; blk_light; blk_grab; blk_picture; blk_shoot; blk_pitch_roll_yaw_gaz]
    menus_def.

(** ** Methods *)

Definition constructor : JS unit := set_global "id" (VStr "0").

Definition changeStage (args : jsargs) : JS value :=
  stageScratch ← get_element_by_id "scratch_stage";
  stageDrone ← get_element_by_id "gameContainer_drone";
  (if loose_eq_str args.["m"] "標準" then
     set_display "block" stageScratch ;;
     set_display "none" stageDrone ;;
     set_height "360" stageScratch ;;
     set_width "480" stageScratch ;;
     set_global "droneFlag" (VBool false)
   else mret tt) ;;
  (if loose_eq_str args.["m"] "Simulator" then
     set_display "none" stageScratch ;;
     set_display "block" stageDrone ;;
     set_global "droneFlag" (VBool true)
   else mret tt) ;;
  mret VUndefined.

Definition reset : JS value := mret VUndefined.

Definition connected (args : jsargs) : JS value := mret (VBool false).
Definition gaz (args : jsargs) : JS value := mret (VInt 0).
Definition pitch (args : jsargs) : JS value := mret (VInt 0).
Definition roll (args : jsargs) : JS value := mret (VInt 0).
Definition battery (args : jsargs) : JS value := mret (VInt 0).

Definition takeoff (args : jsargs) : JS value := mret VUndefined.
Definition landing (args : jsargs) : JS value := mret VUndefined.
Definition stop (args : jsargs) : JS value := mret VUndefined.

(** The speed methods compute the sign and the clamped value of the
    message they no longer send. *)
Definition set_gaz (args : jsargs) : JS value :=
  let a := if loose_eq_str args.["m"] "下降" then VInt (-1) else VInt 1 in
  let tmp := if gt_num args.["n"] 100 then VInt 100 else args.["n"] in
  mret VUndefined.

Definition set_pitch (args : jsargs) : JS value :=
  let a := if loose_eq_str args.["m"] "後進" then VInt (-1) else VInt 1 in
  let tmp := if gt_num args.["n"] 100 then VInt 100 else args.["n"] in
  mret VUndefined.

Definition set_roll (args : jsargs) : JS value :=
  let a := if loose_eq_str args.["m"] "左移動" then VInt (-1) else VInt 1 in
  let tmp := if gt_num args.["n"] 100 then VInt 100 else args.["n"] in
  mret VUndefined.

Definition set_yaw (args : jsargs) : JS value :=
  let a := if loose_eq_str args.["m"] "左旋回" then VInt (-1) else VInt 1 in
  let tmp := if gt_num args.["n"] 100 then VInt 100 else args.["n"] in
  mret VUndefined.

Definition cap (args : jsargs) : JS value :=
  let a := if loose_eq_str args.["m"] "左旋回" then VInt (-1) else VInt 1 in
  let tmp := if gt_num args.["n"] 360 then VInt 360 else args.["n"] in
  mret VUndefined.

Definition flip (args : jsargs) : JS value :=
  let a :=
    if strict_eq_str args.["m"] "前" then VInt 1
    else if strict_eq_str args.["m"] "後" then VInt 2
    else if strict_eq_str args.["m"] "右" then VInt 4
    else if strict_eq_str args.["m"] "左" then VInt 8
    else VInt 0 in
  mret VUndefined.

Definition light (args : jsargs) : JS value := mret VUndefined.

Definition grab (args : jsargs) : JS value :=
  let a :=
    if strict_eq_str args.["m"] "閉じる" then VInt 1
    else if strict_eq_str args.["m"] "開く" then VInt 2
    else if strict_eq_str args.["m"] "開く←→閉じる" then VInt 3
    else VInt 0 in
  mret VUndefined.

Definition picture (args : jsargs) : JS value := mret VUndefined.
Definition shoot (args : jsargs) : JS value := mret VUndefined.

Definition pitch_roll_yaw_gaz (args : jsargs) : JS value :=
  let p := if loose_eq_str args.["m"] "後進" then VInt (-1) else VInt 1 in
  let r := if loose_eq_str args.["o"] "左移動" then VInt (-1) else VInt 1 in
  let y := if loose_eq_str args.["q"] "左旋回" then VInt (-1) else VInt 1 in
  let g := if loose_eq_str args.["s"] "下降" then VInt (-1) else VInt 1 in
  let tmp_p := if gt_num args.["n"] 100 then VInt 100 else args.["n"] in
  let tmp_r := if gt_num args.["p"] 100 then VInt 100 else args.["p"] in
  let tmp_y := if gt_num args.["r"] 100 then VInt 100 else args.["r"] in
  let tmp_g := if gt_num args.["t"] 100 then VInt 100 else args.["t"] in
  let str :=
    to_string (mul r tmp_r) +:+ ":" +:+ to_string (mul p tmp_p) +:+ ":"
      +:+ to_string (mul g tmp_g) +:+ ":" +:+ to_string (mul y tmp_y) in
  mret VUndefined.

(** The methods of the class, by name. *)
Definition method (op : string) : option (jsargs -> JS value) :=
  if String.eqb op "changeStage" then Some changeStage
  else if String.eqb op "reset" then Some (fun _ => reset)
  else if String.eqb op "connected" then Some connected
  else if String.eqb op "gaz" then Some gaz
  else if String.eqb op "pitch" then Some pitch
  else if String.eqb op "roll" then Some roll
  else if String.eqb op "battery" then Some battery
  else if String.eqb op "takeoff" then Some takeoff
  else if String.eqb op "landing" then Some landing
  else if String.eqb op "stop" then Some stop
  else if String.eqb op "set_gaz" then Some set_gaz
  else if String.eqb op "set_pitch" then Some set_pitch
  else if String.eqb op "set_roll" then Some set_roll
  else if String.eqb op "set_yaw" then Some set_yaw
  else if String.eqb op "cap" then Some cap
  else if String.eqb op "flip" then Some flip
  else if String.eqb op "light" then Some light
  else if String.eqb op "grab" then Some grab
  else if String.eqb op "picture" then Some picture
  else if String.eqb op "shoot" then Some shoot
  else if String.eqb op "pitch_roll_yaw_gaz" then Some pitch_roll_yaw_gaz
  else None.

Definition extension : Extension.extension := mk_extension getInfo constructor method.


(** ** The two page layouts *)

Inductive view := StandardView | SimulatorView.

#[export] Instance view_eq_dec : EqDecision view.
Proof. solve_decision. Defined.

(** The layout the [changeStage] block selects. *)
Definition view_target (a : jsargs) : option view :=
  if loose_eq_str a.["m"] "標準" then Some StandardView
  else if loose_eq_str a.["m"] "Simulator" then Some SimulatorView
  else None.

Definition restyle (d : string) (e : element) : element := mk_element d (el_height e) (el_width e).

(** The page once [changeStage] has shown the layout [v]. *)
Definition show (v : view) (s : state) : state :=
  match v with
  | StandardView =>
      with_globals (<["droneFlag" := VBool false]> (globals s))
        (with_dom (alter (fun _ => mk_element "block" "360" "480") "scratch_stage"
                    (alter (restyle "none") "gameContainer_drone" (dom s))) s)
  | SimulatorView =>
      with_globals (<["droneFlag" := VBool true]> (globals s))
        (with_dom (alter (restyle "none") "scratch_stage"
                    (alter (restyle "block") "gameContainer_drone" (dom s))) s)
  end.

(** The page has what [changeStage] touches. *)
Definition page_ready (s : state) : Prop :=
  is_Some (dom s !! "scratch_stage") /\ is_Some (dom s !! "gameContainer_drone") /\
  is_Some (globals s !! "droneFlag").

Ltac dom_step :=
  try rewrite run_bind;
  first [ erewrite set_elem_run by (cbn [dom with_dom]; simplify_map_eq; reflexivity)
        | erewrite set_global_run by (cbn [globals with_dom]; simplify_map_eq; eauto) ];
  cbn [dom globals with_dom with_globals].

Ltac dom_eq :=
  unfold show, with_globals, with_dom; simpl; do 3 f_equal; apply map_eq; intros k;
  destruct (decide (k = "scratch_stage")) as [->|?]; [by simplify_map_eq|];
  destruct (decide (k = "gameContainer_drone")) as [->|?]; by simplify_map_eq.

Section layouts.
Context (s : state) (e1 e2 : element).
Hypothesis H1 : dom s !! "scratch_stage" = Some e1.
Hypothesis H2 : dom s !! "gameContainer_drone" = Some e2.
Hypothesis Hf : is_Some (globals s !! "droneFlag").

Lemma show_standard_run :
  run (set_display "block" (VElem "scratch_stage") ;; set_display "none" (VElem "gameContainer_drone") ;;
       set_height "360" (VElem "scratch_stage") ;; set_width "480" (VElem "scratch_stage") ;;
       set_global "droneFlag" (VBool false)) s = (show StandardView s, Normal tt).
Proof. destruct Hf. unfold set_display, set_height, set_width. do 5 dom_step. dom_eq. Qed.

Lemma show_simulator_run :
  run (set_display "none" (VElem "scratch_stage") ;; set_display "block" (VElem "gameContainer_drone") ;;
       set_global "droneFlag" (VBool true)) s = (show SimulatorView s, Normal tt).
Proof. destruct Hf. unfold set_display. do 3 dom_step. dom_eq. Qed.
End layouts.

Lemma show_page_ready (v : view) (s : state) : page_ready s -> page_ready (show v s).
Proof.
  intros ([e1 H1] & [e2 H2] & _). destruct v; split_and!; simpl;
    rewrite ?lookup_alter, ?lookup_alter_ne, ?H1, ?H2 by done; simplify_map_eq; eauto.
Qed.

Lemma phantom_changeStage_run (a : jsargs) (s : state) :
  page_ready s ->
  run (changeStage a) s =
    (match view_target a with Some v => show v s | None => s end, Normal VUndefined).
Proof.
  intros ([e1 H1] & [e2 H2] & Hf). unfold changeStage, view_target.
  rewrite run_bind, (get_element_by_id_run _ _ _ H1), run_bind, (get_element_by_id_run _ _ _ H2).
  destruct (loose_eq_str a.["m"] "標準") eqn:E1.
  - rewrite (loose_eq_str_exclusive _ "標準" "Simulator") by done.
    by rewrite run_bind, (show_standard_run s e1 e2).
  - rewrite bind_ret_l. destruct (loose_eq_str a.["m"] "Simulator").
    + by rewrite run_bind, (show_simulator_run s e1 e2).
    + by rewrite bind_ret_l.
Qed.

(** What the first assignment of the selected branch does to the Scratch
    stage, before the simulator container is touched. *)
Definition first_restyle (v : view) : string :=
  match v with StandardView => "block" | SimulatorView => "none" end.

(** C12: When the page has the Scratch stage but no simulator container,
    [changeStage] to either stage throws a [TypeError] half-way: the first
    assignment has already restyled the Scratch stage, and neither the
    container nor [droneFlag] is updated. *)
Lemma phantom_changeStage_no_container (a : jsargs) (s : state) (v : view) (e1 : element) :
  dom s !! "scratch_stage" = Some e1 -> dom s !! "gameContainer_drone" = None ->
  view_target a = Some v ->
  run (changeStage a) s =
    (with_dom (<["scratch_stage" := restyle (first_restyle v) e1]> (dom s)) s,
     Thrown (TypeError "Cannot read properties of null (reading 'style')")).
Proof.
  intros H1 H2 Hv. unfold changeStage, view_target in *.
  rewrite run_bind, (get_element_by_id_run _ _ _ H1), run_bind, (get_element_by_id_null _ _ H2).
  destruct (loose_eq_str a.["m"] "標準") eqn:E1; [|destruct (loose_eq_str a.["m"] "Simulator")];
    simplify_eq; rewrite ?bind_ret_l, !run_bind; unfold set_display;
    by rewrite (set_elem_run _ _ _ _ _ H1).
Qed.

(** What the reporters answer; [undefined] for every other block. *)
Definition reply (op : string) : value :=
  if String.eqb op "connected" then VBool false
  else if String.eqb op "gaz" || String.eqb op "pitch" || String.eqb op "roll"
          || String.eqb op "battery" then VInt 0
  else VUndefined.

Lemma phantom_quiet_methods (op : string) (h : jsargs -> JS value) (a : jsargs) (s : state) :
  method op = Some h -> op <> "changeStage" -> run (h a) s = (s, Normal (reply op)).
Proof. intros Hm Hne. unfold method in Hm. str_cases; simplify_eq; done. Qed.

(** ** The page layout invariant: [droneFlag] says which of the two
       elements is displayed, and the other one is hidden. *)

Definition layout_ok (s : state) : Prop :=
  exists b e1 e2,
    globals s !! "droneFlag" = Some (VBool b) /\
    dom s !! "scratch_stage" = Some e1 /\ dom s !! "gameContainer_drone" = Some e2 /\
    el_display e1 = (if b then "none" else "block") /\
    el_display e2 = (if b then "block" else "none").

Lemma layout_ok_page_ready (s : state) : layout_ok s -> page_ready s.
Proof. intros (b & e1 & e2 & Hf & H1 & H2 & _). split_and!; eauto. Qed.

Lemma show_layout_ok (v : view) (s : state) : page_ready s -> layout_ok (show v s).
Proof.
  intros ([e1 H1] & [e2 H2] & _). destruct v; [exists false, (mk_element "block" "360" "480"), (restyle "none" e2)
    |exists true, (restyle "none" e1), (restyle "block" e2)];
    cbn [show dom globals with_dom with_globals];
    rewrite lookup_insert_eq, lookup_alter, lookup_alter_ne, H1, lookup_alter_ne, lookup_alter, H2 by done;
    by split_and!.
Qed.

Lemma phantom_block_layout (s : state) (op : string) (a : jsargs) :
  layout_ok s -> layout_ok (fst (run (run_block extension op a) s)).
Proof.
  intros Hl. unfold run_block. cbn [ext_method extension].
  destruct (method op) as [h|] eqn:Hm; [|done].
  destruct (String.eqb_spec op "changeStage") as [->|Hne].
  - unfold method in Hm. simpl in Hm. simplify_eq.
    rewrite phantom_changeStage_run by (by apply layout_ok_page_ready).
    destruct (view_target a); [|done]. by apply show_layout_ok, layout_ok_page_ready.
  - by rewrite (phantom_quiet_methods op h a s).
Qed.

(** C6: [layout_ok] -- [droneFlag] is a boolean, the Scratch stage is
    displayed exactly when it is [false] and the simulator container
    exactly when it is [true] -- holds after every run of blocks from a page
    where it holds. *)
Theorem phantom_layout_invariant (s s' : state) :
  layout_ok s -> runs extension s s' -> layout_ok s'.
Proof. intros Hl Hr. exact (runs_invariant extension layout_ok (fun s op a _ => phantom_block_layout s op a) s s' Hr Hl). Qed.


(** ** No block sends anything *)

Lemma phantom_method_silent (op : string) (h : jsargs -> JS value) (a : jsargs) :
  method op = Some h -> silent (h a).
Proof.
  intros Hm. unfold method in Hm. str_cases; simplify_eq;
    unfold changeStage, reset, connected, gaz, pitch, roll, battery, takeoff, landing, stop,
      set_gaz, set_pitch, set_roll, set_yaw, cap, flip, light, grab, picture, shoot,
      pitch_roll_yaw_gaz; cbv zeta; silent_solver.
Qed.

Lemma phantom_block_silent (s : state) (op : string) (a : jsargs) :
  unities (fst (run (run_block extension op a) s)) = unities s /\
  host_log (fst (run (run_block extension op a) s)) = host_log s.
Proof.
  unfold run_block. cbn [ext_method extension].
  destruct (method op) as [h|] eqn:Hm; [|done]. by apply (phantom_method_silent op h a).
Qed.

(** ** Claims *)

(** C5: No run of Phantom 4 blocks, in any order, with any arguments,
    returning or throwing, sends anything to a Unity instance or calls the
    page's [changeStage]: every [SendMessage] of the class is commented out,
    although its blocks read as drone commands. *)
Theorem phantom_never_sends (s s' : state) :
  runs extension s s' -> unities s' = unities s /\ host_log s' = host_log s.
Proof.
  intros Hr. refine (runs_invariant extension (fun x => unities x = unities s /\ host_log x = host_log s) _ s s' Hr _);
    [|done]. intros x op a _ [Hu Hh]. destruct (phantom_block_silent x op a). split; congruence.
Qed.

Lemma phantom_layout_invariant_witness :
  layout_ok example_page /\
  runs extension example_page
    (fst (run (run_block extension "changeStage" (<["m" := VStr "Simulator"]> ∅)) example_page)) /\
  layout_ok (fst (run (run_block extension "changeStage" (<["m" := VStr "Simulator"]> ∅)) example_page)).
Proof.
  assert (Hl : layout_ok example_page) by (exists false; eexists _, _; split_and!; reflexivity).
  assert (Hr : runs extension example_page
    (fst (run (run_block extension "changeStage" (<["m" := VStr "Simulator"]> ∅)) example_page)))
    by (eapply (runs_step _ _ "changeStage" (<["m" := VStr "Simulator"]> ∅));
        [concrete|reflexivity|apply runs_refl]).
  split_and!; [exact Hl|exact Hr|exact (phantom_layout_invariant _ _ Hl Hr)].
Defined.

Lemma phantom_changeStage_no_container_witness :
  dom (with_dom (delete "gameContainer_drone" (dom example_page)) example_page) !! "scratch_stage"
    = Some (mk_element "block" "360" "480") /\
  dom (with_dom (delete "gameContainer_drone" (dom example_page)) example_page) !! "gameContainer_drone" = None /\
  view_target (<["m" := VStr "Simulator"]> ∅) = Some SimulatorView /\
  run (changeStage (<["m" := VStr "Simulator"]> ∅)) (with_dom (delete "gameContainer_drone" (dom example_page)) example_page) =
    (with_dom (<["scratch_stage" := restyle (first_restyle SimulatorView) (mk_element "block" "360" "480")]>
       (dom (with_dom (delete "gameContainer_drone" (dom example_page)) example_page)))
       (with_dom (delete "gameContainer_drone" (dom example_page)) example_page),
     Thrown (TypeError "Cannot read properties of null (reading 'style')")).
Proof. split_and!; [concrete..|apply phantom_changeStage_no_container; concrete]. Defined.

Lemma phantom_never_sends_witness :
  runs extension example_page
    (fst (run (run_block extension "takeoff" ∅)
      (fst (run (run_block extension "changeStage" (<["m" := VStr "Simulator"]> ∅)) example_page)))) /\
  unities (fst (run (run_block extension "takeoff" ∅)
      (fst (run (run_block extension "changeStage" (<["m" := VStr "Simulator"]> ∅)) example_page))))
    = unities example_page /\
  host_log (fst (run (run_block extension "takeoff" ∅)
      (fst (run (run_block extension "changeStage" (<["m" := VStr "Simulator"]> ∅)) example_page))))
    = host_log example_page.
Proof.
  assert (Hr : runs extension example_page
    (fst (run (run_block extension "takeoff" ∅)
      (fst (run (run_block extension "changeStage" (<["m" := VStr "Simulator"]> ∅)) example_page))))).
  { eapply (runs_step _ _ "changeStage" (<["m" := VStr "Simulator"]> ∅)); [concrete|reflexivity|].
    eapply (runs_step _ _ "takeoff" ∅); [concrete|reflexivity|apply runs_refl]. }
  split; [exact Hr|exact (phantom_never_sends _ _ Hr)].
Defined.
(** ** What [changeStage] does to the page *)

(** C26: On a page with both elements and a declared [droneFlag],
    [changeStage] returns [undefined] and, for [標準], shows the Scratch
    stage at 360x480, hides the simulator container (keeping its size) and
    sets [droneFlag] to [false]; for [Simulator], hides the Scratch stage,
    shows the container (both keeping their size) and sets [droneFlag] to
    [true]; for any other label it changes nothing.  No other element or
    global, no Unity instance and no call into the page changes. *)
Theorem phantom_changeStage_layout (a : jsargs) (s : state) (e1 e2 : element) :
  dom s !! "scratch_stage" = Some e1 -> dom s !! "gameContainer_drone" = Some e2 ->
  is_Some (globals s !! "droneFlag") ->
  exists s',
    run (changeStage a) s = (s', Normal VUndefined) /\
    unities s' = unities s /\ host_log s' = host_log s /\
    (forall x, x <> "droneFlag" -> globals s' !! x = globals s !! x) /\
    (forall x, x <> "scratch_stage" -> x <> "gameContainer_drone" -> dom s' !! x = dom s !! x) /\
    match view_target a with
    | Some StandardView =>
        globals s' !! "droneFlag" = Some (VBool false) /\
        dom s' !! "scratch_stage" = Some (mk_element "block" "360" "480") /\
        dom s' !! "gameContainer_drone" = Some (mk_element "none" (el_height e2) (el_width e2))
    | Some SimulatorView =>
        globals s' !! "droneFlag" = Some (VBool true) /\
        dom s' !! "scratch_stage" = Some (mk_element "none" (el_height e1) (el_width e1)) /\
        dom s' !! "gameContainer_drone" = Some (mk_element "block" (el_height e2) (el_width e2))
    | None => s' = s
    end.
Proof.
  intros H1 H2 Hf. eexists. split.
  { apply phantom_changeStage_run. split_and!; eauto. }
  destruct (view_target a) as [[|]|]; cbn [show globals dom unities host_log with_globals with_dom];
    split_and!; try done; intros; try (by simplify_map_eq);
    by rewrite ?lookup_alter, ?lookup_alter_ne, ?H1, ?H2 by done.
Qed.

Lemma phantom_changeStage_layout_witness :
  dom example_page !! "scratch_stage" = Some (mk_element "block" "360" "480") /\
  dom example_page !! "gameContainer_drone" = Some (mk_element "none" "100%" "100%") /\
  is_Some (globals example_page !! "droneFlag") /\
  exists s',
    run (changeStage (<["m" := VStr "Simulator"]> ∅)) example_page = (s', Normal VUndefined) /\
    unities s' = unities example_page /\ host_log s' = host_log example_page /\
    (forall x, x <> "droneFlag" -> globals s' !! x = globals example_page !! x) /\
    (forall x, x <> "scratch_stage" -> x <> "gameContainer_drone" -> dom s' !! x = dom example_page !! x) /\
    match view_target (<["m" := VStr "Simulator"]> ∅) with
    | Some StandardView =>
        globals s' !! "droneFlag" = Some (VBool false) /\
        dom s' !! "scratch_stage" = Some (mk_element "block" "360" "480") /\
        dom s' !! "gameContainer_drone" = Some (mk_element "none" "100%" "100%")
    | Some SimulatorView =>
        globals s' !! "droneFlag" = Some (VBool true) /\
        dom s' !! "scratch_stage" = Some (mk_element "none" "360" "480") /\
        dom s' !! "gameContainer_drone" = Some (mk_element "block" "100%" "100%")
    | None => s' = example_page
    end.
Proof.
  do 3 (split; [concrete|]).
  exact (phantom_changeStage_layout _ example_page (mk_element "block" "360" "480") (mk_element "none" "100%" "100%")
           eq_refl eq_refl ltac:(concrete)).
Defined.
(** ** One block beside another extension *)

(** A Phantom 4 block on a page with both elements returns normally,
    keeps them, and changes no global but [droneFlag], no Unity instance
    and no call into the page. *)
Lemma phantom_method_step (op : string) (a : jsargs) (h : jsargs -> JS value) (s : state) :
  method op = Some h -> page_ready s ->
  exists s' v,
    run (h a) s = (s', Normal v) /\ page_ready s' /\
    unities s' = unities s /\ host_log s' = host_log s /\
    forall x, x <> "droneFlag" -> globals s' !! x = globals s !! x.
Proof.
  intros Hm Hr. destruct (String.eqb_spec op "changeStage") as [->|Hne].
  - unfold method in Hm. simpl in Hm. simplify_eq.
    rewrite phantom_changeStage_run by done. eexists _, _. split; [done|].
    destruct (view_target a) as [v|]; [|done].
    split_and!; [by apply show_page_ready|by destruct v..|].
    intros x Hx. destruct v; simpl; by rewrite lookup_insert_ne.
  - eexists s, _. by rewrite (phantom_quiet_methods op h a s).
Qed.
End DjiPhantom4Blocks.
