(* ===== verification/Values.v ===== *)
(** * The values the handlers compute, as rationals

    The speed blocks send [sign * (n > L ? L : n)] and [light] sends
    [n * 255], computed with JavaScript numbers.  This file states what
    those expressions mean in [Q] -- a reference definition [ref_speed] of a
    speed argument -- and proves that the handlers' arithmetic ([speed] of
    [Drone.v]) computes it exactly for every finite argument (a product by
    [1] or [-1] and a comparison never round), while [light] sends the
    product rounded to a double, exact only for integer results up to
    [2^53]. *)

From stdpp Require Import base gmap strings list.
From Stdlib Require Import ZArith QArith Qminmax Qabs Lia Lqa.
From S2P Require Import Base JsNum NumQ Js Host Protocol Drone Tello Mambo.

Local Open Scope js_scope.

Module T := DjiTelloBlocks.
Module M := ParrotMamboBlocks.

(** ** The value a speed block sends, against a reference in [Q] *)

(** The speed a block means: [n] capped at [L], negated for the menu's
    negative direction. *)
Definition ref_speed (neg : bool) (n : Q) (L : Z) : Q :=
  ((if neg then -1 else 1) * Qmin n (inject_Z L))%Q.

Lemma clamp_hi_q (L m : Z) (e : nat) :
  exists m' e', clamp_hi L (JNum m e) = JNum m' e' /\ (dec_q m' e' == Qmin (dec_q m e) (inject_Z L))%Q.
Proof.
  unfold clamp_hi. destruct (num_gt (JNum m e) (JInt L)) eqn:E.
  - exists L, 0%nat. split; [reflexivity|]. apply num_gt_q in E.
    rewrite Q.min_r; [apply dec_q_int|]. apply Qlt_le_weak. rewrite <- dec_q_int. exact E.
  - exists m, e. split; [reflexivity|]. apply num_gt_q_false in E.
    rewrite Q.min_l; [reflexivity|]. rewrite <- dec_q_int. exact E.
Qed.

Lemma speed_q (a : jsargs) dir neg n L (m : Z) (e : nat) :
  to_number a.[n] = JNum m e ->
  exists m' e', speed a dir neg n L = JNum m' e' /\
    (dec_q m' e' == ref_speed (loose_eq_str a.[dir] neg) (dec_q m e) L)%Q.
Proof.
  intros Hn. unfold speed, ref_speed. rewrite Hn.
  destruct (clamp_hi_q L m e) as (m' & e' & -> & Hq).
  destruct (loose_eq_str a.[dir] neg); simpl; [exists (- m')%Z, e'|exists m', e'];
    split; try reflexivity; rewrite <- Hq; [rewrite dec_q_opp|]; ring.
Qed.

(** [n * 255] on a finite number: the double nearest to [255 * n]. *)
Lemma light_value (v : value) (m : Z) (e : nat) :
  to_number v = JNum m e -> num_mul (to_number v) (JInt 255) = round_dec (m * 255) e.
Proof. intros ->. cbn [num_mul JInt]. by rewrite Nat.add_0_r. Qed.

Lemma dec_q_mul_255 (m : Z) (e : nat) : (dec_q (m * 255) e == dec_q m e * 255)%Q.
Proof. rewrite <- (Nat.add_0_r e) at 1. rewrite dec_q_mul. reflexivity. Qed.

(** ** The Tello's speed blocks and [light] *)

(** The speed blocks of the Tello: the code of their message, the label of
    the negative direction, and the limit. *)
Definition tello_speed_blocks : list (string * (string * string * Z)) :=
  [("set_gaz", ("0,120,0,", "下降", 100%Z)); ("set_pitch", ("0,110,0,", "後進", 100%Z));
   ("set_roll", ("0,100,0,", "左移動", 100%Z)); ("set_yaw", ("0,130,0,", "左旋回", 100%Z));
   ("cap", ("0,200,0,", "左旋回", 360%Z))].

Lemma tello_speed_block_run (op code neg : string) (L : Z) (h : jsargs -> JS value) (a : jsargs)
    (s : state) (l : nat) (u : unity) :
  (op, (code, neg, L)) ∈ tello_speed_blocks -> T.method op = Some h -> args_wf a ->
  globals s !! "djiTelloInstance" = Some (VUnity l) -> unities s !! l = Some u ->
  run (h a) s = (sent s l u (code +:+ num_to_string (speed a "m" neg "n" L)), Normal VUndefined).
Proof.
  intros Hin Hm Ha Hinst Hu.
  unfold tello_speed_blocks in Hin. rewrite !elem_of_cons, elem_of_nil in Hin.
  destruct_or! Hin; simplify_eq;
    by erewrite T.tello_method_sends; [|exact Hm|reflexivity|exact Ha|exact Hinst|exact Hu].
Qed.

(** C17: Each speed block of the Tello sends, for a finite speed [n], its
    code followed by a number whose value is exactly [ref_speed]: [n] capped
    at the block's limit, negated for the menu's negative direction. *)
Theorem tello_speed_reference (op code neg : string) (L : Z) (h : jsargs -> JS value) (a : jsargs)
    (s : state) (l : nat) (u : unity) (m : Z) (e : nat) :
  (op, (code, neg, L)) ∈ tello_speed_blocks -> T.method op = Some h -> args_wf a ->
  to_number a.["n"] = JNum m e ->
  globals s !! "djiTelloInstance" = Some (VUnity l) -> unities s !! l = Some u ->
  exists xm xe,
    run (h a) s = (sent s l u (code +:+ num_to_string (JNum xm xe)), Normal VUndefined) /\
    (dec_q xm xe == ref_speed (loose_eq_str a.["m"] neg) (dec_q m e) L)%Q.
Proof.
  intros Hin Hm Ha Hn Hinst Hu. destruct (speed_q a "m" neg "n" L m e Hn) as (xm & xe & Hs & Hq).
  exists xm, xe. split; [|exact Hq].
  by rewrite (tello_speed_block_run op code neg L h a s l u), Hs.
Qed.

Lemma tello_speed_reference_witness :
  ("set_gaz", ("0,120,0,", "下降", 100%Z)) ∈ tello_speed_blocks /\
  T.method "set_gaz" = Some T.set_gaz /\ args_wf example_args /\
  to_number example_args.["n"] = JNum 150 0 /\
  globals example_page !! "djiTelloInstance" = Some (VUnity 0) /\
  unities example_page !! 0%nat = Some (mk_unity "djiTello_drone" "static/dji_tello/dji_tello.json" []) /\
  exists xm xe,
    run (T.set_gaz example_args) example_page =
      (sent example_page 0 (mk_unity "djiTello_drone" "static/dji_tello/dji_tello.json" [])
         ("0,120,0," +:+ num_to_string (JNum xm xe)), Normal VUndefined) /\
    (dec_q xm xe == ref_speed (loose_eq_str example_args.["m"] "下降") (dec_q 150 0) 100)%Q.
Proof. split_and!; [concrete..|apply (tello_speed_reference "set_gaz"); concrete]. Defined.

(** C21: [light] sends, for a finite [n], the double nearest to [255 * n],
    with no bound: when finite it lies within [2^-53 * |255 * n| + 2^-1075]
    of [255 * n], and it is exactly [255 * n] when that is an integer of
    magnitude at most [2^53] (2 sends 510, while 0.01 sends
    2.5500000000000003, the rounded product). *)
Theorem tello_light_rounded (a : jsargs) (s : state) (l : nat) (u : unity) (m : Z) (e : nat) :
  args_wf a -> to_number a.["n"] = JNum m e ->
  globals s !! "djiTelloInstance" = Some (VUnity l) -> unities s !! l = Some u ->
  exists x,
    run (T.light a) s = (sent s l u ("0,220,0," +:+ num_to_string x), Normal VUndefined) /\
    (forall xm xe, x = JNum xm xe ->
       (Qabs (dec_q xm xe - dec_q m e * 255) <= Qabs (dec_q m e * 255) * (1 # 2 ^ 53) + (1 # 2 ^ 1075))%Q) /\
    (forall k : Z, (m * 255 = k * 10 ^ Z.of_nat e)%Z -> (Z.abs k <= 2 ^ 53)%Z -> x = JInt k).
Proof.
  intros Ha Hn Hinst Hu. exists (round_dec (m * 255) e). split_and!.
  - erewrite (T.tello_method_sends "light"); [|reflexivity|reflexivity|exact Ha|exact Hinst|exact Hu].
    cbn [encode_command]. by rewrite (light_value _ m e Hn).
  - intros xm xe Hx. rewrite <- !dec_q_mul_255. by apply round_dec_err_q.
  - intros k Hk Hb. by apply round_dec_exact_int.
Qed.

Lemma tello_light_rounded_witness :
  args_wf (<["n" := VStr "2"]> ∅) /\ to_number (<["n" := VStr "2"]> ∅).["n"] = JNum 2 0 /\
  globals example_page !! "djiTelloInstance" = Some (VUnity 0) /\
  unities example_page !! 0%nat = Some (mk_unity "djiTello_drone" "static/dji_tello/dji_tello.json" []) /\
  exists x,
    run (T.light (<["n" := VStr "2"]> ∅)) example_page =
      (sent example_page 0 (mk_unity "djiTello_drone" "static/dji_tello/dji_tello.json" [])
         ("0,220,0," +:+ num_to_string x), Normal VUndefined) /\
    (forall xm xe, x = JNum xm xe ->
       (Qabs (dec_q xm xe - dec_q 2 0 * 255) <= Qabs (dec_q 2 0 * 255) * (1 # 2 ^ 53) + (1 # 2 ^ 1075))%Q) /\
    (forall k : Z, (2 * 255 = k * 10 ^ Z.of_nat 0)%Z -> (Z.abs k <= 2 ^ 53)%Z -> x = JInt k).
Proof. split_and!; [concrete..|apply tello_light_rounded; concrete]. Defined.

(** [light] at 0.01 sends the rounded product [0.01 * 255], as JavaScript
    prints it. *)
Example tello_light_hundredth :
  run (T.light (<["n" := VStr "0.01"]> ∅)) example_page =
    (sent example_page 0 (mk_unity "djiTello_drone" "static/dji_tello/dji_tello.json" [])
       "0,220,0,2.5500000000000003", Normal VUndefined).
Proof. vm_compute. reflexivity. Qed.

(** ** When the sent speed stays in range *)

(** A capped and signed speed lies in [[-L, L]] exactly when the speed is
    at least [-L]: the cap bounds it on one side only. *)
Lemma ref_speed_range (neg : bool) (n : Q) (L : Z) :
  (0 <= L)%Z ->
  ((- inject_Z L <= ref_speed neg n L <= inject_Z L)%Q <-> (- inject_Z L <= n)%Q).
Proof.
  intros HL. assert (HL' : (0 <= inject_Z L)%Q) by (change 0%Q with (inject_Z 0); by rewrite <- Zle_Qle).
  unfold ref_speed. destruct (Q.min_spec n (inject_Z L)) as [[Hlt ->]|[Hle ->]];
    destruct neg; split; intros; try split; lra.
Qed.

(** C25: A Tello speed block sends a value inside the range [[-L, L]] the
    spec promises (L = 100, or 360 for [cap]) exactly when the finite
    speed [n] is at least [-L]: for [n < -L] the value sent is outside the
    range, in the direction the menu selects. *)
Theorem tello_speed_range (op code neg : string) (L : Z) (h : jsargs -> JS value) (a : jsargs)
    (s : state) (l : nat) (u : unity) (m : Z) (e : nat) :
  (op, (code, neg, L)) ∈ tello_speed_blocks -> T.method op = Some h -> args_wf a ->
  to_number a.["n"] = JNum m e ->
  globals s !! "djiTelloInstance" = Some (VUnity l) -> unities s !! l = Some u ->
  exists xm xe,
    run (h a) s = (sent s l u (code +:+ num_to_string (JNum xm xe)), Normal VUndefined) /\
    ((- inject_Z L <= dec_q xm xe <= inject_Z L)%Q <-> (- inject_Z L <= dec_q m e)%Q).
Proof.
  intros Hin Hm Ha Hn Hinst Hu. destruct (speed_q a "m" neg "n" L m e Hn) as (xm & xe & Hs & Hq).
  exists xm, xe. split.
  - by rewrite (tello_speed_block_run op code neg L h a s l u), Hs.
  - rewrite Hq. refine (ref_speed_range _ _ _ _).
    unfold tello_speed_blocks in Hin. rewrite !elem_of_cons, elem_of_nil in Hin.
    destruct_or! Hin; simplify_eq; lia.
Qed.

Lemma tello_speed_range_witness :
  ("set_roll", ("0,100,0,", "左移動", 100%Z)) ∈ tello_speed_blocks /\
  T.method "set_roll" = Some T.set_roll /\ args_wf (<["m" := VStr "右移動"]> (<["n" := VStr "-150"]> ∅)) /\
  to_number (<["m" := VStr "右移動"]> (<["n" := VStr "-150"]> ∅)).["n"] = JNum (-150) 0 /\
  globals example_page !! "djiTelloInstance" = Some (VUnity 0) /\
  unities example_page !! 0%nat = Some (mk_unity "djiTello_drone" "static/dji_tello/dji_tello.json" []) /\
  exists xm xe,
    run (T.set_roll (<["m" := VStr "右移動"]> (<["n" := VStr "-150"]> ∅))) example_page =
      (sent example_page 0 (mk_unity "djiTello_drone" "static/dji_tello/dji_tello.json" [])
         ("0,100,0," +:+ num_to_string (JNum xm xe)), Normal VUndefined) /\
    ((- inject_Z 100 <= dec_q xm xe <= inject_Z 100)%Q <-> (- inject_Z 100 <= dec_q (-150) 0)%Q).
Proof. do 6 (split; [concrete|]). apply (tello_speed_range "set_roll" "0,100,0," "左移動"); concrete. Defined.

(** ** A missing or non-numeric speed *)

Lemma speed_nan (a : jsargs) dir neg n L : to_number a.[n] = JNaN -> speed a dir neg n L = JNaN.
Proof. intros Hn. unfold speed, clamp_hi. rewrite Hn. by destruct (loose_eq_str a.[dir] neg). Qed.

(** C27: When the speed argument is missing or not a number
    ([ToNumber] gives [NaN]: an empty slot, a word), every Tello speed
    block still returns normally and sends its code followed by ["NaN"]:
    neither the cap nor the sign catches it, and the simulator's decoding
    of that message is exactly the block's command, with a [NaN] speed. *)
Theorem tello_speed_nan (op code neg : string) (L : Z) (h : jsargs -> JS value) (a : jsargs)
    (s : state) (l : nat) (u : unity) :
  (op, (code, neg, L)) ∈ tello_speed_blocks -> T.method op = Some h -> args_wf a ->
  to_number a.["n"] = JNaN ->
  globals s !! "djiTelloInstance" = Some (VUnity l) -> unities s !! l = Some u ->
  run (h a) s = (sent s l u (code +:+ "NaN"), Normal VUndefined) /\
  decode_message (code +:+ "NaN") = T.command_of op a.
Proof.
  intros Hin Hm Ha Hn Hinst Hu. split.
  - by rewrite (tello_speed_block_run op code neg L h a s l u), speed_nan.
  - unfold tello_speed_blocks in Hin. rewrite !elem_of_cons, elem_of_nil in Hin.
    destruct_or! Hin; simplify_eq; unfold T.command_of; cbn -[speed decode_message];
      by rewrite speed_nan.
Qed.

Lemma tello_speed_nan_witness :
  ("set_gaz", ("0,120,0,", "下降", 100%Z)) ∈ tello_speed_blocks /\
  T.method "set_gaz" = Some T.set_gaz /\ args_wf ∅ /\ to_number (∅ : jsargs).["n"] = JNaN /\
  globals example_page !! "djiTelloInstance" = Some (VUnity 0) /\
  unities example_page !! 0%nat = Some (mk_unity "djiTello_drone" "static/dji_tello/dji_tello.json" []) /\
  run (T.set_gaz ∅) example_page =
    (sent example_page 0 (mk_unity "djiTello_drone" "static/dji_tello/dji_tello.json" []) ("0,120,0," +:+ "NaN"),
     Normal VUndefined) /\
  decode_message ("0,120,0," +:+ "NaN") = T.command_of "set_gaz" ∅.
Proof. do 6 (split; [concrete|]). apply (tello_speed_nan "set_gaz" "0,120,0," "下降" 100); concrete. Defined.

(** ** The Mambo's four-axis block *)

(** [x] is a finite number of value [q]. *)
Definition sends_value (x : jsnum) (q : Q) : Prop :=
  match x with JNum m e => (dec_q m e == q)%Q | _ => False end.

Lemma speed_value (a : jsargs) dir neg n L (m : Z) (e : nat) :
  to_number a.[n] = JNum m e ->
  sends_value (speed a dir neg n L) (ref_speed (loose_eq_str a.[dir] neg) (dec_q m e) L).
Proof. intros Hn. destruct (speed_q a dir neg n L m e Hn) as (m' & e' & -> & Hq). exact Hq. Qed.

(** C18: [pitch_roll_yaw_gaz] of the Mambo sends, for finite speeds,
    ["0,140,0,r:p:g:y"] where each of the four numbers has exactly the
    value [ref_speed] of its own axis: roll from [p] and menu [o], pitch
    from [n] and [m], gaz from [t] and [s], yaw from [r] and [q] -- each
    capped at 100 and negated for the menu's negative direction. *)
Theorem mambo_axes_reference (a : jsargs) (s : state) (l : nat) (u : unity)
    (mp mr my mg : Z) (ep er ey eg : nat) :
  args_wf a ->
  to_number a.["n"] = JNum mp ep -> to_number a.["p"] = JNum mr er ->
  to_number a.["r"] = JNum my ey -> to_number a.["t"] = JNum mg eg ->
  globals s !! "gameInstance" = Some (VUnity l) -> unities s !! l = Some u ->
  exists r p g y,
    run (M.pitch_roll_yaw_gaz a) s =
      (sent s l u ("0,140,0," +:+ num_to_string r +:+ ":" +:+ num_to_string p +:+ ":"
                    +:+ num_to_string g +:+ ":" +:+ num_to_string y), Normal VUndefined) /\
    sends_value r (ref_speed (loose_eq_str a.["o"] "左移動") (dec_q mr er) 100) /\
    sends_value p (ref_speed (loose_eq_str a.["m"] "後進") (dec_q mp ep) 100) /\
    sends_value g (ref_speed (loose_eq_str a.["s"] "下降") (dec_q mg eg) 100) /\
    sends_value y (ref_speed (loose_eq_str a.["q"] "左旋回") (dec_q my ey) 100).
Proof.
  intros Ha Hp Hr Hy Hg Hinst Hu. eexists _, _, _, _. split_and!.
  - erewrite (M.mambo_method_sends "pitch_roll_yaw_gaz"); [|reflexivity..|exact Ha|exact Hinst|exact Hu].
    reflexivity.
  - by apply speed_value.
  - by apply speed_value.
  - by apply speed_value.
  - by apply speed_value.
Qed.

Lemma mambo_axes_reference_witness :
  args_wf M.example_axes /\
  to_number M.example_axes.["n"] = JNum 150 0 /\ to_number M.example_axes.["p"] = JNum 20 0 /\
  to_number M.example_axes.["r"] = JNum 55 1 /\ to_number M.example_axes.["t"] = JNum 30 0 /\
  globals example_page !! "gameInstance" = Some (VUnity 1) /\
  unities example_page !! 1%nat = Some (mk_unity "gameContainer_drone" "static/WebGL/WebGL.json" []) /\
  exists r p g y,
    run (M.pitch_roll_yaw_gaz M.example_axes) example_page =
      (sent example_page 1 (mk_unity "gameContainer_drone" "static/WebGL/WebGL.json" [])
         ("0,140,0," +:+ num_to_string r +:+ ":" +:+ num_to_string p +:+ ":"
            +:+ num_to_string g +:+ ":" +:+ num_to_string y), Normal VUndefined) /\
    sends_value r (ref_speed (loose_eq_str M.example_axes.["o"] "左移動") (dec_q 20 0) 100) /\
    sends_value p (ref_speed (loose_eq_str M.example_axes.["m"] "後進") (dec_q 150 0) 100) /\
    sends_value g (ref_speed (loose_eq_str M.example_axes.["s"] "下降") (dec_q 30 0) 100) /\
    sends_value y (ref_speed (loose_eq_str M.example_axes.["q"] "左旋回") (dec_q 55 1) 100).
Proof. do 7 (split; [concrete|]). apply mambo_axes_reference; concrete. Defined.
