(* ===== verification/Session.v ===== *)
(** * Scripts: sequences of blocks run against a Unity-backed extension

    The Scratch runtime runs the blocks of a script one after another, and
    interleaves scripts only between blocks; the handlers are synchronous, so
    any execution of any set of scripts is a sequence of block runs.  This
    file proves, against the [UnityDrone] interface only, that such a
    sequence returns normally and extends the instance's log by exactly the
    encodings of the blocks' commands, in order, and that along every run of
    blocks (the relation [runs]) the log holds only encodings of
    well-formed commands.  For two such extensions on one page
    ([run_mixed], blocks of either in any interleaving), each instance
    receives exactly its own extension's messages ([mixed_log]); this rests
    on the frame condition of [UnityDrone]: a block changes no global but
    [stageId].  [Page.v] applies these to the Tello and the Mambo. *)

From stdpp Require Import base gmap strings list.
From Stdlib Require Import Ascii ZArith Lia.
From S2P Require Import Base JsNum Js Host Protocol Catalog Extension.

Section session.
Context (e : extension) `{!UnityDrone e}.

Fixpoint run_script (ops : list (string * jsargs)) : JS unit :=
  match ops with
  | [] => mret tt
  | (op, a) :: rest => run_block e op a ;; run_script rest
  end.

(** The abstract commands of a script, in order. *)
Definition commands (ops : list (string * jsargs)) : list command :=
  omap (fun '(op, a) => ud_command op a) ops.

Definition message (c : command) : string * string * string :=
  ("Drones", "Scratch3", encode_command c).

Definition runnable (ops : list (string * jsargs)) : Prop :=
  Forall (fun p => is_Some (ext_method e p.1) /\ args_wf p.2) ops.

Lemma log_after_log (c : option command) (u : unity) :
  u_log (log_after c u) = u_log u ++ (message <$> option_list c).
Proof. destruct c; simpl; [done|by rewrite app_nil_r]. Qed.

Lemma log_after_meta (c : option command) (u : unity) :
  u_container (log_after c u) = u_container u /\ u_build (log_after c u) = u_build u.
Proof. by destruct c. Qed.

(** For any extension meeting [UnityDrone], a script (a sequence
    of blocks the extension has, with string or number arguments) run on
    a ready page returns normally; the page stays ready; the instance's
    log grows by exactly the messages of the blocks' commands, in order;
    and no other Unity instance is touched. *)
Theorem script_log (ops : list (string * jsargs)) (s : state) (l : nat) (u : unity) :
  runnable ops -> host_ready ud_instance s ->
  globals s !! ud_instance = Some (VUnity l) -> unities s !! l = Some u ->
  exists s' u',
    run (run_script ops) s = (s', Normal tt) /\
    host_ready ud_instance s' /\
    globals s' !! ud_instance = Some (VUnity l) /\
    unities s' !! l = Some u' /\
    u_container u' = u_container u /\ u_build u' = u_build u /\
    u_log u' = u_log u ++ (message <$> commands ops) /\
    (forall l', l' <> l -> unities s' !! l' = unities s !! l').
Proof.
  revert s u. induction ops as [|[op a] ops IH]; intros s u Hrun Hready Hinst Hu.
  - exists s, u. rewrite app_nil_r. split_and!; done.
  - apply Forall_cons in Hrun as [[[h Hh] Ha] Hrun].
    destruct (ud_step op a h s l u Hh Ha Hready Hinst Hu)
      as (s1 & v & Hstep & Hready1 & Hinst1 & Hus1 & _).
    assert (Hu1 : unities s1 !! l = Some (log_after (ud_command op a) u)).
    { rewrite Hus1. apply list_lookup_insert_eq. by eapply lookup_lt_Some. }
    destruct (IH s1 _ Hrun Hready1 Hinst1 Hu1)
      as (s' & u' & Hrun' & Hready' & Hinst' & Hu' & Hc & Hb & Hlog & Hother).
    exists s', u'. destruct (log_after_meta (ud_command op a) u) as [Hc1 Hb1].
    split_and!; try done; try congruence.
    + simpl. unfold run_block. simpl in Hh. rewrite Hh, Hstep. done.
    + rewrite Hlog, log_after_log, <- app_assoc. simpl.
      by destruct (ud_command op a).
    + intros l' Hne. rewrite Hother, Hus1 by done. by apply list_lookup_insert_ne.
Qed.

Lemma commands_wf (ops : list (string * jsargs)) :
  runnable ops -> Forall (fun c => command_wf c = true) (commands ops).
Proof.
  induction 1 as [|[op a] ops [_ Ha] _ IH]; simpl; [done|].
  destruct (ud_command op a) eqn:Hc; [|done].
  constructor; [|done]. by eapply ud_command_wf.
Qed.

(** ** Every message the instance ever received encodes a command

    The runtime runs blocks of any scripts in any interleaving, some of
    which may name no method and throw; along every such run the
    instance stays live and its log holds only encodings of well-formed
    commands (which [Protocol.decode_encode] decodes). *)

Definition well_logged (s : state) : Prop :=
  host_ready ud_instance s /\
  forall l u, globals s !! ud_instance = Some (VUnity l) -> unities s !! l = Some u ->
    Forall (fun m => exists c, command_wf c = true /\ m = message c) (u_log u).

Lemma well_logged_step s op a :
  args_wf a -> well_logged s -> well_logged (fst (run (run_block e op a) s)).
Proof.
  intros Ha [Hready Hlog]. destruct (ext_method e op) as [h|] eqn:Hh;
    [|by rewrite run_block_missing].
  pose proof Hready as (_ & _ & l & Hinst & Hlen).
  destruct (lookup_lt_is_Some_2 _ _ Hlen) as [u Hu].
  destruct (ud_step op a h s l u Hh Ha Hready Hinst Hu) as (s' & v & Hrun & Hready' & Hinst' & Hus' & _).
  unfold run_block. rewrite Hh, Hrun. split; [done|]. simpl.
  intros l' u' Hl' Hu'. rewrite Hinst' in Hl'. simplify_eq.
  rewrite Hus', list_lookup_insert_eq in Hu' by done. simplify_eq.
  rewrite log_after_log. apply Forall_app; split; [by eapply Hlog|].
  destruct (ud_command op a) as [c|] eqn:Hc; simpl; [|done].
  repeat constructor. exists c. split; [by eapply ud_command_wf|done].
Qed.

(** For any extension meeting [UnityDrone], along every run of
    blocks (any scripts, any interleaving, blocks that throw included)
    from a page where it holds, the page stays ready and every message
    in the instance's log is the encoding of a well-formed command. *)
Theorem runs_well_logged (s s' : state) : well_logged s -> runs e s s' -> well_logged s'.
Proof. intros Hs Hr. exact (runs_invariant e well_logged well_logged_step s s' Hr Hs). Qed.
(** One block of this extension, on a page where another extension's
    instance global [j] holds a different live instance [l']: the block
    returns normally, leaves both ready, and touches neither [j] nor
    instance [l']. *)
Lemma step_beside (j : string) (op : string) (a : jsargs) (h : jsargs -> JS value)
    (s : state) (l l' : nat) (u u' : unity) :
  ext_method e op = Some h -> args_wf a -> ud_instance <> "stageId" -> j <> "stageId" -> l <> l' ->
  host_ready ud_instance s -> host_ready j s ->
  globals s !! ud_instance = Some (VUnity l) -> globals s !! j = Some (VUnity l') ->
  unities s !! l = Some u -> unities s !! l' = Some u' ->
  exists s1 v,
    run (run_block e op a) s = (s1, Normal v) /\
    host_ready ud_instance s1 /\ host_ready j s1 /\
    globals s1 !! ud_instance = Some (VUnity l) /\ globals s1 !! j = Some (VUnity l') /\
    unities s1 !! l = Some (log_after (ud_command op a) u) /\ unities s1 !! l' = Some u'.
Proof.
  intros Hh Ha Hi Hj Hll Hr Hrj Hinst Hjl Hu Hu'.
  destruct (ud_step op a h s l u Hh Ha Hr Hinst Hu) as (s1 & v & Hstep & Hr1 & Hinst1 & Hus1 & Hfr).
  exists s1, v. unfold run_block. rewrite Hh, Hstep. split_and!; try done.
  - apply (host_ready_frame j s s1); try done; [apply Hr1|]. by rewrite Hus1, length_insert.
  - by rewrite (proj2 Hfr).
  - rewrite Hus1. apply list_lookup_insert_eq. by eapply lookup_lt_Some.
  - by rewrite Hus1, list_lookup_insert_ne.
Qed.
End session.

(** ** Two extensions on one page

    Scratch runs the scripts of a project in any interleaving of their
    blocks; with two Unity-backed extensions loaded, a run is a sequence of
    blocks each of which belongs to one of them ([true] for [e1]). *)

Section two_extensions.
Context (e1 e2 : extension) (D1 : UnityDrone e1) (D2 : UnityDrone e2).

Fixpoint run_mixed (ops : list (bool * (string * jsargs))) : JS unit :=
  match ops with
  | [] => mret tt
  | (b, (op, a)) :: rest => run_block (if b then e1 else e2) op a ;; run_mixed rest
  end.

(** The blocks of one extension, in order. *)
Definition side (b : bool) (ops : list (bool * (string * jsargs))) : list (string * jsargs) :=
  snd <$> List.filter (fun p => Bool.eqb p.1 b) ops.

Definition mixed_runnable (ops : list (bool * (string * jsargs))) : Prop :=
  Forall (fun p : bool * (string * jsargs) => is_Some (ext_method (if p.1 then e1 else e2) p.2.1) /\ args_wf p.2.2) ops.

Lemma side_cons (b b' : bool) (p : string * jsargs) ops :
  side b ((b', p) :: ops) = if Bool.eqb b' b then p :: side b ops else side b ops.
Proof. unfold side. simpl. by destruct (Bool.eqb b' b). Qed.

Lemma commands_cons (e : extension) (D : UnityDrone e) op a ops :
  message <$> commands e ((op, a) :: ops) = (message <$> option_list (ud_command op a)) ++ (message <$> commands e ops).
Proof. simpl. by destruct (ud_command op a). Qed.

(** Each instance receives exactly the messages of its own extension's
    blocks, in order, whatever the interleaving. *)
Lemma mixed_log (ops : list (bool * (string * jsargs))) (s : state) (l1 l2 : nat) (u1 u2 : unity) :
  mixed_runnable ops -> @ud_instance e1 D1 <> "stageId" -> @ud_instance e2 D2 <> "stageId" -> l1 <> l2 ->
  host_ready (@ud_instance e1 D1) s -> host_ready (@ud_instance e2 D2) s ->
  globals s !! @ud_instance e1 D1 = Some (VUnity l1) -> globals s !! @ud_instance e2 D2 = Some (VUnity l2) ->
  unities s !! l1 = Some u1 -> unities s !! l2 = Some u2 ->
  exists s' u1' u2',
    run (run_mixed ops) s = (s', Normal tt) /\
    host_ready (@ud_instance e1 D1) s' /\ host_ready (@ud_instance e2 D2) s' /\
    unities s' !! l1 = Some u1' /\ unities s' !! l2 = Some u2' /\
    u_log u1' = u_log u1 ++ (message <$> commands e1 (side true ops)) /\
    u_log u2' = u_log u2 ++ (message <$> commands e2 (side false ops)).
Proof.
  intros Hrun Hi1 Hi2 Hl. revert s u1 u2.
  induction Hrun as [|[b [op a]] ops [[h Hh] Ha] _ IH];
    intros s u1 u2 Hr1 Hr2 Hg1 Hg2 Hu1 Hu2.
  - exists s, u1, u2. rewrite !app_nil_r. by split_and!.
  - destruct b; simpl in Hh.
    + destruct (step_beside e1 _ op a h s l1 l2 u1 u2 Hh Ha Hi1 Hi2 Hl Hr1 Hr2 Hg1 Hg2 Hu1 Hu2)
        as (s1 & v & Hs & Hr1' & Hr2' & Hg1' & Hg2' & Hu1' & Hu2').
      destruct (IH s1 _ _ Hr1' Hr2' Hg1' Hg2' Hu1' Hu2') as (s' & u1' & u2' & Hs' & ?&?&?&?& Hlog1 & Hlog2).
      exists s', u1', u2'. cbn [run_mixed]. rewrite run_bind, Hs, !side_cons. cbn [Bool.eqb].
      split_and!; try done.
      rewrite Hlog1, commands_cons, log_after_log, app_assoc. done.
    + destruct (step_beside e2 _ op a h s l2 l1 u2 u1 Hh Ha Hi2 Hi1 (not_eq_sym Hl) Hr2 Hr1 Hg2 Hg1 Hu2 Hu1)
        as (s1 & v & Hs & Hr2' & Hr1' & Hg2' & Hg1' & Hu2' & Hu1').
      destruct (IH s1 _ _ Hr1' Hr2' Hg1' Hg2' Hu1' Hu2') as (s' & u1' & u2' & Hs' & ?&?&?&?& Hlog1 & Hlog2).
      exists s', u1', u2'. cbn [run_mixed]. rewrite run_bind, Hs, !side_cons. cbn [Bool.eqb].
      split_and!; try done.
      rewrite Hlog2, commands_cons, log_after_log, app_assoc. done.
Qed.
End two_extensions.
