(* ===== verification/Page.v ===== *)
(** * The Tello and the Mambo on one page

    The GUI of the repository can load both Unity-backed extensions at
    once.  They then share the page: the global [stageId] and the function
    [changeStage], each keeping its own Unity instance.  This file compares
    the two classes block by block, states what loading both does, applies
    the [Session.v] theorems to the Tello and the Mambo (a Tello session
    from a fresh page, and Tello and Mambo blocks interleaved), shows that
    Phantom 4 blocks interleaved with a Tello script cannot disturb it,
    and checks the three catalogs against their method tables. *)

From stdpp Require Import base gmap strings list.
From Stdlib Require Import Ascii ZArith Lia.
From S2P Require Import Base JsNum Js Host Protocol Catalog Extension Drone Tello Mambo Phantom4 Session.

Local Open Scope js_scope.

Module T := DjiTelloBlocks.
Module M := ParrotMamboBlocks.
Module P := DjiPhantom4Blocks.

(** The command of every Tello block but [picture] is the Mambo's. *)
Lemma command_of_agree (op : string) (a : jsargs) :
  is_Some (T.method op) -> op <> "picture" -> T.command_of op a = M.command_of op a.
Proof. unfold T.method, T.command_of, M.command_of. intros [h Hm] Hne. str_cases; congruence. Qed.

(** The opcodes of both catalogs. *)
Definition shared_opcodes : list string :=
  List.filter (fun op => str_mem op (opcodes M.getInfo)) (opcodes T.getInfo).

Lemma shared_opcodes_both (op : string) :
  str_mem op shared_opcodes = true ->
  str_mem op (opcodes T.getInfo) = true /\ str_mem op (opcodes M.getInfo) = true.
Proof.
  unfold shared_opcodes. intros H. apply existsb_exists in H as (x & Hx & Hop).
  apply filter_In in Hx as [Hx Hm]. apply String.eqb_eq in Hop as ->.
  split; [|done]. apply existsb_exists. exists x. split; [done|apply String.eqb_refl].
Qed.

(** The example page with both globals naming the Tello's instance. *)
Definition one_instance_page : state :=
  with_globals (<["gameInstance" := VUnity 0]> (globals example_page)) example_page.

(** C8: The two classes are interchangeable on the blocks they share:
    on a page where [djiTelloInstance] and [gameInstance] hold the same
    live instance, every opcode of both catalogs ([shared_opcodes]) other
    than [changeStage]
    (which selects stage 2 on the Tello and 1 on the Mambo) and [picture]
    (a no-op on the Tello, ["0,7"] on the Mambo) has the same effect and
    result whichever extension runs it. *)
Theorem tello_mambo_equivalent (op : string) (a : jsargs) (s : state) (l : nat) (u : unity) :
  str_mem op shared_opcodes = true -> op <> "changeStage" -> op <> "picture" -> args_wf a ->
  globals s !! "djiTelloInstance" = Some (VUnity l) -> globals s !! "gameInstance" = Some (VUnity l) ->
  unities s !! l = Some u ->
  run (run_block T.extension op a) s = run (run_block M.extension op a) s.
Proof.
  intros Hsh Hcs Hpic Ha HiT HiM Hu. destruct (shared_opcodes_both op Hsh) as [HT HM].
  apply T.tello_known in HT as [h1 H1]. apply M.mambo_known in HM as [h2 H2].
  unfold run_block. cbn [ext_method T.extension M.extension]. rewrite H1, H2.
  destruct (T.command_of op a) as [c|] eqn:Hc.
  - rewrite (T.tello_method_sends op h1 a c s l u) by done.
    rewrite command_of_agree in Hc by eauto.
    by rewrite (M.mambo_method_sends op h2 a c s l u).
  - rewrite (T.tello_quiet_methods op h1 a s) by done.
    rewrite command_of_agree in Hc by eauto.
    by rewrite (M.mambo_quiet_methods op h2 a s).
Qed.

Lemma tello_mambo_equivalent_witness :
  str_mem "set_gaz" shared_opcodes = true /\ "set_gaz" <> "changeStage" /\ "set_gaz" <> "picture" /\ args_wf example_args /\
  globals one_instance_page !! "djiTelloInstance" = Some (VUnity 0) /\
  globals one_instance_page !! "gameInstance" = Some (VUnity 0) /\
  unities one_instance_page !! 0 = Some (mk_unity "djiTello_drone" "static/dji_tello/dji_tello.json" []) /\
  run (run_block T.extension "set_gaz" example_args) one_instance_page
  = run (run_block M.extension "set_gaz" example_args) one_instance_page.
Proof.
  split_and!; [concrete|done|done|concrete..|].
  eapply tello_mambo_equivalent; [concrete|done|done|concrete..].
Defined.

(** Loading the Mambo extension, then the Tello. *)
Definition load_both : JS unit := M.constructor ;; T.constructor.

(** C9: Loading the Mambo and then the Tello on a page that declares
    their globals returns normally and leaves both instances live and
    ready, the Mambo's at the first free index and the Tello's after it,
    and the page on the Tello's stage: [stageId] is 2, after the calls
    [changeStage(1)] and [changeStage(2)].  The two classes share
    [stageId], so the stage the Mambo selected is overridden. *)
Theorem both_loaded (s : state) :
  is_Some (globals s !! "stageId") -> globals s !! "changeStage" = Some (VHost "changeStage") ->
  globals s !! "UnityLoader" = Some (VHost "UnityLoader") ->
  is_Some (globals s !! "djiTelloInstance") -> is_Some (globals s !! "gameInstance") ->
  exists s',
    run load_both s = (s', Normal tt) /\
    globals s' !! "stageId" = Some (VInt 2) /\
    host_log s' = host_log s ++ [HostChangeStage (VInt 1); HostChangeStage (VInt 2)] /\
    host_ready "gameInstance" s' /\ host_ready "djiTelloInstance" s' /\
    globals s' !! "gameInstance" = Some (VUnity (length (unities s))) /\
    globals s' !! "djiTelloInstance" = Some (VUnity (S (length (unities s)))).
Proof.
  intros Hst Hcs Hul [t Ht] [g Hg]. exists (T.constructed (M.constructed s)).
  unfold load_both. rewrite run_bind, M.mambo_constructor_run by eauto.
  rewrite T.tello_constructor_run by (unfold M.constructed, staged; simpl; simplify_map_eq; eauto).
  unfold host_ready, T.constructed, M.constructed, staged; simpl; rewrite ?length_app; simpl.
  split_and!; try done; simplify_map_eq; try done.
  - by rewrite <- app_assoc.
  - exists (length (unities s)). split; [by simplify_map_eq|lia].
  - exists (length (unities s) + 1). split; [by simplify_map_eq|lia].
  - do 2 f_equal. lia.
Qed.

(** The page before any extension is loaded: the globals the extensions
    use are declared, no Unity instance exists yet. *)
Definition blank_page : state :=
  mk_state
    (<["stageId" := VInt 0]> (<["changeStage" := VHost "changeStage"]>
     (<["UnityLoader" := VHost "UnityLoader"]> (<["djiTelloInstance" := VUndefined]>
     (<["gameInstance" := VUndefined]> ∅)))))
    [] ∅ [].

Lemma both_loaded_witness :
  is_Some (globals blank_page !! "stageId") /\
  globals blank_page !! "changeStage" = Some (VHost "changeStage") /\
  globals blank_page !! "UnityLoader" = Some (VHost "UnityLoader") /\
  is_Some (globals blank_page !! "djiTelloInstance") /\ is_Some (globals blank_page !! "gameInstance") /\
  exists s',
    run load_both blank_page = (s', Normal tt) /\
    globals s' !! "stageId" = Some (VInt 2) /\
    host_log s' = host_log blank_page ++ [HostChangeStage (VInt 1); HostChangeStage (VInt 2)] /\
    host_ready "gameInstance" s' /\ host_ready "djiTelloInstance" s' /\
    globals s' !! "gameInstance" = Some (VUnity (length (unities blank_page))) /\
    globals s' !! "djiTelloInstance" = Some (VUnity (S (length (unities blank_page)))).
Proof. split_and!; [concrete..|apply both_loaded; concrete]. Defined.

(** ** The interface theorems at the Tello *)

#[local] Existing Instance T.unity_drone.

Definition tello_unity : unity := mk_unity "djiTello_drone" "static/dji_tello/dji_tello.json" [].

Definition example_script : list (string * jsargs) :=
  [("takeoff", ∅); ("set_gaz", example_args); ("flip", <["m" := VStr "右"]> ∅); ("battery", ∅)].

(** The message strings a Tello script sends, in order. *)
Definition tello_messages (ops : list (string * jsargs)) : list string :=
  encode_command <$> commands T.extension ops.

(** C3: A Tello script -- blocks of the catalog with string or number
    arguments, run one after the other on a ready page -- returns normally
    and leaves the page ready; the Tello instance's log grows by one
    message ["Drones", "Scratch3", m] per command block, in order, and the
    simulator decoding the new messages reads back exactly the blocks'
    commands; no other Unity instance is touched. *)
Theorem tello_script_sends (ops : list (string * jsargs)) (s : state) (l : nat) (u : unity) :
  runnable T.extension ops -> host_ready "djiTelloInstance" s ->
  globals s !! "djiTelloInstance" = Some (VUnity l) -> unities s !! l = Some u ->
  exists s' u',
    run (run_script T.extension ops) s = (s', Normal tt) /\
    host_ready "djiTelloInstance" s' /\
    unities s' !! l = Some u' /\ u_container u' = u_container u /\ u_build u' = u_build u /\
    u_log u' = u_log u ++ (pair ("Drones", "Scratch3") <$> tello_messages ops) /\
    decode_message <$> tello_messages ops = Some <$> commands T.extension ops /\
    (forall l', l' <> l -> unities s' !! l' = unities s !! l').
Proof.
  intros Hrun Hready Hinst Hu.
  destruct (@script_log T.extension T.unity_drone ops s l u Hrun Hready Hinst Hu)
    as (s' & u' & Hs & Hready' & _ & Hu' & Hc & Hb & Hlog & Hother).
  exists s', u'. unfold tello_messages. split_and!; try done.
  - rewrite Hlog, <- list_fmap_compose. done.
  - rewrite <- list_fmap_compose. apply list_fmap_ext. intros i c Hi. simpl.
    apply decode_encode. eapply (Forall_lookup_1 (fun c => command_wf c = true)); [by apply commands_wf|done].
Qed.

Lemma tello_script_sends_witness :
  runnable T.extension example_script /\ host_ready "djiTelloInstance" example_page /\
  globals example_page !! "djiTelloInstance" = Some (VUnity 0) /\ unities example_page !! 0 = Some tello_unity /\
  exists s' u',
    run (run_script T.extension example_script) example_page = (s', Normal tt) /\
    host_ready "djiTelloInstance" s' /\
    unities s' !! 0 = Some u' /\ u_container u' = u_container tello_unity /\ u_build u' = u_build tello_unity /\
    u_log u' = u_log tello_unity ++ (pair ("Drones", "Scratch3") <$> tello_messages example_script) /\
    decode_message <$> tello_messages example_script = Some <$> commands T.extension example_script /\
    (forall l', l' <> 0 -> unities s' !! l' = unities example_page !! l').
Proof.
  split; [concrete|]. split; [ready|]. do 2 (split; [concrete|]).
  apply tello_script_sends; first [concrete|ready].
Defined.

#[local] Existing Instance M.unity_drone.

(** Every message the instance in [inst] has received is addressed to the
    simulator's [Drones] object and decodes to a well-formed command. *)
Definition decodable_log (inst : string) (s : state) : Prop :=
  forall l u, globals s !! inst = Some (VUnity l) -> unities s !! l = Some u ->
    Forall (fun m => m.1 = ("Drones", "Scratch3") /\
                     exists c, command_wf c = true /\ decode_message m.2 = Some c) (u_log u).

(** C4: Along every run of Mambo blocks (any scripts in any interleaving,
    blocks that throw included) from a page where the Mambo's instance is
    live and its log holds only messages of well-formed commands, the page
    stays ready and every message the instance has received is addressed to
    ["Drones", "Scratch3"] and decodes to a well-formed command. *)
Theorem mambo_runs_decodable (s s' : state) :
  well_logged M.extension s -> runs M.extension s s' ->
  host_ready "gameInstance" s' /\ decodable_log "gameInstance" s'.
Proof.
  intros Hw Hr. destruct (@runs_well_logged M.extension M.unity_drone s s' Hw Hr) as [Hready Hlog].
  split; [done|]. intros l u Hl Hu. eapply Forall_impl; [exact (Hlog l u Hl Hu)|].
  intros m (c & Hc & ->). split; [done|]. exists c. split; [done|]. by apply decode_encode.
Qed.

Lemma mambo_runs_decodable_witness :
  well_logged M.extension example_page /\
  runs M.extension example_page (fst (run (run_block M.extension "grab" (<["m" := VStr "開く"]> ∅)) example_page)) /\
  (host_ready "gameInstance" (fst (run (run_block M.extension "grab" (<["m" := VStr "開く"]> ∅)) example_page)) /\
   decodable_log "gameInstance" (fst (run (run_block M.extension "grab" (<["m" := VStr "開く"]> ∅)) example_page))).
Proof.
  assert (Hw : well_logged M.extension example_page).
  { split; [ready|]. intros l u Hl Hu. vm_compute in Hl. simplify_eq. vm_compute in Hu. simplify_eq. constructor. }
  assert (Hr : runs M.extension example_page
    (fst (run (run_block M.extension "grab" (<["m" := VStr "開く"]> ∅)) example_page)))
    by (eapply (runs_step _ _ "grab" (<["m" := VStr "開く"]> ∅)); [concrete|reflexivity|apply runs_refl]).
  split; [exact Hw|split; [exact Hr|exact (mambo_runs_decodable _ _ Hw Hr)]].
Defined.

(** ** The three catalogs *)

(** The extensions of the page, and the check of a catalog against its
    method table. *)
Definition page_extensions : list extension := [T.extension; M.extension; P.extension].

Definition catalog_ok (e : extension) : bool := info_wf (ext_info e) && methods_cover e.

(** C16: The catalogs of the three classes are consistent with their
    method tables: opcodes are unique, every placeholder of a label is a
    declared argument, every menu an argument names exists and holds the
    argument's default, and every opcode has a method. *)
Theorem catalogs_consistent : forallb catalog_ok page_extensions = true.
Proof. vm_compute. reflexivity. Qed.

(** ** A Tello session from a freshly loaded page *)

(** The runtime constructs the extension when the project loads it, then
    runs the blocks of the scripts one after the other. *)
Definition tello_session (ops : list (string * jsargs)) : JS unit :=
  T.constructor ;; run_script T.extension ops.

Lemma tello_constructed_instance (s : state) :
  globals (T.constructed s) !! "djiTelloInstance" = Some (VUnity (length (unities s))) /\
  unities (T.constructed s) !! length (unities s) = Some tello_unity.
Proof.
  unfold T.constructed, staged; simpl. split; [by simplify_map_eq|].
  rewrite lookup_app_r, Nat.sub_diag by lia. done.
Qed.

(** C19: Every Tello script runs to completion once the extension is
    loaded: on a page that declares [stageId], [changeStage], [UnityLoader]
    and [djiTelloInstance], constructing the extension and then running any
    script of catalog blocks with string or number arguments returns
    normally, leaves the page ready, and the fresh instance has received
    exactly the script's messages, in order, and nothing else. *)
Theorem tello_session_completes (ops : list (string * jsargs)) (s : state) :
  runnable T.extension ops ->
  is_Some (globals s !! "stageId") -> globals s !! "changeStage" = Some (VHost "changeStage") ->
  globals s !! "UnityLoader" = Some (VHost "UnityLoader") -> is_Some (globals s !! "djiTelloInstance") ->
  exists s' u',
    run (tello_session ops) s = (s', Normal tt) /\ host_ready "djiTelloInstance" s' /\
    globals s' !! "djiTelloInstance" = Some (VUnity (length (unities s))) /\
    unities s' !! length (unities s) = Some u' /\
    u_log u' = pair ("Drones", "Scratch3") <$> tello_messages ops.
Proof.
  intros Hrun Hst Hcs Hul Hinst. destruct (tello_constructed_instance s) as [Hl Hu].
  destruct (@script_log T.extension T.unity_drone ops (T.constructed s) _ _ Hrun
              (T.tello_constructed_ready s Hst Hcs) Hl Hu)
    as (s' & u' & Hs & Hready & Hl' & Hu' & _ & _ & Hlog & _).
  exists s', u'. unfold tello_session. rewrite run_bind, T.tello_constructor_run by done.
  split_and!; try done. rewrite Hlog. unfold tello_messages. by rewrite <- list_fmap_compose.
Qed.

Lemma tello_session_completes_witness :
  runnable T.extension example_script /\
  is_Some (globals blank_page !! "stageId") /\ globals blank_page !! "changeStage" = Some (VHost "changeStage") /\
  globals blank_page !! "UnityLoader" = Some (VHost "UnityLoader") /\
  is_Some (globals blank_page !! "djiTelloInstance") /\
  exists s' u',
    run (tello_session example_script) blank_page = (s', Normal tt) /\ host_ready "djiTelloInstance" s' /\
    globals s' !! "djiTelloInstance" = Some (VUnity (length (unities blank_page))) /\
    unities s' !! length (unities blank_page) = Some u' /\
    u_log u' = pair ("Drones", "Scratch3") <$> tello_messages example_script.
Proof. do 5 (split; [concrete|]). apply tello_session_completes; concrete. Defined.

(** ** Tello and Mambo blocks interleaved *)

(** The message strings a Mambo script sends, in order. *)
Definition mambo_messages (ops : list (string * jsargs)) : list string :=
  encode_command <$> commands M.extension ops.

(** C23: With both extensions loaded on separate instances, any
    interleaving of Tello blocks ([true]) and Mambo blocks ([false]) --
    catalog blocks with string or number arguments, as the runtime
    alternates between scripts -- returns normally, and each instance
    receives exactly the messages of its own extension's blocks, in their
    order, and none of the other's: the shared page globals ([stageId],
    [changeStage]) never redirect a message. *)
Theorem tello_mambo_interleaved (ops : list (bool * (string * jsargs))) (s : state)
    (l1 l2 : nat) (u1 u2 : unity) :
  mixed_runnable T.extension M.extension ops -> l1 <> l2 ->
  host_ready "djiTelloInstance" s -> host_ready "gameInstance" s ->
  globals s !! "djiTelloInstance" = Some (VUnity l1) -> globals s !! "gameInstance" = Some (VUnity l2) ->
  unities s !! l1 = Some u1 -> unities s !! l2 = Some u2 ->
  exists s' u1' u2',
    run (run_mixed T.extension M.extension ops) s = (s', Normal tt) /\
    unities s' !! l1 = Some u1' /\ unities s' !! l2 = Some u2' /\
    u_log u1' = u_log u1 ++ (pair ("Drones", "Scratch3") <$> tello_messages (side true ops)) /\
    u_log u2' = u_log u2 ++ (pair ("Drones", "Scratch3") <$> mambo_messages (side false ops)).
Proof.
  intros Hrun Hl Hr1 Hr2 Hg1 Hg2 Hu1 Hu2.
  destruct (mixed_log T.extension M.extension T.unity_drone M.unity_drone ops s l1 l2 u1 u2
              Hrun ltac:(done) ltac:(done) Hl Hr1 Hr2 Hg1 Hg2 Hu1 Hu2)
    as (s' & u1' & u2' & Hs & _ & _ & Hu1' & Hu2' & Hlog1 & Hlog2).
  exists s', u1', u2'. unfold tello_messages, mambo_messages.
  rewrite <- !list_fmap_compose. by split_and!.
Qed.

(** Take off with the Tello, open the Mambo's arm, descend with the Tello,
    switch the stage from the Mambo, flip the Tello. *)
Definition example_mixed : list (bool * (string * jsargs)) :=
  [(true, ("takeoff", ∅)); (false, ("grab", <["m" := VStr "開く"]> ∅));
   (true, ("set_gaz", example_args)); (false, ("changeStage", <["m" := VStr "Simulator"]> ∅));
   (true, ("flip", <["m" := VStr "右"]> ∅))].

Lemma tello_mambo_interleaved_witness :
  mixed_runnable T.extension M.extension example_mixed /\ 0%nat <> 1%nat /\
  host_ready "djiTelloInstance" example_page /\ host_ready "gameInstance" example_page /\
  globals example_page !! "djiTelloInstance" = Some (VUnity 0) /\
  globals example_page !! "gameInstance" = Some (VUnity 1) /\
  unities example_page !! 0 = Some tello_unity /\
  unities example_page !! 1 = Some (mk_unity "gameContainer_drone" "static/WebGL/WebGL.json" []) /\
  exists s' u1' u2',
    run (run_mixed T.extension M.extension example_mixed) example_page = (s', Normal tt) /\
    unities s' !! 0 = Some u1' /\ unities s' !! 1 = Some u2' /\
    u_log u1' = u_log tello_unity ++ (pair ("Drones", "Scratch3") <$> tello_messages (side true example_mixed)) /\
    u_log u2' = u_log (mk_unity "gameContainer_drone" "static/WebGL/WebGL.json" []) ++ (pair ("Drones", "Scratch3") <$> mambo_messages (side false example_mixed)).
Proof.
  split; [concrete|]. split; [done|]. split; [ready|]. split; [ready|].
  do 4 (split; [concrete|]). apply tello_mambo_interleaved; first [concrete|ready|done].
Defined.

(** ** The Phantom 4 beside the Tello *)

Lemma tello_messages_cons (op : string) (a : jsargs) (ops : list (string * jsargs)) :
  pair ("Drones", "Scratch3") <$> tello_messages ((op, a) :: ops) =
  (message <$> option_list (T.command_of op a)) ++ (pair ("Drones", "Scratch3") <$> tello_messages ops).
Proof. unfold tello_messages. simpl. by destruct (T.command_of op a). Qed.

(** A Tello block keeps what the Phantom 4 needs on the page. *)
Lemma tello_keeps_phantom_page (s s' : state) :
  frames_stage s s' -> P.page_ready s -> P.page_ready s'.
Proof. intros [Hdom Hg] (H1 & H2 & Hf). unfold P.page_ready. by rewrite Hdom, Hg. Qed.

(** A Phantom 4 block keeps the Tello's page ready. *)
Lemma phantom_keeps_tello_page (s s' : state) :
  unities s' = unities s -> (forall x, x <> "droneFlag" -> globals s' !! x = globals s !! x) ->
  host_ready "djiTelloInstance" s -> host_ready "djiTelloInstance" s'.
Proof.
  intros Hu Hg (Hst & Hcs & l & Hl & Hlen). unfold host_ready.
  rewrite !Hg, Hu by done. eauto.
Qed.

(** C28: The Phantom 4 extension cannot disturb the Tello: on a page where
    the Tello is loaded and the Phantom 4's two elements and [droneFlag]
    exist, any interleaving of Tello blocks ([true]) and Phantom 4 blocks
    ([false]) returns normally, keeps both ready, and the Tello instance
    receives exactly the messages of the Tello blocks, in order; no other
    Unity instance changes. *)
Theorem tello_phantom_interleaved (ops : list (bool * (string * jsargs))) (s : state) (l : nat) (u : unity) :
  mixed_runnable T.extension P.extension ops ->
  host_ready "djiTelloInstance" s -> P.page_ready s ->
  globals s !! "djiTelloInstance" = Some (VUnity l) -> unities s !! l = Some u ->
  exists s' u',
    run (run_mixed T.extension P.extension ops) s = (s', Normal tt) /\
    host_ready "djiTelloInstance" s' /\ P.page_ready s' /\ unities s' !! l = Some u' /\
    u_log u' = u_log u ++ (pair ("Drones", "Scratch3") <$> tello_messages (side true ops)) /\
    (forall l', l' <> l -> unities s' !! l' = unities s !! l').
Proof.
  intros Hrun. revert s u.
  induction Hrun as [|[b [op a]] ops [[h Hh] Ha] _ IH]; intros s u Hr Hp Hg Hu.
  - exists s, u. rewrite app_nil_r. by split_and!.
  - destruct b; simpl in Hh.
    + destruct (T.tello_method_step op a h s l u Hh Ha Hr Hg Hu)
        as (s1 & v & Hs & Hr1 & Hg1 & Hus1 & Hfr).
      assert (Hu1 : unities s1 !! l = Some (log_after (T.command_of op a) u))
        by (rewrite Hus1; apply list_lookup_insert_eq; by eapply lookup_lt_Some).
      destruct (IH s1 _ Hr1 (tello_keeps_phantom_page s s1 Hfr Hp) Hg1 Hu1)
        as (s' & u' & Hs' & Hr' & Hp' & Hu' & Hlog & Hother).
      exists s', u'. cbn [run_mixed]. unfold run_block. rewrite run_bind. simpl. rewrite Hh, Hs, side_cons.
      cbn [Bool.eqb]. split_and!; try done.
      * by rewrite Hlog, tello_messages_cons, log_after_log, <- app_assoc.
      * intros l' Hne. rewrite Hother, Hus1 by done. by apply list_lookup_insert_ne.
    + destruct (P.phantom_method_step op a h s Hh Hp) as (s1 & v & Hs & Hp1 & Hus1 & _ & Hg1).
      destruct (IH s1 u (phantom_keeps_tello_page s s1 Hus1 Hg1 Hr) Hp1 ltac:(by rewrite Hg1)
                  ltac:(by rewrite Hus1)) as (s' & u' & Hs' & Hr' & Hp' & Hu' & Hlog & Hother).
      exists s', u'. cbn [run_mixed]. unfold run_block. rewrite run_bind. simpl. rewrite Hh, Hs, side_cons.
      cbn [Bool.eqb]. split_and!; try done. intros l' Hne. by rewrite Hother, Hus1.
Qed.

(** The Phantom 4 switches the stage between two Tello blocks. *)
Definition example_with_phantom : list (bool * (string * jsargs)) :=
  [(true, ("takeoff", ∅)); (false, ("changeStage", <["m" := VStr "Simulator"]> ∅));
   (true, ("set_gaz", example_args)); (false, ("takeoff", ∅))].

Lemma tello_phantom_interleaved_witness :
  mixed_runnable T.extension P.extension example_with_phantom /\
  host_ready "djiTelloInstance" example_page /\ P.page_ready example_page /\
  globals example_page !! "djiTelloInstance" = Some (VUnity 0) /\
  unities example_page !! 0 = Some tello_unity /\
  exists s' u',
    run (run_mixed T.extension P.extension example_with_phantom) example_page = (s', Normal tt) /\
    host_ready "djiTelloInstance" s' /\ P.page_ready s' /\ unities s' !! 0 = Some u' /\
    u_log u' = u_log tello_unity ++ (pair ("Drones", "Scratch3") <$> tello_messages (side true example_with_phantom)) /\
    (forall l', l' <> 0 -> unities s' !! l' = unities example_page !! l').
Proof.
  assert (Hp : P.page_ready example_page) by (split_and!; concrete).
  split; [concrete|]. split; [ready|]. split; [exact Hp|]. do 2 (split; [concrete|]).
  apply tello_phantom_interleaved; first [concrete|ready|exact Hp].
Defined.
